(** * Cryptocurrency data pipeline: acquisition and workbook synchronisation

    A shallow embedding of [Python_Scripts/Only_Script.py]: the retrying
    fetcher [make_api_call_with_retry], the normalisers
    [get_historical_data] and [get_fear_greed_index], and the workbook
    synchroniser [create_or_update_excel].

    Conventions of the embedding.
    - JSON numbers and Python floats are exact rationals ([Q]); rounding to
      [n] decimals is round-half-even on the exact value.
    - pandas' missing markers ([None], [NaN], [NaT], [pd.NA]) are one value:
      [None] in a typed column, [Blank] in a worksheet cell.
    - A worksheet is the dense grid that [iter_rows(values_only=True)]
      yields: a list of rows of cell values.  Fonts, fills, widths, number
      formats and charts are not part of the model. *)

From Stdlib Require Import List String Ascii Bool Arith ZArith Qround QArith Lia Lqa.
From Stdlib Require Import DecimalString Permutation Sorted.
From Stdlib Require Import Qpower.
Import ListNotations.
Open Scope string_scope.
Open Scope list_scope.

(** ** Configuration constants (lines 30-90 of the script) *)

Definition INITIAL_API_CALL_DELAY_SECONDS : Q := 5.
Definition MAX_RETRIES : nat := 5.
Definition BACKOFF_FACTOR : Q := 2.

(** ** The retrying fetcher *)

Module Fetcher.

(** What the server sent back: a status code and a body. *)
Record Response := mkResponse { status_code : Z; body : string }.

(** One call of [requests.get]: either a response object is bound, or the
    call raises a [RequestException] before anything is assigned (connection
    refused, DNS failure, timeout). *)
Inductive reply :=
| Answered (r : Response)
| NoAnswer.

(** [response.raise_for_status()] raises [HTTPError] for 4xx and 5xx. *)
Definition raise_for_status (r : Response) : bool :=
  ((400 <=? status_code r) && (status_code r <? 600))%Z.

Inductive exn := UnboundLocalError.

(** The function either returns ([None] or a response) or lets an exception
    escape. *)
Inductive outcome :=
| Return (r : option Response)
| Raise (e : exn).

(** Observable effects of one call of the fetcher: the number of requests
    issued and the arguments of [time.sleep], oldest first. *)
Record effects := mkEffects { requests : nat; sleeps : list Q }.

(** The body of [for attempt in range(max_retries)].

    [server k] is the reply to the [k]-th request and [uniform k] the
    [k]-th value of [random.uniform(0, 1)].  [fuel] counts the iterations
    that remain, [attempt] the ones done.  [response] is the Python local of
    that name: [None] while it is still unbound, and otherwise the last
    response that was assigned, which survives from one iteration to the
    next. *)
Fixpoint retry_loop (server : nat -> reply) (uniform : nat -> Q)
    (fuel attempt : nat) (delay : Q) (response : option Response)
    (slept : list Q) : outcome * effects :=
  match fuel with
  | O => (Return None, mkEffects attempt slept)
  | S fuel' =>
      let rate_limited :=
        retry_loop server uniform fuel' (S attempt) (delay * BACKOFF_FACTOR)%Q in
      let jitter := uniform (List.length slept) in
      match server attempt with
      | Answered r =>
          if raise_for_status r then
            if (status_code r =? 429)%Z
            then rate_limited (Some r) (slept ++ [(delay + jitter)%Q])
            else (Return None, mkEffects (S attempt) slept)
          else (Return (Some r), mkEffects (S attempt) slept)
      | NoAnswer =>
          match response with
          | None => (Raise UnboundLocalError, mkEffects (S attempt) slept)
          | Some stale =>
              if (status_code stale =? 429)%Z
              then rate_limited (Some stale) (slept ++ [(delay + jitter)%Q])
              else (Return None, mkEffects (S attempt) slept)
          end
      end
  end.

Definition make_api_call_with_retry (server : nat -> reply)
    (uniform : nat -> Q) (max_retries : nat) (initial_delay : Q)
    : outcome * effects :=
  retry_loop server uniform max_retries 0 initial_delay None [].

Definition total_delay (e : effects) : Q := fold_right Qplus 0 (sleeps e).

(** A server that answers 429 twice and 200 from then on. *)
Definition twice_limited (k : nat) : reply :=
  match k with
  | 0%nat | 1%nat => Answered (mkResponse 429 "")
  | _ => Answered (mkResponse 200 "{}")
  end.

End Fetcher.

(** ** Numbers and calendar dates shared by the normalisers *)

Module Numeric.

(** Nearest integer, ties to the even neighbour (Python's [round], NumPy's
    [rint]). *)
Definition round_half_even (x : Q) : Z :=
  let f := Qfloor x in
  match ((x - inject_Z f) ?= (1 # 2))%Q with
  | Lt => f
  | Gt => (f + 1)%Z
  | Eq => if Z.even f then f else (f + 1)%Z
  end.

(** [round(x, n)]: the result is the integer [round_half_even (x * 10^n)]
    over the denominator [10^n]. *)
Definition round_to (n : nat) (x : Q) : Q :=
  Qmake (round_half_even (x * inject_Z (10 ^ Z.of_nat n))%Q)
        (Z.to_pos (10 ^ Z.of_nat n)).

(** [int(x)] on a float: truncation towards zero. *)
Definition int (x : Q) : Z := Z.quot (Qnum x) (Zpos (Qden x)).

Definition sum (l : list Q) : Q := fold_right Qplus 0 l.

(** Arithmetic mean of a non-empty sample. *)
Definition mean (l : list Q) : Q :=
  (sum l / inject_Z (Z.of_nat (List.length l)))%Q.

(** Sample variance with [ddof = 1]. *)
Definition variance (l : list Q) : Q :=
  let m := mean l in
  (sum (map (fun x => (x - m) * (x - m)) l)
   / inject_Z (Z.of_nat (List.length l) - 1))%Q.

End Numeric.

Module Calendar.

(** Proleptic Gregorian date (year, month, day) of a day number counted
    from 1970-01-01. *)
Definition civil_from_days (days : Z) : Z * Z * Z :=
  let z := (days + 719468)%Z in
  let era := (z / 146097)%Z in
  let doe := (z - era * 146097)%Z in
  let yoe := ((doe - doe / 1460 + doe / 36524 - doe / 146096) / 365)%Z in
  let doy := (doe - (365 * yoe + yoe / 4 - yoe / 100))%Z in
  let mp := ((5 * doy + 2) / 153)%Z in
  let d := (doy - (153 * mp + 2) / 5 + 1)%Z in
  let m := (if mp <? 10 then mp + 3 else mp - 9)%Z in
  let y := (yoe + era * 400)%Z in
  ((if m <=? 2 then y + 1 else y)%Z, m, d).

Definition digit (n : Z) : ascii :=
  ascii_of_nat (48 + Z.to_nat (n mod 10)%Z)%nat.

Definition digits2 (n : Z) : string :=
  String (digit (n / 10)%Z) (String (digit n) EmptyString).

Definition digits4 (n : Z) : string :=
  String (digit (n / 1000)%Z) (String (digit (n / 100)%Z) (digits2 n)).

(** [strftime('%Y-%m-%d')] of a day number, for the four-digit years. *)
Definition strftime_ymd (days : Z) : string :=
  let '(y, m, d) := civil_from_days days in
  String.append (digits4 y)
    (String.append "-" (String.append (digits2 m)
       (String.append "-" (digits2 d)))).

End Calendar.

(** ** Historical series normaliser ([get_historical_data], lines 214-267) *)

Module Historical.
Import Numeric.

(** One element of a raw series: [[timestamp_ms, value]], the value being a
    JSON number or [null]. *)
Definition point : Type := Z * option Q.

(** [response.json()] of the market-chart endpoint; a missing key reads as
    the empty list ([data.get(key, [])]). *)
Record market_chart := mkChart {
  prices : list point;
  total_volumes : list point;
  market_caps : list point
}.

(** A float cell of a pandas column: a finite number, an infinity or the
    missing marker. *)
Inductive flt :=
| Fin (q : Q)
| Inf (negative : bool)
| NaN.

(** The value [round(sqrt(radicand), 3)], kept symbolic because the square
    root of a rational need not be rational. *)
Inductive root := Sqrt3 (radicand : Q).

Record hist_row := mkRow {
  Date : string;
  Price : option Q;
  Volume : option Z;
  Market_Cap : option Z;
  Daily_Return : flt;
  MA_7 : option Q;
  MA_30 : option Q;
  Volatility_7d : option root
}.

(** [datetime.fromtimestamp(ms / 1000).strftime('%Y-%m-%d')]; [utc_offset]
    is the offset of the host's local time in seconds. *)
Definition local_date (utc_offset ms : Z) : string :=
  Calendar.strftime_ymd ((ms + 1000 * utc_offset) / 86400000)%Z.

(** The four columns of the frame built at lines 234-239. *)
Definition date_column (utc_offset : Z) (ps : list point) : list string :=
  map (fun p => local_date utc_offset (fst p)) ps.

Definition price_column (ps : list point) : list (option Q) :=
  map (fun p => option_map (round_to 4) (snd p)) ps.

Definition int_column (vs : list point) : list (option Z) :=
  map (fun v => option_map int (snd v)) vs.

(** [s.shift(1)] *)
Definition shift1 {A} (s : list (option A)) : list (option A) :=
  match s with
  | [] => []
  | _ => None :: removelast s
  end.

(** Float division, element by element. *)
Definition fdiv (a b : option Q) : flt :=
  match a, b with
  | Some x, Some y =>
      if Qeq_bool y 0 then
        match (x ?= 0)%Q with
        | Eq => NaN
        | Gt => Inf false
        | Lt => Inf true
        end
      else Fin (x / y)%Q
  | _, _ => NaN
  end.

Definition fmap (f : Q -> Q) (x : flt) : flt :=
  match x with
  | Fin q => Fin (f q)
  | other => other
  end.

(** [((price / price.shift(1)) - 1) * 100], before rounding. *)
Definition daily_return (price : list (option Q)) : list flt :=
  map (fun ab => fmap (fun q => ((q - 1) * 100)%Q) (fdiv (fst ab) (snd ab)))
      (combine price (shift1 price)).

(** The rows [i - window + 1 .. i] of a column, cut at row 0. *)
Definition window_at {A} (window : nat) (s : list A) (i : nat) : list A :=
  skipn (S i - window)%nat (firstn (S i) s).

Definition observations (w : list (option Q)) : list Q :=
  flat_map (fun x => match x with Some q => [q] | None => [] end) w.

(** [s.rolling(window, min_periods).mean()] *)
Definition rolling_mean (window min_periods : nat) (s : list (option Q))
    : list (option Q) :=
  map (fun i =>
         let obs := observations (window_at window s i) in
         if (List.length obs <? min_periods)%nat || (List.length obs =? 0)%nat
         then None
         else Some (mean obs))
      (seq 0 (List.length s)).

(** Rolling windows see infinities as missing values. *)
Definition finite (x : flt) : option Q :=
  match x with
  | Fin q => Some q
  | _ => None
  end.

(** [s.rolling(window, min_periods).std()], with [ddof = 1]: at least two
    observations are needed. *)
Definition rolling_std (window min_periods : nat) (s : list flt)
    : list (option Q) :=
  map (fun i =>
         let obs := observations (window_at window (map finite s) i) in
         if (List.length obs <? min_periods)%nat || (List.length obs <=? 1)%nat
         then None
         else Some (variance obs))
      (seq 0 (List.length s)).

Fixpoint zip_rows (d : list string) (p : list (option Q))
    (v m : list (option Z)) (r : list flt) (a7 a30 : list (option Q))
    (s : list (option root)) : list hist_row :=
  match d, p, v, m, r, a7, a30, s with
  | d0 :: d, p0 :: p, v0 :: v, m0 :: m, r0 :: r, x0 :: a7, y0 :: a30, s0 :: s =>
      mkRow d0 p0 v0 m0 r0 x0 y0 s0 :: zip_rows d p v m r a7 a30 s
  | _, _, _, _, _, _, _, _ => []
  end.

(** The frame returned for a response that was received.  The rolling
    standard deviation is taken over the unrounded daily returns, which are
    rounded afterwards (lines 247-261). *)
Definition get_historical_data (utc_offset : Z) (data : market_chart)
    : list hist_row :=
  let min_len :=
    Nat.min (List.length (prices data))
      (Nat.min (List.length (total_volumes data)) (List.length (market_caps data))) in
  let date := date_column utc_offset (firstn min_len (prices data)) in
  let price := price_column (firstn min_len (prices data)) in
  let volume := int_column (firstn min_len (total_volumes data)) in
  let cap := int_column (firstn min_len (market_caps data)) in
  let n := List.length price in
  if (1 <? n)%nat then
    let ret := daily_return price in
    zip_rows date price volume cap
      (map (fmap (round_to 3)) ret)
      (map (option_map (round_to 4)) (rolling_mean 7 1 price))
      (map (option_map (round_to 4)) (rolling_mean 30 1 price))
      (map (option_map Sqrt3) (rolling_std 7 1 ret))
  else
    zip_rows date price volume cap
      (repeat NaN n) (repeat None n) (repeat None n) (repeat None n).

End Historical.

(** ** Sentiment normaliser ([get_fear_greed_index], lines 270-292) *)

Module Sentiment.

(** A member of one JSON record as pandas sees it: the key is absent, the
    value is there but reads as the missing marker ([null], or a value that
    the coercion cannot parse), or it parses. *)
Inductive field (A : Type) :=
| Absent
| Coerced
| Parsed (a : A).
Arguments Absent {A}.
Arguments Coerced {A}.
Arguments Parsed {A} a.

Definition present {A} (f : field A) : bool :=
  match f with
  | Absent => false
  | _ => true
  end.

(** One element of [response.json()['data']]: the epoch seconds that
    [timestamp] parses to, the number that [value] parses to, and the
    classification text, which is [Coerced] for a [null]. *)
Record fng_entry := mkEntry {
  timestamp : field Z;
  value : field Q;
  value_classification : field string
}.

Record fng_row := mkFng {
  Date : option string;
  Fear_Greed_Index : option Z;
  Classification : option string
}.

(** [pd.to_datetime(ts, unit='s', errors='coerce')] followed by
    [.dt.strftime('%Y-%m-%d')]: a time outside the nanosecond range of a
    pandas timestamp becomes the missing marker. *)
Definition to_date (ts : field Z) : option string :=
  match ts with
  | Parsed t =>
      if ((-9223372036 <=? t) && (t <=? 9223372036))%Z
      then Some (Calendar.strftime_ymd (t / 86400)%Z)
      else None
  | _ => None
  end.

Definition is_integral (q : Q) : bool :=
  Qeq_bool q (inject_Z (Qfloor q)).

Definition INT64_MIN : Z := (- 9223372036854775808)%Z.
Definition INT64_MAX : Z := 9223372036854775807%Z.

Definition in_int64 (z : Z) : bool :=
  ((INT64_MIN <=? z) && (z <=? INT64_MAX))%Z.

(** [pd.to_numeric(v, errors='coerce').astype('Int64')] on one value:
    the missing marker stays, a whole number of the 64-bit range becomes
    that integer, and for a value with a fractional part or outside that
    range the cast raises, which is the outer [None]. *)
Definition to_Int64 (v : field Q) : option (option Z) :=
  match v with
  | Parsed q =>
      if is_integral q && in_int64 (Qfloor q)
      then Some (Some (Qfloor q))
      else None
  | _ => Some None
  end.

(** The cast of the column goes through when it does for every value. *)
Definition castable (v : field Q) : bool :=
  match to_Int64 v with
  | Some _ => true
  | None => false
  end.

(** A cell of the column [value_classification]: the text, or the missing
    marker for a record without the key and for a [null]. *)
Definition classification (c : field string) : option string :=
  match c with
  | Parsed s => Some s
  | _ => None
  end.

(** One row of the frame, for a column [value] that can be cast. *)
Definition normalise (e : fng_entry) : fng_row :=
  mkFng (to_date (timestamp e))
        match to_Int64 (value e) with
        | Some index => index
        | None => None
        end
        (classification (value_classification e)).

Definition dated (r : fng_row) : bool :=
  match Date r with
  | Some _ => true
  | None => false
  end.

(** Order of two rows that both carry a date: the order of the strings. *)
Definition date_leb (a b : fng_row) : bool :=
  match Date a, Date b with
  | Some x, Some y => String.leb x y
  | _, _ => true
  end.

(** What is known of the sort that [sort_values] runs on the rows that
    carry a date (NumPy's quicksort): it returns the rows in ascending
    order of date.  The order among rows of equal date is left open. *)
Definition orders_by_date (argsort : list fng_row -> list fng_row) : Prop :=
  forall rows,
    Forall (fun r => dated r = true) rows ->
    Permutation rows (argsort rows)
    /\ Sorted (fun a b => date_leb a b = true) (argsort rows).

(** [df.sort_values('Date')]: the rows with a date as the sort returns
    them, then the rows without one in their input order. *)
Definition sort_values_Date (argsort : list fng_row -> list fng_row)
    (rows : list fng_row) : list fng_row :=
  argsort (filter dated rows) ++ filter (fun r => negb (dated r)) rows.

(** The frame returned for a received response; [None] stands for a body
    without the ['data'] key.  A column exists when some record has its
    key.  Every exception of the parsing block ends in the empty frame. *)
Definition get_fear_greed_index (argsort : list fng_row -> list fng_row)
    (payload : option (list fng_entry)) : list fng_row :=
  match payload with
  | None => []
  | Some data =>
      if existsb (fun e => present (timestamp e)) data
         && existsb (fun e => present (value e)) data
         && forallb (fun e => castable (value e)) data
         && existsb (fun e => present (value_classification e)) data
      then sort_values_Date argsort (map normalise data)
      else []
  end.

End Sentiment.

(** ** Workbook synchroniser ([create_or_update_excel], lines 353-780) *)

Module Workbook.

(** *** Cells, worksheets, workbooks *)

Inductive cell :=
| Blank
| Str (s : string)
| Num (q : Q).

Definition worksheet : Type := list (list cell).

(** The sheets of a workbook in tab order, each under its title. *)
Definition workbook : Type := list (string * worksheet).

Definition CURRENT_PORTFOLIO_SHEET_NAME := "Current Portfolio".
Definition TRANSACTIONS_SHEET_NAME := "Transactions".
Definition EXECUTIVE_DASHBOARD_SHEET_NAME := "📊 Executive Dashboard".
Definition MARKET_OVERVIEW_SHEET_NAME := "📈 Market Overview".
Definition GLOBAL_METRICS_SHEET_NAME := "🌍 Global Metrics".
Definition FEAR_GREED_INDEX_SHEET_NAME := "😰 Fear & Greed Index".

Definition SHEET_ORDER : list string :=
  [ EXECUTIVE_DASHBOARD_SHEET_NAME;
    MARKET_OVERVIEW_SHEET_NAME;
    GLOBAL_METRICS_SHEET_NAME;
    FEAR_GREED_INDEX_SHEET_NAME;
    "BTC History (1 Month)";
    "ETH History (1 Month)";
    "BNB History (1 Month)";
    "SOL History (1 Month)";
    "SUI History (1 Month)";
    TRANSACTIONS_SHEET_NAME;
    CURRENT_PORTFOLIO_SHEET_NAME ].

(** [a == b] on cell values. *)
Definition cell_eqb (a b : cell) : bool :=
  match a, b with
  | Blank, Blank => true
  | Str x, Str y => String.eqb x y
  | Num x, Num y => Qeq_bool x y
  | _, _ => false
  end.

(** [ws.max_row]: 1 for a sheet without cells. *)
Definition max_row (ws : worksheet) : nat := Nat.max 1 (List.length ws).

(** [ws[1]]: on a sheet without cells this is one blank cell. *)
Definition first_row (ws : worksheet) : list cell :=
  match ws with
  | [] => [Blank]
  | r :: _ => r
  end.

(** [ws.iter_rows(min_row=2, values_only=True)] *)
Definition rows_from_2 (ws : worksheet) : worksheet := tl ws.

Definition sheetnames (wb : workbook) : list string := map fst wb.

Definition has_sheet (name : string) (wb : workbook) : bool :=
  existsb (String.eqb name) (sheetnames wb).

(** [wb[name]] *)
Fixpoint get_sheet (name : string) (wb : workbook) : option worksheet :=
  match wb with
  | [] => None
  | (n, ws) :: wb' => if String.eqb name n then Some ws else get_sheet name wb'
  end.

(** The sheet called [name] gets new content; [f] sees the old one. *)
Definition update_sheet (name : string) (f : worksheet -> worksheet)
    (wb : workbook) : workbook :=
  map (fun s => if String.eqb name (fst s) then (fst s, f (snd s)) else s) wb.

(** [wb.create_sheet(name)] followed by the rows appended to it. *)
Definition create_sheet (name : string) (content : worksheet) (wb : workbook)
    : workbook :=
  wb ++ [(name, content)].

(** *** Python dictionaries of cell values *)

Definition dict : Type := list (cell * cell).

Fixpoint dict_set (k v : cell) (d : dict) : dict :=
  match d with
  | [] => [(k, v)]
  | (k0, v0) :: d' =>
      if cell_eqb k0 k then (k0, v) :: d' else (k0, v0) :: dict_set k v d'
  end.

Fixpoint dict_get (k : cell) (d : dict) : option cell :=
  match d with
  | [] => None
  | (k0, v0) :: d' => if cell_eqb k0 k then Some v0 else dict_get k d'
  end.

Definition dict_del (k : cell) (d : dict) : dict :=
  filter (fun kv => negb (cell_eqb (fst kv) k)) d.

(** [dict(zip(keys, values))]: pairs up to the shorter list; a key that
    comes again overwrites the value stored before. *)
Definition dict_zip (keys values : list cell) : dict :=
  fold_left (fun d kv => dict_set (fst kv) (snd kv) d) (combine keys values) [].

(** *** The frame of the portfolio merge *)

(** A pandas frame as the merge uses it: the column labels, and one entry
    per row made of the index label and the fields.  A field that a row
    does not carry reads as the missing marker. *)
Record frame := mkFrame {
  columns : list cell;
  records : list (cell * dict)
}.

Definition has_label (c : cell) (cols : list cell) : bool :=
  existsb (cell_eqb c) cols.

Definition add_label (c : cell) (cols : list cell) : list cell :=
  if has_label c cols then cols else cols ++ [c].

(** [pd.DataFrame(list_of_dicts)]: the columns are the keys in order of
    first appearance. *)
Definition columns_of_dicts (ds : list dict) : list cell :=
  fold_left (fun cols d => fold_left (fun cs k => add_label k cs) (map fst d) cols)
            ds [].

Definition field (k : cell) (d : dict) : cell :=
  match dict_get k d with
  | Some v => v
  | None => Blank
  end.

(** [df.set_index(name)] *)
Definition set_index (name : cell) (cols : list cell) (ds : list dict)
    : frame :=
  mkFrame (filter (fun c => negb (cell_eqb c name)) cols)
          (map (fun d => (field name d, dict_del name d)) ds).

Definition empty_frame : frame := mkFrame [] [].

Definition COIN_ID := "Coin ID".
Definition CURRENT_VALUE := "Current Value (USD)".

(** Lines 729-739: the rows of the sheet as a frame indexed by coin. *)
Definition existing_portfolio (ws : worksheet) : frame :=
  let header := if (0 <? max_row ws)%nat then first_row ws else [] in
  let existing_portfolio_data :=
    if (1 <? max_row ws)%nat
    then map (dict_zip header) (rows_from_2 ws)
    else [] in
  let cols := columns_of_dicts existing_portfolio_data in
  if has_label (Str COIN_ID) cols
  then set_index (Str COIN_ID) cols existing_portfolio_data
  else empty_frame.

(** [coin_id in df.index] *)
Definition in_index (coin_id : string) (f : frame) : bool :=
  existsb (fun r => cell_eqb (fst r) (Str coin_id)) (records f).

(** [df.loc[coin_id, 'Current Value (USD)'] = price]: every row of that
    label is written; the column is created when it is new. *)
Definition loc_set (coin_id : string) (price : Q) (f : frame) : frame :=
  mkFrame (add_label (Str CURRENT_VALUE) (columns f))
          (map (fun r =>
                  if cell_eqb (fst r) (Str coin_id)
                  then (fst r, dict_set (Str CURRENT_VALUE) (Num price) (snd r))
                  else r)
               (records f)).

(** [pd.concat([df, new_coin_row])], the new row carrying the price only. *)
Definition concat_row (coin_id : string) (price : Q) (f : frame) : frame :=
  mkFrame (add_label (Str CURRENT_VALUE) (columns f))
          (records f ++ [(Str coin_id, [(Str CURRENT_VALUE, Num price)])]).

(** The body of the loop at lines 745-751. *)
Definition merge_step (f : frame) (fresh : string * Q) : frame :=
  if in_index (fst fresh) f
  then loc_set (fst fresh) (snd fresh) f
  else concat_row (fst fresh) (snd fresh) f.

Definition portfolio_cols : list string :=
  [ CURRENT_VALUE; "Symbol"; "Location"; "Quantity"; "Purchase Price (USD)";
    "Total Value (USD)"; "P/L (USD)"; "P/L Ratio"; "Airdrop or Invest" ].

(** Lines 754-756: [df[col] = ''] for a column that is not there. *)
Definition fill_missing (f : frame) (col : string) : frame :=
  if has_label (Str col) (columns f) then f
  else mkFrame (columns f ++ [Str col])
               (map (fun r => (fst r, dict_set (Str col) (Str "") (snd r)))
                    (records f)).

(** [df.reset_index()[final_portfolio_cols]] as rows of cells, under the
    header row that [dataframe_to_rows(..., header=True)] yields first. *)
Definition portfolio_rows (f : frame) : worksheet :=
  let final_portfolio_cols :=
    filter (fun col => has_label (Str col) (columns f)) portfolio_cols in
  map Str (COIN_ID :: final_portfolio_cols)
  :: map (fun r => fst r :: map (fun col => field (Str col) (snd r))
                                final_portfolio_cols)
         (records f).

(** Lines 727-764: the new content of the portfolio sheet, for a fresh
    price table that is not empty. *)
Definition merge_portfolio (ws : worksheet) (fresh : list (string * Q))
    : worksheet :=
  let merged := fold_left merge_step fresh (existing_portfolio ws) in
  portfolio_rows (fold_left fill_missing portfolio_cols merged).

(** *** Fresh tables *)

(** A frame bound for a generated sheet: column names and rows of cells. *)
Record DataFrame := mkDataFrame {
  df_columns : list string;
  df_rows : list (list cell)
}.

(** [df.empty] *)
Definition empty (df : DataFrame) : bool :=
  (List.length (df_columns df) =? 0)%nat || (List.length (df_rows df) =? 0)%nat.

Definition opt_cell {A} (f : A -> cell) (x : option A) : cell :=
  match x with
  | Some a => f a
  | None => Blank
  end.

(** The frame of [get_global_metrics]: a metric name and its value. *)
Definition global_metrics_frame (rows : list (string * option Q)) : DataFrame :=
  mkDataFrame ["Metric"; "Value"]
    (map (fun r => [Str (fst r); opt_cell Num (snd r)]) rows).

(** The frame of [get_fear_greed_index]. *)
Definition fear_greed_frame (rows : list Sentiment.fng_row) : DataFrame :=
  mkDataFrame ["Date"; "Fear & Greed Index"; "Classification"]
    (map (fun r => [opt_cell Str (Sentiment.Date r);
                    opt_cell (fun z => Num (inject_Z z))
                             (Sentiment.Fear_Greed_Index r);
                    opt_cell Str (Sentiment.Classification r)])
         rows).

(** The dictionary [all_data]; [None] is a key that is not set. *)
Record fetched := mkFetched {
  current_portfolio : option (list (string * Q));
  market_overview : option DataFrame;
  global_metrics : option (list (string * option Q));
  fear_greed_index : option (list Sentiment.fng_row);
  historical_data : option (list (string * option DataFrame))
}.

(** [df is not None and not df.empty] *)
Definition usable (df : option DataFrame) : bool :=
  match df with
  | Some d => negb (empty d)
  | None => false
  end.

(** A cleared sheet that receives the header row and then the data rows
    (lines 485-493, 575-583, 612-619, 650-657). *)
Definition sheet_of_frame (df : DataFrame) : worksheet :=
  map Str (df_columns df) :: df_rows df.

(** *** Text of the dashboard *)

Definition digits (n : Z) : string :=
  NilZero.string_of_uint (N.to_uint (Z.to_N n)).

Fixpoint commas_rev (l : list ascii) (k : nat) : list ascii :=
  match l with
  | [] => []
  | c :: l' =>
      if (k =? 3)%nat
      then ","%char :: c :: commas_rev l' 1
      else c :: commas_rev l' (S k)
  end.

(** Decimal digits in groups of three. *)
Definition with_commas (n : Z) : string :=
  string_of_list_ascii
    (rev (commas_rev (rev (list_ascii_of_string (digits n))) 0)).

Definition minus (negative : bool) : string :=
  if negative then "-" else "".

Definition is_negative (v : Q) : bool :=
  match (v ?= 0)%Q with
  | Lt => true
  | _ => false
  end.

(** [f"{v:.2f}%"] *)
Definition format_percent (v : Q) : string :=
  let z := Z.abs (Numeric.round_half_even (v * 100)%Q) in
  String.append (minus (is_negative v))
    (String.append (digits (z / 100)%Z)
       (String.append "." (String.append (Calendar.digits2 z) "%"))).

(** [f"${v:,.0f}"] *)
Definition format_usd (v : Q) : string :=
  String.append "$"
    (String.append (minus (is_negative v))
       (with_commas (Z.abs (Numeric.round_half_even v)))).

(** [f"{int(v):,}"] *)
Definition format_count (v : Q) : string :=
  let z := Numeric.int v in
  String.append (minus (z <? 0)%Z) (with_commas (Z.abs z)).

(** [sub in s] on strings. *)
Fixpoint contains (sub s : string) : bool :=
  if String.prefix sub s then true
  else match s with
       | EmptyString => false
       | String _ s' => contains sub s'
       end.

(** Lines 434-443: the text shown for one metric. *)
Definition display_metric (metric : string) (v : option Q) : string :=
  match v with
  | None => "N/A"
  | Some q =>
      if contains "%" metric then format_percent q
      else if contains "USD" metric then format_usd q
      else format_count q
  end.

Definition str_of_int (z : Z) : string :=
  String.append (minus (z <? 0)%Z) (digits (Z.abs z)).

(** *** Sheets written cell by cell *)

(** One assignment [ws.cell(row, column).value = v], both counted from 1. *)
Definition assignment : Type := nat * nat * cell.

Definition cell_at (cells : list assignment) (r c : nat) : cell :=
  match find (fun a => (fst (fst a) =? r)%nat && (snd (fst a) =? c)%nat)
             (rev cells) with
  | Some a => snd a
  | None => Blank
  end.

(** The grid that a cleared sheet shows after the assignments. *)
Definition grid_of (cells : list assignment) : worksheet :=
  let height := fold_right Nat.max 0%nat (map (fun a => fst (fst a)) cells) in
  let width := fold_right Nat.max 0%nat (map (fun a => snd (fst a)) cells) in
  map (fun r => map (cell_at cells r) (seq 1 width)) (seq 1 height).

(** Lines 414-479.  [merge_cells('A1:H1')] makes row 1 span eight columns. *)
Definition dashboard (current_time_ist : string)
    (metrics : option (list (string * option Q)))
    (fng : option (list Sentiment.fng_row)) : worksheet :=
  grid_of
    ([(1, 1, Str "Cryptocurrency Market Dashboard")]
     ++ map (fun c => (1, c, Blank)) (seq 2 7)
     ++ [(3, 1, Str (String.append "Generated: " current_time_ist));
         (5, 1, Str "🔑 Key Market Metrics")]
     ++ match metrics with
        | Some (m :: ms) =>
            flat_map (fun ir =>
                        [(fst ir, 1, Str (fst (snd ir)));
                         (fst ir, 2, Str (display_metric (fst (snd ir))
                                                         (snd (snd ir))))])
                     (combine (seq 6 (List.length (m :: ms))) (m :: ms))
        | _ => [(6, 1, Str "Unable to fetch global metrics")]
        end
     ++ [(5, 4, Str "😰 Market Sentiment")]
     ++ match fng with
        | Some (r :: rs) =>
            let latest := last rs r in
            [(6, 4, Str (String.append "Fear & Greed Index: "
                           match Sentiment.Fear_Greed_Index latest with
                           | Some v => str_of_int v
                           | None => "N/A"
                           end));
             (7, 4, Str (String.append "Classification: "
                           match Sentiment.Classification latest with
                           | Some c => c
                           | None => "N/A"
                           end))]
        | _ => [(6, 4, Str "Unable to fetch sentiment data")]
        end)%nat.

(** *** The synchroniser *)

Definition TRANSACTIONS_HEADER : list string :=
  [ "Date"; "Coin ID"; "Type (Buy/Sell)"; "Quantity"; "Price (USD)";
    "Total Cost/Revenue (USD)" ].

Definition PORTFOLIO_HEADER : list string :=
  [ "Coin ID"; "Current Value (USD)"; "Purchase Price (USD)"; "Quantity";
    "P/L (USD)"; "P/L Ratio"; "Total Value (USD)"; "Symbol"; "Location";
    "AirDrop or Invest" ].

(** Lines 381-407: a sheet of [SHEET_ORDER] that is missing is created; the
    two operator-owned ones receive their header row. *)
Definition ensure_sheet (wb : workbook) (sheet_name : string) : workbook :=
  if has_sheet sheet_name wb then wb
  else create_sheet sheet_name
         (if String.eqb sheet_name TRANSACTIONS_SHEET_NAME
          then [map Str TRANSACTIONS_HEADER]
          else if String.eqb sheet_name CURRENT_PORTFOLIO_SHEET_NAME
          then [map Str PORTFOLIO_HEADER]
          else [])
         wb.

(** A generated sheet is replaced when fresh data came, and kept if not. *)
Definition replace_if_usable (name : string) (df : option DataFrame)
    (wb : workbook) : workbook :=
  match df with
  | Some d =>
      if negb (empty d) then update_sheet name (fun _ => sheet_of_frame d) wb
      else wb
  | None => wb
  end.

Definition history_sheet_name (symbol : string) : string :=
  String.append symbol " History (1 Month)".

(** Lines 646-657. *)
Definition write_history (wb : workbook) (item : string * option DataFrame)
    : workbook :=
  let sheet_name := history_sheet_name (fst item) in
  if has_sheet sheet_name wb && usable (snd item)
  then update_sheet sheet_name
         (fun _ => match snd item with
                   | Some d => sheet_of_frame d
                   | None => []
                   end) wb
  else wb.

(** [wb.sheetnames.index(name)] *)
Fixpoint index_of (name : string) (names : list string) : nat :=
  match names with
  | [] => 0
  | n :: names' => if String.eqb name n then 0 else S (index_of name names')
  end.

(** [wb.move_sheet(ws, offset=i - idx)]: the sheet at [idx] is taken out and
    inserted at position [i]. *)
Definition move_sheet (idx i : nat) (wb : workbook) : workbook :=
  match nth_error wb idx with
  | Some s =>
      let rest := firstn idx wb ++ skipn (S idx) wb in
      firstn i rest ++ s :: skipn i rest
  | None => wb
  end.

(** Lines 773-777. *)
Fixpoint reorder (order : list string) (i : nat) (wb : workbook) : workbook :=
  match order with
  | [] => wb
  | sheet_name :: order' =>
      let idx := index_of sheet_name (sheetnames wb) in
      reorder order' (S i)
        (if has_sheet sheet_name wb && negb (idx =? i)%nat
         then move_sheet idx i wb
         else wb)
  end.

(** The workbook that is saved.  [existing] is the workbook loaded from the
    file, [None] when there is no file or it cannot be read; a new workbook
    starts without sheets once its default sheet is removed. *)
Definition create_or_update_excel (current_time_ist : string)
    (all_data : fetched) (existing : option workbook) : workbook :=
  let wb :=
    match existing with
    | Some loaded => loaded
    | None => []
    end in
  let wb := fold_left ensure_sheet SHEET_ORDER wb in
  let wb :=
    update_sheet EXECUTIVE_DASHBOARD_SHEET_NAME
      (fun _ => dashboard current_time_ist (global_metrics all_data)
                          (fear_greed_index all_data)) wb in
  let wb :=
    replace_if_usable MARKET_OVERVIEW_SHEET_NAME (market_overview all_data) wb in
  let wb :=
    replace_if_usable GLOBAL_METRICS_SHEET_NAME
      (option_map global_metrics_frame (global_metrics all_data)) wb in
  let wb :=
    replace_if_usable FEAR_GREED_INDEX_SHEET_NAME
      (option_map fear_greed_frame (fear_greed_index all_data)) wb in
  let wb :=
    fold_left write_history
      (match historical_data all_data with
       | Some items => items
       | None => []
       end) wb in
  let wb :=
    match current_portfolio all_data with
    | Some (p :: ps) =>
        update_sheet CURRENT_PORTFOLIO_SHEET_NAME
          (fun ws => merge_portfolio ws (p :: ps)) wb
    | _ => wb
    end in
  reorder SHEET_ORDER 0 wb.

End Workbook.

(** ** Vocabulary of the statements about the historical series *)

Module HistoricalSpec.
Import Numeric Historical.

(** Length of the shortest of the three raw series. *)
Definition shortest (data : market_chart) : nat :=
  Nat.min (List.length (prices data))
    (Nat.min (List.length (total_volumes data)) (List.length (market_caps data))).

(** The price in row [j] of a table ([0] stands in for a missing one). *)
Definition price_at (t : list hist_row) (j : nat) : Q :=
  match nth_error t j with
  | Some r => match Price r with
              | Some p => p
              | None => 0
              end
  | None => 0
  end.

(** The prices of the rows [max(0, i - 6) .. i]. *)
Definition trailing_prices (t : list hist_row) (i : nat) : list Q :=
  map (price_at t) (seq (i - 6) (i - (i - 6) + 1)).

Definition all_prices_present (t : list hist_row) : Prop :=
  forall r, In r t -> Price r <> None.

(** The 7-day moving average of every row is the mean of the trailing
    prices. *)
Definition ma7_is_mean (t : list hist_row) : Prop :=
  forall i r, nth_error t i = Some r ->
    exists m, MA_7 r = Some m /\ m == mean (trailing_prices t i).

(** Row 0 has no derived value at all. *)
Definition row0_underived (t : list hist_row) : Prop :=
  forall r, nth_error t 0 = Some r ->
    Daily_Return r = NaN /\ MA_7 r = None /\ MA_30 r = None
    /\ Volatility_7d r = None.

(** A raw series with one value per day from 1970-01-01 on. *)
Definition daily (values : list Q) : list point :=
  map (fun iv => ((86400000 * Z.of_nat (fst iv))%Z, Some (snd iv)))
      (combine (seq 0 (List.length values)) values).

Definition week_chart : market_chart :=
  mkChart (daily [1; 1; 2; 1; 1; 1; 1]) (daily (repeat 10 7))
          (daily (repeat 100 7)).

Definition two_day_chart : market_chart :=
  mkChart (daily [1; 2]) (daily [10; 10]) (daily [100; 100]).

Definition partial_chart : market_chart :=
  mkChart (daily (repeat 1 30)) (daily (repeat 10 28)) (daily (repeat 100 29)).

End HistoricalSpec.

(** ** Vocabulary of the statements about the sentiment table *)

Module SentimentSpec.
Import Sentiment.

(** Ascending order of dates, a missing date counting as the latest. *)
Definition date_le (a b : fng_row) : Prop :=
  match Date a, Date b with
  | Some x, Some y => String.leb x y = true
  | None, Some _ => False
  | _, None => True
  end.

Definition ascending (rows : list fng_row) : Prop := Sorted date_le rows.

(** No two rows share their date. *)
Definition one_row_per_date (rows : list fng_row) : Prop :=
  NoDup (map Date rows).

(** No two of the rows that carry a date share it. *)
Definition distinct_dates (rows : list fng_row) : Prop :=
  NoDup (map Date (filter dated rows)).

(** An index value that the nullable 64-bit integer column can hold: the
    missing marker, or a whole number of the 64-bit range. *)
Definition fits_Int64 (v : field Q) : Prop :=
  forall q, v = Parsed q ->
    exists z, q == inject_Z z /\ (INT64_MIN <= z <= INT64_MAX)%Z.

(** The payloads that the parsing block gets through: each of the three
    keys occurs in some record, and every index value fits the integer
    column. *)
Definition accepted (data : list fng_entry) : Prop :=
  (exists e, In e data /\ present (timestamp e) = true)
  /\ (exists e, In e data /\ present (value e) = true)
  /\ (exists e, In e data /\ present (value_classification e) = true)
  /\ (forall e, In e data -> fits_Int64 (value e)).

(** The date of a row as text; the empty text for a row without one. *)
Definition date_text (r : fng_row) : string :=
  match Date r with
  | Some d => d
  | None => ""
  end.

Fixpoint insert_by_date (r : fng_row) (l : list fng_row) : list fng_row :=
  match l with
  | [] => [r]
  | x :: l' => if date_leb r x then r :: l else x :: insert_by_date r l'
  end.

(** One sort that orders by date: the insertion sort, under which rows of
    equal date keep their input order. *)
Definition insertion_sort (rows : list fng_row) : list fng_row :=
  fold_right insert_by_date [] rows.

(** Two records of the same day, 1970-01-01 at 00:00 and at 01:00. *)
Definition same_day_payload : option (list fng_entry) :=
  Some [ mkEntry (Parsed 0%Z) (Parsed 40) (Parsed "Fear");
         mkEntry (Parsed 3600%Z) (Parsed 45) (Parsed "Fear") ].

(** Three records that arrive newest first. *)
Definition three_day_payload : option (list fng_entry) :=
  Some [ mkEntry (Parsed 172800%Z) (Parsed 60) (Parsed "Greed");
         mkEntry (Parsed 86400%Z) (Parsed 50) (Parsed "Neutral");
         mkEntry (Parsed 0%Z) (Parsed 40) (Parsed "Fear") ].

End SentimentSpec.

(** ** Vocabulary of the statements about the workbook *)

Module WorkbookSpec.
Import Workbook.

(** The cell that a row holds in the column called [name] when it is read
    under [header]: the cell below the last header cell of that name. *)
Fixpoint cell_under (name : string) (header row : list cell) : option cell :=
  match header, row with
  | h :: header', c :: row' =>
      match cell_under name header' row' with
      | Some v => Some v
      | None => if cell_eqb h (Str name) then Some c else None
      end
  | _, _ => None
  end.

Definition value_in (header row : list cell) (name : string) : cell :=
  match cell_under name header row with
  | Some v => v
  | None => Blank
  end.

(** The header that the merge writes. *)
Definition FIXED_HEADER : list cell := map Str (COIN_ID :: portfolio_cols).

(** The price that the fresh table gives for a coin: its last row of that
    coin. *)
Definition fresh_price (fresh : list (string * Q)) (coin_id : string)
    : option Q :=
  fold_left (fun acc cp => if String.eqb (fst cp) coin_id
                           then Some (snd cp) else acc)
            fresh None.

Definition price_for (fresh : list (string * Q)) (coin : cell) : option Q :=
  match coin with
  | Str c => fresh_price fresh c
  | _ => None
  end.

(** Every row is as wide as the first one, as in a grid read from a sheet. *)
Definition rectangular (ws : worksheet) : Prop :=
  Forall (fun r => List.length r = List.length (first_row ws)) ws.

(** C1 as worded: every existing row is still at its place, and each of
    its fields has its prior value, the current value excepted when the
    fresh table prices the coin of the row. *)
Definition fields_preserved (ws : worksheet) (fresh : list (string * Q))
    : Prop :=
  let out := merge_portfolio ws fresh in
  forall i row, nth_error (rows_from_2 ws) i = Some row ->
    exists out_row,
      nth_error (rows_from_2 out) i = Some out_row
      /\ forall name, In (Str name) (first_row ws) ->
           (name = CURRENT_VALUE ->
            price_for fresh (value_in (first_row ws) row COIN_ID) = None) ->
           value_in (first_row out) out_row name
           = value_in (first_row ws) row name.

(** What the merge writes for one row of the merged frame: under a column
    of the frame the field of the row, under a column added at the end the
    empty string. *)
Definition shown (cols : list cell) (r : cell * dict) (col : string) : cell :=
  if has_label (Str col) cols then field (Str col) (snd r) else Str "".

Definition out_row (cols : list cell) (r : cell * dict) : list cell :=
  fst r :: map (shown cols r) portfolio_cols.

(** One fresh price applied to one row of the frame. *)
Definition upd (cp : string * Q) (r : cell * dict) : cell * dict :=
  if cell_eqb (fst r) (Str (fst cp))
  then (fst r, dict_set (Str CURRENT_VALUE) (Num (snd cp)) (snd r))
  else r.

(** All fresh prices applied to one row, in their order. *)
Definition updall (fresh : list (string * Q)) (r : cell * dict) : cell * dict :=
  fold_left (fun r cp => upd cp r) fresh r.

(** A row [r'] of the frame in which the columns [cs] were filled, in terms
    of the row [r] it comes from and of the columns [cols] that the frame
    had. *)
Definition filled_from (cols : list cell) (cs : list string)
    (r r' : cell * dict) : Prop :=
  fst r' = fst r
  /\ forall name,
       dict_get (Str name) (snd r')
       = if existsb (fun c => String.eqb name c
                              && negb (has_label (Str c) cols)) cs
         then Some (Str "") else dict_get (Str name) (snd r).

(** A header cell that spells one of the ten fixed column names. *)
Definition is_fixed_name (c : cell) : bool :=
  existsb (cell_eqb c) FIXED_HEADER.

(** The cells of a row that stand under a fixed column name of [header]. *)
Fixpoint keep_fixed (header row : list cell) : list cell :=
  match header, row with
  | h :: header', c :: row' =>
      if is_fixed_name h then c :: keep_fixed header' row'
      else keep_fixed header' row'
  | _, _ => []
  end.

(** The sheet without its columns of any other name, header cell and data
    alike. *)
Definition without_foreign_columns (ws : worksheet) : worksheet :=
  map (keep_fixed (first_row ws)) ws.

(** Two frame rows with the same label and the same fields under the nine
    fixed columns. *)
Definition same_fixed_fields (r r' : cell * dict) : Prop :=
  fst r = fst r'
  /\ forall name, In name portfolio_cols ->
       dict_get (Str name) (snd r) = dict_get (Str name) (snd r').

(** Two frames that agree on the fixed columns and, row by row, on the
    fields under them. *)
Definition same_fixed_frame (f f' : frame) : Prop :=
  (forall name, In name portfolio_cols ->
     has_label (Str name) (columns f) = has_label (Str name) (columns f'))
  /\ Forall2 same_fixed_fields (records f) (records f').

(** A sheet to which the operator added a column of notes. *)
Definition sheet_with_notes : worksheet :=
  [ map Str ["Coin ID"; "Current Value (USD)"; "Quantity"; "Notes"];
    [ Str "bitcoin"; Num 100; Num 2; Str "cold wallet" ] ].

(** The sheet that the script creates, with one holding entered by hand. *)
Definition template_with_holding : worksheet :=
  [ map Str PORTFOLIO_HEADER;
    [ Str "bitcoin"; Num 100; Num 50; Num 2; Blank; Blank; Blank;
      Str "BTC"; Str "Ledger"; Str "Invest" ] ].

(** A sheet in the column order that the merge writes. *)
Definition merged_sheet : worksheet :=
  [ FIXED_HEADER;
    [ Str "bitcoin"; Num 100; Str "BTC"; Str "Ledger"; Num 2; Num 50;
      Blank; Blank; Blank; Str "Invest" ];
    [ Str "notcoin"; Num 1; Str "NOT"; Str "Wallet"; Num 500; Num 0;
      Blank; Blank; Blank; Str "Airdrop" ] ].

Definition fresh_prices : list (string * Q) :=
  [ ("bitcoin", 200); ("ethereum", 10) ].

(** The persisted workbook is well formed when its sheet titles are
    distinct; no file at all is well formed. *)
Definition distinct_titles (existing : option workbook) : Prop :=
  match existing with
  | Some wb => NoDup (sheetnames wb)
  | None => True
  end.

(** The workbook before the run. *)
Definition loaded (existing : option workbook) : workbook :=
  match existing with
  | Some wb => wb
  | None => []
  end.

(** The generated sheet categories that own a sheet of [SHEET_ORDER]. *)
Inductive category :=
| MarketOverview
| GlobalMetrics
| FearGreed
| History (symbol : string).

Definition HISTORY_SYMBOLS : list string := ["BTC"; "ETH"; "BNB"; "SOL"; "SUI"].

Definition configured (c : category) : Prop :=
  match c with
  | History symbol => In symbol HISTORY_SYMBOLS
  | _ => True
  end.

Definition sheet_name_of (c : category) : string :=
  match c with
  | MarketOverview => MARKET_OVERVIEW_SHEET_NAME
  | GlobalMetrics => GLOBAL_METRICS_SHEET_NAME
  | FearGreed => FEAR_GREED_INDEX_SHEET_NAME
  | History symbol => history_sheet_name symbol
  end.

(** [d.get(key)] on the dictionary of history frames. *)
Fixpoint lookup (symbol : string) (items : list (string * option DataFrame))
    : option DataFrame :=
  match items with
  | [] => None
  | (s, df) :: items' =>
      if String.eqb symbol s then df else lookup symbol items'
  end.

(** The fresh frame of a category, if one was fetched. *)
Definition fresh_of (all_data : fetched) (c : category) : option DataFrame :=
  match c with
  | MarketOverview => market_overview all_data
  | GlobalMetrics => option_map global_metrics_frame (global_metrics all_data)
  | FearGreed => option_map fear_greed_frame (fear_greed_index all_data)
  | History symbol =>
      match historical_data all_data with
      | Some items => lookup symbol items
      | None => None
      end
  end.

(** The keys of the dictionary of history frames are distinct. *)
Definition distinct_symbols (all_data : fetched) : Prop :=
  match historical_data all_data with
  | Some items => NoDup (map fst items)
  | None => True
  end.

(** What [ensure_sheet] puts into a sheet that it creates. *)
Definition created_content (sheet_name : string) : worksheet :=
  if String.eqb sheet_name TRANSACTIONS_SHEET_NAME
  then [map Str TRANSACTIONS_HEADER]
  else if String.eqb sheet_name CURRENT_PORTFOLIO_SHEET_NAME
  then [map Str PORTFOLIO_HEADER]
  else [].

(** The content of a sheet of [SHEET_ORDER] once all sheets exist: what was
    persisted, or what the creation put there. *)
Definition stale_or_created (existing : option workbook) (name : string)
    : worksheet :=
  match get_sheet name (loaded existing) with
  | Some ws => ws
  | None => created_content name
  end.

(** The portfolio sheet after the merge, which runs for a fresh table that
    is there and not empty. *)
Definition merge_or_keep (fresh : option (list (string * Q)))
    (ws : worksheet) : worksheet :=
  match fresh with
  | Some (p :: ps) => merge_portfolio ws (p :: ps)
  | _ => ws
  end.

(** The workbook just before the tabs are put in order. *)
Definition before_reorder (now : string) (all_data : fetched)
    (existing : option workbook) : workbook :=
  let wb := fold_left ensure_sheet SHEET_ORDER (loaded existing) in
  let wb :=
    update_sheet EXECUTIVE_DASHBOARD_SHEET_NAME
      (fun _ => dashboard now (global_metrics all_data)
                          (fear_greed_index all_data)) wb in
  let wb :=
    replace_if_usable MARKET_OVERVIEW_SHEET_NAME (market_overview all_data) wb in
  let wb :=
    replace_if_usable GLOBAL_METRICS_SHEET_NAME
      (option_map global_metrics_frame (global_metrics all_data)) wb in
  let wb :=
    replace_if_usable FEAR_GREED_INDEX_SHEET_NAME
      (option_map fear_greed_frame (fear_greed_index all_data)) wb in
  let wb :=
    fold_left write_history
      (match historical_data all_data with
       | Some items => items
       | None => []
       end) wb in
  update_sheet CURRENT_PORTFOLIO_SHEET_NAME
    (merge_or_keep (current_portfolio all_data)) wb.

Fixpoint last_char (s : string) : option ascii :=
  match s with
  | EmptyString => None
  | String c s' =>
      match last_char s' with
      | Some d => Some d
      | None => Some c
      end
  end.

(** C3 as worded, for one category: without fresh data the workbook shows
    for that category what it showed before the run, an absent sheet
    staying absent; with fresh data the sheet holds the fresh table. *)
Definition category_untouched_or_fresh (now : string) (all_data : fetched)
    (existing : option workbook) (c : category) : Prop :=
  let out := create_or_update_excel now all_data existing in
  if usable (fresh_of all_data c)
  then get_sheet (sheet_name_of c) out
       = option_map sheet_of_frame (fresh_of all_data c)
  else get_sheet (sheet_name_of c) out
       = get_sheet (sheet_name_of c) (loaded existing).

(** What a generated sheet shows when no fresh table replaces it: what was
    persisted, or nothing in a sheet that the run creates. *)
Definition stale (existing : option workbook) (name : string) : worksheet :=
  match get_sheet name (loaded existing) with
  | Some ws => ws
  | None => []
  end.

(** A persisted workbook that has a market overview from an earlier run. *)
Definition stale_workbook : option workbook :=
  Some [ (MARKET_OVERVIEW_SHEET_NAME, [[Str "Rank"; Str "Name"];
                                       [Num 1; Str "Bitcoin"]]) ].

(** A run in which every fetch failed: the main block still stores the
    empty dictionary of histories. *)
Definition nothing_fetched : fetched :=
  mkFetched None None None None (Some []).

(** A run in which only the prices arrived. *)
Definition prices_only : fetched :=
  mkFetched (Some fresh_prices) None None None (Some []).

End WorkbookSpec.

(** ** Vocabulary of the statements about the fetcher *)

Module FetcherSpec.
Import Fetcher.

(** The handler takes attempt [k] for a rate limit: the server answered
    429, or no answer came on an attempt after the first (the local
    [response] then still holds the 429 of the attempt before). *)
Definition treated_as_rate_limit (server : nat -> reply) (k : nat) : bool :=
  match server k with
  | Answered r => (status_code r =? 429)%Z
  | NoAnswer => (0 <? k)%nat
  end.

End FetcherSpec.

(** ** Vocabulary of the statements about whole runs *)

Module SyncSpec.
Import Workbook WorkbookSpec.

(** The titles of the sheets that are not of the fixed order, as they stand
    in the workbook. *)
Definition other_titles (wb : workbook) : list string :=
  filter (fun n => negb (existsb (String.eqb n) SHEET_ORDER)) (sheetnames wb).

Definition fetched_histories (all_data : fetched)
    : list (string * option DataFrame) :=
  match historical_data all_data with
  | Some items => items
  | None => []
  end.

(** No fetch of the run brought a table that the synchroniser writes. *)
Definition nothing_to_write (all_data : fetched) : Prop :=
  (current_portfolio all_data = None \/ current_portfolio all_data = Some [])
  /\ usable (market_overview all_data) = false
  /\ usable (option_map global_metrics_frame (global_metrics all_data)) = false
  /\ usable (option_map fear_greed_frame (fear_greed_index all_data)) = false
  /\ Forall (fun item => usable (snd item) = false) (fetched_histories all_data).

(** A persisted workbook in which the operator keeps a sheet of their own
    ahead of two sheets of the fixed order. *)
Definition workbook_with_notes : option workbook :=
  Some [ ("Notes", [[Str "remember"]]);
         (CURRENT_PORTFOLIO_SHEET_NAME, merged_sheet);
         (TRANSACTIONS_SHEET_NAME,
          [map Str TRANSACTIONS_HEADER;
           [Str "2024-01-01"; Str "bitcoin"; Str "Buy"; Num 2; Num 50; Num 100]]) ].

End SyncSpec.

(** ** Vocabulary of the statements about the rows of the portfolio sheet *)

Module PortfolioSpec.
Import Workbook WorkbookSpec.

(** The sheet has a row for the coin. *)
Definition held (ws : worksheet) (coin_id : string) : bool :=
  existsb (fun row => cell_eqb (value_in (first_row ws) row COIN_ID)
                               (Str coin_id))
          (rows_from_2 ws).

(** The rows of the fresh table whose coin the sheet does not hold. *)
Definition new_coins (ws : worksheet) (fresh : list (string * Q))
    : list (string * Q) :=
  filter (fun cp => negb (held ws (fst cp))) fresh.

(** The row of a coin that comes new to a sheet: coin and price, a blank
    under every other fixed column that the sheet has, the empty string
    under those it lacks. *)
Definition new_row (ws : worksheet) (cp : string * Q) : list cell :=
  Str (fst cp) :: Num (snd cp)
  :: map (fun col => if has_label (Str col) (first_row ws)
                     then Blank else Str "")
         (tl portfolio_cols).

(** The row of a coin on a sheet that had no rows to keep. *)
Definition first_row_of (cp : string * Q) : list cell :=
  Str (fst cp) :: Num (snd cp) :: repeat (Str "") 8.

(** A sheet whose header does not name the coin column. *)
Definition sheet_without_coin_column : worksheet :=
  [ [Str "Coin"; Str "Quantity"]; [Str "bitcoin"; Num 2] ].

End PortfolioSpec.

(** ** Vocabulary of the statements about the derived columns *)

Module SeriesSpec.
Import Numeric Historical HistoricalSpec.

(** The price of row [j], if the row is there and carries one. *)
Definition price_of (t : list hist_row) (j : nat) : option Q :=
  match nth_error t j with
  | Some r => Price r
  | None => None
  end.

(** The rows [max(0, i - w + 1) .. i]. *)
Definition trailing (w i : nat) : list nat :=
  seq (S i - w) (S i - (S i - w)).

(** The values that [f] gives on a list of rows, the missing ones left
    out. *)
Definition present {A} (f : A -> option Q) (js : list A) : list Q :=
  flat_map (fun j => match f j with Some q => [q] | None => [] end) js.

(** The prices that the rows [max(0, i - w + 1) .. i] carry. *)
Definition present_prices (t : list hist_row) (w i : nat) : list Q :=
  present (price_of t) (trailing w i).

(** The mean of a sample rounded to four decimals; nothing for an empty
    one. *)
Definition rounded_mean (obs : list Q) : option Q :=
  match obs with
  | [] => None
  | _ => Some (round_to 4 (mean obs))
  end.

(** The return of row [j] on the row before, in percent and not rounded;
    nothing for row 0, for a missing price and for a division by zero. *)
Definition return_of (t : list hist_row) (j : nat) : option Q :=
  match j with
  | O => None
  | S k =>
      match price_of t (S k), price_of t k with
      | Some b, Some a =>
          if Qeq_bool a 0 then None else Some ((b / a - 1) * 100)%Q
      | _, _ => None
      end
  end.

(** The returns that the rows [max(0, i - 6) .. i] have. *)
Definition present_returns (t : list hist_row) (i : nat) : list Q :=
  present (return_of t) (trailing 7 i).

(** A chart of four days in which the price of the third day is missing. *)
Definition gap_chart : market_chart :=
  mkChart [ (0%Z, Some 1); (86400000%Z, Some 2); (172800000%Z, None);
            (259200000%Z, Some 4) ]
          (daily (repeat 10 4)) (daily (repeat 100 4)).

End SeriesSpec.

(** ** Price fetch ([fetch_current_coin_prices], lines 114-127) *)

Module Prices.

(** [obj.get(key)] on a parsed JSON object; of two members with the same
    name the later one counts. *)
Fixpoint get {V} (key : string) (obj : list (string * V)) : option V :=
  match obj with
  | [] => None
  | (k, v) :: obj' =>
      match get key obj' with
      | Some w => Some w
      | None => if String.eqb key k then Some v else None
      end
  end.

(** [response.json()] of the simple-price endpoint: for each coin an object
    that gives, per currency, a number or [null]. *)
Definition price_payload : Type := list (string * list (string * option Q)).

(** [data.get(coin_id, {}).get('usd')] *)
Definition usd (data : price_payload) (coin_id : string) : option Q :=
  match get coin_id data with
  | Some quote =>
      match get "usd" quote with
      | Some price => price
      | None => None
      end
  | None => None
  end.

(** [d[k] = v] on a dictionary with string keys, which keeps the keys in
    the order of their first insertion. *)
Fixpoint set {V} (k : string) (v : V) (d : list (string * V))
    : list (string * V) :=
  match d with
  | [] => [(k, v)]
  | (k0, v0) :: d' =>
      if String.eqb k0 k then (k0, v) :: d' else (k0, v0) :: set k v d'
  end.

(** The dictionary returned; [response] is the parsed body of the response
    that the retrying call returned, if it returned one. *)
Definition fetch_current_coin_prices (coin_ids : list string)
    (response : option price_payload) : option (list (string * option Q)) :=
  match response with
  | Some data =>
      Some (fold_left (fun prices coin_id => set coin_id (usd data coin_id) prices)
                      coin_ids [])
  | None => None
  end.

End Prices.

(** ** The main block (lines 784-853) *)

Module Main.
Import Workbook Prices.

Definition PORTFOLIO_COIN_IDS : list string :=
  [ "bitcoin"; "ethereum"; "solana"; "binancecoin"; "the-open-network";
    "not-pixel"; "dogs-coin"; "notcoin"; "newton-protocol"; "blum" ].

Definition HISTORY_COIN_IDS : list (string * string) :=
  [ ("BTC", "bitcoin"); ("ETH", "ethereum"); ("BNB", "binancecoin");
    ("SOL", "solana"); ("SUI", "sui") ].

(** What the fetches of one execution brought: the parsed body of the price
    response if there was one, and the frames that the four normalisers
    returned, the historical one per coin id. *)
Record fetches := mkFetches {
  prices_response : option price_payload;
  market_overview_df : DataFrame;
  global_metrics_df : list (string * option Q);
  fng_df : list Sentiment.fng_row;
  hist_df : string -> DataFrame
}.

(** Lines 793-799: one record per coin that has a price. *)
Definition portfolio_df_data (current_coin_prices : list (string * option Q))
    : list (string * Q) :=
  flat_map (fun kv => match snd kv with
                      | Some price => [(fst kv, price)]
                      | None => []
                      end)
           current_coin_prices.

(** Lines 835-845 *)
Definition historical_dfs (f : fetches) : list (string * option DataFrame) :=
  flat_map (fun sc => let df := hist_df f (snd sc) in
                      if empty df then [] else [(fst sc, Some df)])
           HISTORY_COIN_IDS.

(** The dictionary [all_fetched_data] once the collection is over. *)
Definition all_fetched_data (f : fetches) : fetched :=
  mkFetched
    match fetch_current_coin_prices PORTFOLIO_COIN_IDS (prices_response f) with
    | Some (kv :: prices) => Some (portfolio_df_data (kv :: prices))
    | _ => None
    end
    (if empty (market_overview_df f) then None else Some (market_overview_df f))
    match global_metrics_df f with
    | [] => None
    | rows => Some rows
    end
    match fng_df f with
    | [] => None
    | rows => Some rows
    end
    (Some (historical_dfs f)).

(** [bool(all_fetched_data)]: some key is set. *)
Definition any_key (d : fetched) : bool :=
  match current_portfolio d, market_overview d, global_metrics d,
        fear_greed_index d, historical_data d with
  | None, None, None, None, None => false
  | _, _, _, _, _ => true
  end.

(** The workbook that the execution saves, if it saves one. *)
Definition main (current_time_ist : string) (f : fetches)
    (existing : option workbook) : option workbook :=
  let d := all_fetched_data f in
  if any_key d
  then Some (create_or_update_excel current_time_ist d existing)
  else None.

End Main.

(** ** Vocabulary of the statements about an execution *)

Module MainSpec.
Import Workbook WorkbookSpec Prices Main.

(** The members of a list in the order of their first occurrence. *)
Fixpoint first_occurrences (l : list string) : list string :=
  match l with
  | [] => []
  | x :: l' =>
      x :: filter (fun y => negb (String.eqb y x)) (first_occurrences l')
  end.

(** Every fetch of the execution failed. *)
Definition all_failed (f : fetches) : Prop :=
  prices_response f = None
  /\ empty (market_overview_df f) = true
  /\ global_metrics_df f = []
  /\ fng_df f = []
  /\ forall coin_id, empty (hist_df f coin_id) = true.

Definition no_frame : DataFrame := mkDataFrame [] [].

(** An execution in which only the prices arrived: bitcoin at 200, and
    ethereum without a quote in dollars. *)
Definition prices_arrived : fetches :=
  mkFetches (Some [ ("bitcoin", [("usd", Some 200)]); ("ethereum", []) ])
            no_frame [] [] (fun _ => no_frame).

Definition nothing_arrived : fetches :=
  mkFetches None no_frame [] [] (fun _ => no_frame).

End MainSpec.

(** ** Vocabulary of the statements about the dashboard *)

Module DashboardSpec.
Import Workbook.

(** The value of the cell in row [r] and column [c] of a sheet, both
    counted from 1; a cell outside the grid is blank. *)
Definition cell_of (ws : worksheet) (r c : nat) : cell :=
  match nth_error ws (r - 1) with
  | Some row =>
      match nth_error row (c - 1) with
      | Some v => v
      | None => Blank
      end
  | None => Blank
  end.

(** The text that the sentiment block shows for the index of a row. *)
Definition index_text (r : Sentiment.fng_row) : string :=
  String.append "Fear & Greed Index: "
    match Sentiment.Fear_Greed_Index r with
    | Some v => str_of_int v
    | None => "N/A"
    end.

Definition classification_text (r : Sentiment.fng_row) : string :=
  String.append "Classification: "
    match Sentiment.Classification r with
    | Some c => c
    | None => "N/A"
    end.

(** A table is missing for the dashboard when its key is not set or its
    frame is empty. *)
Definition missing {A} (table : option (list A)) : Prop :=
  table = None \/ table = Some [].

(** The assignments of the metrics block (lines 427-453). *)
Definition metric_cells (metrics : option (list (string * option Q)))
    : list assignment :=
  match metrics with
  | Some (m :: ms) =>
      flat_map (fun ir =>
                  [(fst ir, 1, Str (fst (snd ir)));
                   (fst ir, 2, Str (display_metric (fst (snd ir))
                                                   (snd (snd ir))))])
               (combine (seq 6 (List.length (m :: ms))) (m :: ms))
  | _ => [(6, 1, Str "Unable to fetch global metrics")]
  end%nat.

(** The assignments of the sentiment block (lines 460-479). *)
Definition sentiment_cells (fng : option (list Sentiment.fng_row))
    : list assignment :=
  match fng with
  | Some (r :: rs) =>
      [(6, 4, Str (index_text (last rs r)));
       (7, 4, Str (classification_text (last rs r)))]
  | _ => [(6, 4, Str "Unable to fetch sentiment data")]
  end%nat.

Definition two_metrics : list (string * option Q) :=
  [ ("Bitcoin Dominance (%)", Some (525 # 10)); ("Total Markets", None) ].

End DashboardSpec.

(** ** Vocabulary of the further statements about the sentiment table *)

Module LatestSpec.
Import Sentiment SentimentSpec.

(** A payload of two days whose older record has the index 40.5. *)
Definition fractional_payload : list fng_entry :=
  [ mkEntry (Parsed 86400%Z) (Parsed 50) (Parsed "Neutral");
    mkEntry (Parsed 0%Z) (Parsed (81 # 2)) (Parsed "Fear") ].

(** A record that carries the three keys, whatever their values. *)
Definition complete (e : fng_entry) : Prop :=
  present (timestamp e) = true
  /\ present (value e) = true
  /\ present (value_classification e) = true.

(** A payload of two records with all keys: one regular, one whose
    timestamp and index do not parse and whose classification is [null]. *)
Definition payload_with_gaps : list fng_entry :=
  [ mkEntry (Parsed 86400%Z) (Parsed 50) (Parsed "Neutral");
    mkEntry Coerced Coerced Coerced ].

End LatestSpec.

(** ** Vocabulary of the statements about the content of every sheet *)

Module RunSpec.
Import Workbook WorkbookSpec.

(** The content of the sheet [name] once the sheets of the fixed order
    exist, from its content before (nothing for a sheet that is not
    there). *)
Definition ensured (name : string) (before : option worksheet)
    : option worksheet :=
  match before with
  | Some ws => Some ws
  | None => if existsb (String.eqb name) SHEET_ORDER
            then Some (created_content name) else None
  end.

(** The table that the history loop writes last into the sheet [name]. *)
Definition last_history (items : list (string * option DataFrame))
    (name : string) : option worksheet :=
  fold_left (fun acc item =>
               if String.eqb name (history_sheet_name (fst item))
                  && usable (snd item)
               then Some match snd item with
                         | Some d => sheet_of_frame d
                         | None => []
                         end
               else acc)
            items None.

(** A sheet receives new content, if it is there. *)
Definition overwrite (content : option worksheet) (sheet : option worksheet)
    : option worksheet :=
  match content with
  | Some ws => option_map (fun _ => ws) sheet
  | None => sheet
  end.

(** The table bound for a generated sheet of a fixed title, if the run
    writes it. *)
Definition table_for (title name : string) (df : option DataFrame)
    : option worksheet :=
  if String.eqb name title && usable df
  then Some match df with
            | Some d => sheet_of_frame d
            | None => []
            end
  else None.

(** The content of the sheet [name] after the writing steps of a run, from
    its content once all sheets exist. *)
Definition written (now : string) (all_data : fetched) (name : string)
    (sheet : option worksheet) : option worksheet :=
  let sheet :=
    overwrite (if String.eqb name EXECUTIVE_DASHBOARD_SHEET_NAME
               then Some (dashboard now (global_metrics all_data)
                                    (fear_greed_index all_data))
               else None) sheet in
  let sheet :=
    overwrite (table_for MARKET_OVERVIEW_SHEET_NAME name
                 (market_overview all_data)) sheet in
  let sheet :=
    overwrite (table_for GLOBAL_METRICS_SHEET_NAME name
                 (option_map global_metrics_frame (global_metrics all_data)))
              sheet in
  let sheet :=
    overwrite (table_for FEAR_GREED_INDEX_SHEET_NAME name
                 (option_map fear_greed_frame (fear_greed_index all_data)))
              sheet in
  let sheet :=
    overwrite (last_history (match historical_data all_data with
                             | Some items => items
                             | None => []
                             end) name) sheet in
  if String.eqb name CURRENT_PORTFOLIO_SHEET_NAME
  then option_map (merge_or_keep (current_portfolio all_data)) sheet
  else sheet.

End RunSpec.

(** * Properties of the fetcher *)

Module FetcherProofs.
Import Fetcher.

Lemma rate_limit_raises (r : Response) :
  status_code r = 429%Z -> raise_for_status r = true.
Proof. unfold raise_for_status. intros ->. reflexivity. Qed.

(** An HTTP error status other than 429 ends the call at once: [None] is
    returned after one request and without any sleep. *)
Lemma http_error_fails_at_once server uniform n d r :
  server 0%nat = Answered r ->
  raise_for_status r = true ->
  status_code r <> 429%Z ->
  make_api_call_with_retry server uniform (S n) d
  = (Return None, mkEffects 1 []).
Proof.
  intros Hs Hr Hc. unfold make_api_call_with_retry. cbn [retry_loop].
  rewrite Hs, Hr. apply Z.eqb_neq in Hc. rewrite Hc. reflexivity.
Qed.

(** A response that is not an error status is returned by the first
    request. *)
Lemma success_returns_at_once server uniform n d r :
  server 0%nat = Answered r ->
  raise_for_status r = false ->
  make_api_call_with_retry server uniform (S n) d
  = (Return (Some r), mkEffects 1 []).
Proof.
  intros Hs Hr. unfold make_api_call_with_retry. cbn [retry_loop].
  rewrite Hs, Hr. reflexivity.
Qed.

(** C6.  Two rate-limited replies and then a success, with five attempts
    allowed: the third response is returned after three requests and two
    sleeps.  The sleeps are the initial delay and the initial delay times
    the back-off factor, each plus its jitter; with every jitter in
    [[0, 1)] the time slept is at least
    [initial_delay + initial_delay * BACKOFF_FACTOR] and exceeds it by less
    than two units. *)
Theorem third_attempt_succeeds_after_backoff
    (server : nat -> reply) (uniform : nat -> Q) (initial_delay : Q)
    (r1 r2 r3 : Response) :
  server 0%nat = Answered r1 -> status_code r1 = 429%Z ->
  server 1%nat = Answered r2 -> status_code r2 = 429%Z ->
  server 2%nat = Answered r3 -> raise_for_status r3 = false ->
  (forall k, 0 <= uniform k /\ uniform k < 1) ->
  let run := make_api_call_with_retry server uniform MAX_RETRIES initial_delay in
  fst run = Return (Some r3)
  /\ requests (snd run) = 3%nat
  /\ sleeps (snd run)
     = [initial_delay + uniform 0%nat;
        initial_delay * BACKOFF_FACTOR + uniform 1%nat]
  /\ initial_delay + initial_delay * BACKOFF_FACTOR <= total_delay (snd run)
  /\ total_delay (snd run)
     < initial_delay + initial_delay * BACKOFF_FACTOR + 2.
Proof.
  intros H1 C1 H2 C2 H3 Ok3 J run.
  assert (E : run = (Return (Some r3),
                     mkEffects 3 [initial_delay + uniform 0%nat;
                                  initial_delay * BACKOFF_FACTOR
                                  + uniform 1%nat])).
  { unfold run, make_api_call_with_retry, MAX_RETRIES. cbn [retry_loop].
    rewrite H1, (rate_limit_raises r1 C1), C1. cbn [Z.eqb Pos.eqb].
    cbn [retry_loop List.length app].
    rewrite H2, (rate_limit_raises r2 C2), C2. cbn [Z.eqb Pos.eqb].
    cbn [retry_loop List.length app].
    rewrite H3, Ok3. reflexivity. }
  rewrite E. cbn [fst snd requests sleeps].
  repeat split; try reflexivity.
  - unfold total_delay. cbn [sleeps fold_right].
    destruct (J 0%nat), (J 1%nat). lra.
  - unfold total_delay. cbn [sleeps fold_right].
    destruct (J 0%nat), (J 1%nat). lra.
Qed.

Lemma third_attempt_succeeds_after_backoff_witness :
  let run :=
    make_api_call_with_retry twice_limited (fun _ => 1 # 2) MAX_RETRIES
      INITIAL_API_CALL_DELAY_SECONDS in
  fst run = Return (Some (mkResponse 200 "{}"))
  /\ requests (snd run) = 3%nat
  /\ sleeps (snd run)
     = [INITIAL_API_CALL_DELAY_SECONDS + (1 # 2);
        INITIAL_API_CALL_DELAY_SECONDS * BACKOFF_FACTOR + (1 # 2)]
  /\ INITIAL_API_CALL_DELAY_SECONDS
     + INITIAL_API_CALL_DELAY_SECONDS * BACKOFF_FACTOR
     <= total_delay (snd run)
  /\ total_delay (snd run)
     < INITIAL_API_CALL_DELAY_SECONDS
       + INITIAL_API_CALL_DELAY_SECONDS * BACKOFF_FACTOR + 2.
Proof.
  apply (third_attempt_succeeds_after_backoff twice_limited (fun _ => 1 # 2)
           INITIAL_API_CALL_DELAY_SECONDS
           (mkResponse 429 "") (mkResponse 429 "") (mkResponse 200 "{}"));
    try reflexivity.
  intros _. split; [discriminate | reflexivity].
Defined.

(** C7, on the code.  When the very first request fails before a response
    exists, the handler reads the local [response] that was never assigned:
    the call ends by raising [UnboundLocalError] instead of returning
    [None]. *)
Theorem first_attempt_network_error_raises :
  fst (make_api_call_with_retry (fun _ => NoAnswer) (fun _ => 0) MAX_RETRIES
         INITIAL_API_CALL_DELAY_SECONDS)
  = Raise UnboundLocalError.
Proof. reflexivity. Qed.

(** The same stale local makes a network error that follows a 429 look like
    another rate limit: the call sleeps and tries again. *)
Lemma network_error_after_rate_limit_is_retried :
  make_api_call_with_retry
    (fun k => match k with
              | 0%nat => Answered (mkResponse 429 "")
              | _ => NoAnswer
              end)
    (fun _ => 0) 3 1
  = (Return None, mkEffects 3 [1 + 0; 1 * BACKOFF_FACTOR + 0;
                               1 * BACKOFF_FACTOR * BACKOFF_FACTOR + 0]).
Proof. reflexivity. Qed.

End FetcherProofs.

(** * Properties of the historical series normaliser *)

Module HistoricalProofs.
Import Numeric Historical HistoricalSpec.

(** ** Rounding *)

Lemma round_half_even_compat (x y : Q) :
  x == y -> round_half_even x = round_half_even y.
Proof.
  intros E. unfold round_half_even.
  rewrite (Qfloor_comp x y E).
  assert (C : (x - inject_Z (Qfloor y) ?= 1 # 2)%Q
              = (y - inject_Z (Qfloor y) ?= 1 # 2)%Q).
  { apply Qcompare_comp; [rewrite E|]; reflexivity. }
  rewrite C. reflexivity.
Qed.

Lemma round_half_even_Z (z : Z) : round_half_even (inject_Z z) = z.
Proof.
  unfold round_half_even. rewrite Qfloor_Z.
  assert (C : (inject_Z z - inject_Z z ?= 1 # 2)%Q = Lt).
  { rewrite <- Qlt_alt. generalize (inject_Z z). intros q.
    setoid_replace (q - q) with 0 by ring. reflexivity. }
  rewrite C. reflexivity.
Qed.

(** Rounding a value that already has [n] decimals changes nothing. *)
Lemma round_to_fixpoint (n : nat) (x y : Q) :
  y == round_to n x -> round_to n y = round_to n x.
Proof.
  intros E. unfold round_to at 1.
  set (k := (10 ^ Z.of_nat n)%Z) in *.
  assert (K : (0 < k)%Z) by (apply Z.pow_pos_nonneg; lia).
  assert (R : round_half_even (y * inject_Z k)
              = round_half_even (x * inject_Z k)).
  { rewrite <- (round_half_even_Z (round_half_even (x * inject_Z k))).
    apply round_half_even_compat. rewrite E. unfold round_to. fold k.
    unfold Qeq, Qmult, inject_Z. cbn [Qnum Qden].
    rewrite !Pos.mul_1_r. rewrite Z2Pos.id by exact K. ring. }
  rewrite R. reflexivity.
Qed.

(** ** Shape of the table *)

Lemma zip_rows_length d p v m r a b s n :
  List.length d = n -> List.length p = n -> List.length v = n ->
  List.length m = n -> List.length r = n -> List.length a = n ->
  List.length b = n -> List.length s = n ->
  List.length (zip_rows d p v m r a b s) = n.
Proof.
  revert d p v m r a b s.
  induction n as [|n IH]; intros d p v m r a b s Hd Hp Hv Hm Hr Ha Hb Hs.
  - destruct d; [reflexivity | discriminate].
  - destruct d, p, v, m, r, a, b, s; try discriminate.
    cbn [zip_rows List.length]. f_equal.
    apply IH; cbn [List.length] in *; lia.
Qed.

Lemma zip_rows_nth_error d p v m r a b s i row :
  nth_error (zip_rows d p v m r a b s) i = Some row ->
  nth_error d i = Some (Date row) /\ nth_error p i = Some (Price row)
  /\ nth_error v i = Some (Volume row)
  /\ nth_error m i = Some (Market_Cap row)
  /\ nth_error r i = Some (Daily_Return row)
  /\ nth_error a i = Some (MA_7 row) /\ nth_error b i = Some (MA_30 row)
  /\ nth_error s i = Some (Volatility_7d row).
Proof.
  revert d p v m r a b s.
  induction i as [|i IH]; intros d p v m r a b s H;
    destruct d, p, v, m, r, a, b, s; try discriminate H.
  - cbn in H. injection H as <-. cbn. repeat split.
  - cbn [zip_rows nth_error] in H. cbn [nth_error]. apply IH. exact H.
Qed.

Lemma length_firstn_le {A} (n : nat) (l : list A) :
  (n <= List.length l)%nat -> List.length (firstn n l) = n.
Proof. intros H. rewrite length_firstn. lia. Qed.

Lemma length_shift1 {A} (s : list (option A)) :
  List.length (shift1 s) = List.length s.
Proof.
  destruct s as [|x s]; [reflexivity|].
  unfold shift1. rewrite removelast_firstn_len. cbn [List.length Nat.pred].
  rewrite length_firstn. cbn [List.length]. lia.
Qed.

Lemma length_daily_return (price : list (option Q)) :
  List.length (daily_return price) = List.length price.
Proof.
  unfold daily_return.
  rewrite length_map, length_combine, length_shift1. lia.
Qed.

Lemma length_rolling_mean w k s :
  List.length (rolling_mean w k s) = List.length s.
Proof. unfold rolling_mean. rewrite length_map, length_seq. reflexivity. Qed.

Lemma length_rolling_std w k s :
  List.length (rolling_std w k s) = List.length s.
Proof. unfold rolling_std. rewrite length_map, length_seq. reflexivity. Qed.

(** The table has one row per index below the shortest length. *)
Lemma length_get_historical_data tz data :
  List.length (get_historical_data tz data) = shortest data.
Proof.
  unfold get_historical_data. fold (shortest data).
  set (n := shortest data).
  assert (Hp : (n <= List.length (prices data))%nat) by (unfold n, shortest; lia).
  assert (Hv : (n <= List.length (total_volumes data))%nat)
    by (unfold n, shortest; lia).
  assert (Hm : (n <= List.length (market_caps data))%nat)
    by (unfold n, shortest; lia).
  assert (Lp : List.length (price_column (firstn n (prices data))) = n).
  { unfold price_column. rewrite length_map. apply length_firstn_le, Hp. }
  rewrite Lp.
  destruct (1 <? n)%nat; apply zip_rows_length;
    unfold date_column, int_column;
    rewrite ?length_map, ?length_rolling_mean, ?length_rolling_std,
      ?length_daily_return, ?length_map, ?repeat_length;
    auto using length_firstn_le.
Qed.

Lemma nth_error_map_firstn {A B} (f : A -> B) (n : nat) (l : list A) i y :
  nth_error (map f (firstn n l)) i = Some y ->
  exists x, nth_error l i = Some x /\ f x = y.
Proof.
  rewrite nth_error_map, nth_error_firstn.
  destruct (i <? n)%nat; [|discriminate].
  destruct (nth_error l i) as [x|]; [|discriminate].
  cbn. intros [= <-]. exists x. split; reflexivity.
Qed.

(** The four raw columns of a row come from the elements of the same index
    of the three series. *)
Lemma raw_columns tz data i r :
  nth_error (get_historical_data tz data) i = Some r ->
  exists p v m,
    nth_error (prices data) i = Some p
    /\ nth_error (total_volumes data) i = Some v
    /\ nth_error (market_caps data) i = Some m
    /\ Date r = local_date tz (fst p)
    /\ Price r = option_map (round_to 4) (snd p)
    /\ Volume r = option_map int (snd v)
    /\ Market_Cap r = option_map int (snd m).
Proof.
  unfold get_historical_data. fold (shortest data). intros H.
  assert (Z : nth_error (date_column tz (firstn (shortest data) (prices data))) i
              = Some (Date r)
              /\ nth_error (price_column (firstn (shortest data) (prices data))) i
                 = Some (Price r)
              /\ nth_error (int_column (firstn (shortest data) (total_volumes data))) i
                 = Some (Volume r)
              /\ nth_error (int_column (firstn (shortest data) (market_caps data))) i
                 = Some (Market_Cap r)).
  { destruct (1 <? _)%nat; apply zip_rows_nth_error in H; tauto. }
  destruct Z as (Hd & Hp & Hv & Hm).
  apply nth_error_map_firstn in Hd as (p & Ep & Dp).
  apply nth_error_map_firstn in Hp as (p' & Ep' & Pp).
  apply nth_error_map_firstn in Hv as (v & Ev & Vv).
  apply nth_error_map_firstn in Hm as (m & Em & Mm).
  assert (p' = p) by congruence. subst p'.
  exists p, v, m. repeat split; auto.
Qed.

(** C8.  The table has exactly as many rows as the shortest of the three
    raw series, and row [i] is built from the elements of index [i] of the
    three series: nothing is padded or extrapolated.  In particular series
    of 30, 28 and 29 elements give 28 rows. *)
Theorem truncates_to_shortest_series (tz : Z) (data : market_chart) :
  let t := get_historical_data tz data in
  List.length t = shortest data
  /\ (forall i r, nth_error t i = Some r ->
        exists p v m,
          nth_error (prices data) i = Some p
          /\ nth_error (total_volumes data) i = Some v
          /\ nth_error (market_caps data) i = Some m
          /\ Date r = local_date tz (fst p)
          /\ Price r = option_map (round_to 4) (snd p)
          /\ Volume r = option_map int (snd v)
          /\ Market_Cap r = option_map int (snd m))
  /\ (List.length (prices data) = 30%nat ->
      List.length (total_volumes data) = 28%nat ->
      List.length (market_caps data) = 29%nat ->
      List.length t = 28%nat).
Proof.
  cbn zeta. split; [apply length_get_historical_data|].
  split; [apply raw_columns|].
  intros Hp Hv Hm. rewrite length_get_historical_data.
  unfold shortest. rewrite Hp, Hv, Hm. reflexivity.
Qed.

Lemma truncates_to_shortest_series_witness :
  List.length (get_historical_data 0 partial_chart) = 28%nat.
Proof.
  apply (truncates_to_shortest_series 0 partial_chart); reflexivity.
Defined.

(** ** Rolling windows *)

Lemma firstn_as_map {A} (d : A) (l : list A) (b : nat) :
  (b <= List.length l)%nat ->
  firstn b l = map (fun j => nth j l d) (seq 0 b).
Proof.
  revert l. induction b as [|b IH]; intros l H; [reflexivity|].
  destruct l as [|x l]; [cbn in H; lia|].
  cbn [firstn seq map nth]. f_equal.
  rewrite <- seq_shift, map_map. apply IH. cbn in H. lia.
Qed.

(** A window is the list of the entries at its indices. *)
Lemma window_at_as_map {A} (d : A) (w : nat) (s : list A) (i : nat) :
  (i < List.length s)%nat ->
  window_at w s i
  = map (fun j => nth j s d) (seq (S i - w) (S i - (S i - w))).
Proof.
  intros H. unfold window_at.
  rewrite (firstn_as_map d) by lia.
  rewrite skipn_map, skipn_seq. reflexivity.
Qed.

Lemma observations_all_present (h : nat -> option Q) (g : nat -> Q) js :
  (forall j, In j js -> h j = Some (g j)) ->
  observations (map h js) = map g js.
Proof.
  induction js as [|j js IH]; intros H; [reflexivity|].
  cbn [map observations flat_map]. rewrite (H j) by (left; reflexivity).
  cbn [app]. f_equal. apply IH. intros k Hk. apply H. right. exact Hk.
Qed.

Lemma nth_error_rolling_mean w k s i x :
  nth_error (rolling_mean w k s) i = Some x ->
  x = (let obs := observations (window_at w s i) in
       if (List.length obs <? k)%nat || (List.length obs =? 0)%nat
       then None else Some (mean obs)).
Proof.
  unfold rolling_mean. rewrite nth_error_map, nth_error_seq.
  destruct (i <? List.length s)%nat; [|discriminate].
  cbn. congruence.
Qed.

(** In a table of at least two rows the derived columns are the computed
    ones. *)
Lemma derived_columns tz data i r :
  (2 <= shortest data)%nat ->
  nth_error (get_historical_data tz data) i = Some r ->
  let price := price_column (firstn (shortest data) (prices data)) in
  nth_error price i = Some (Price r)
  /\ nth_error (map (fmap (round_to 3)) (daily_return price)) i
     = Some (Daily_Return r)
  /\ nth_error (map (option_map (round_to 4)) (rolling_mean 7 1 price)) i
     = Some (MA_7 r)
  /\ nth_error (map (option_map (round_to 4)) (rolling_mean 30 1 price)) i
     = Some (MA_30 r)
  /\ nth_error (map (option_map Sqrt3) (rolling_std 7 1 (daily_return price))) i
     = Some (Volatility_7d r).
Proof.
  intros N. unfold get_historical_data. fold (shortest data).
  assert (L : List.length (price_column (firstn (shortest data) (prices data)))
              = shortest data).
  { unfold price_column. rewrite length_map. apply length_firstn_le.
    apply Nat.le_min_l. }
  rewrite L.
  assert (B : (1 <? shortest data)%nat = true) by (apply Nat.ltb_lt; lia).
  rewrite B. intros H. apply zip_rows_nth_error in H. cbn zeta. tauto.
Qed.

(** In a table of at most one row every derived column is empty. *)
Lemma single_row_underived tz data r :
  (shortest data <= 1)%nat ->
  In r (get_historical_data tz data) ->
  Daily_Return r = NaN /\ MA_7 r = None /\ MA_30 r = None
  /\ Volatility_7d r = None.
Proof.
  intros N. unfold get_historical_data. fold (shortest data).
  assert (L : List.length (price_column (firstn (shortest data) (prices data)))
              = shortest data).
  { unfold price_column. rewrite length_map. apply length_firstn_le.
    apply Nat.le_min_l. }
  rewrite L.
  assert (B : (1 <? shortest data)%nat = false) by (apply Nat.ltb_ge; lia).
  rewrite B. intros H. apply In_nth_error in H as [i H].
  apply zip_rows_nth_error in H.
  destruct H as (_ & _ & _ & _ & Hr & Ha & Hb & Hs).
  apply nth_error_In, repeat_spec in Hr, Ha, Hb, Hs.
  repeat split; congruence.
Qed.

(** C4, as the code has it.  In a table of at least seven rows without a
    missing price, the 7-day moving average of row [i] is the arithmetic
    mean of the prices of the rows [max(0, i - 6) .. i], rounded to four
    decimals. *)
Theorem ma7_is_rounded_mean (tz : Z) (data : market_chart) :
  let t := get_historical_data tz data in
  (7 <= List.length t)%nat ->
  all_prices_present t ->
  forall i r, nth_error t i = Some r ->
    MA_7 r = Some (round_to 4 (mean (trailing_prices t i))).
Proof.
  cbn zeta. rewrite length_get_historical_data. intros N P i r H.
  set (t := get_historical_data tz data) in *.
  set (price := price_column (firstn (shortest data) (prices data))).
  assert (Lt : List.length t = shortest data)
    by apply length_get_historical_data.
  assert (I : (i < shortest data)%nat).
  { rewrite <- Lt. apply nth_error_Some. congruence. }
  assert (Lp : List.length price = shortest data).
  { unfold price, price_column. rewrite length_map. apply length_firstn_le.
    apply Nat.le_min_l. }
  (* every row below [i] carries its price, which is the entry of the column *)
  assert (Q : forall j, (j <= i)%nat ->
                nth j price None = Some (price_at t j)).
  { intros j Hj.
    destruct (nth_error t j) as [rj|] eqn:Ej.
    - pose proof (derived_columns tz data j rj ltac:(lia) Ej) as (Hp & _).
      fold price in Hp. rewrite (nth_error_nth _ _ _ Hp).
      unfold price_at. fold t. rewrite Ej.
      destruct (Price rj) as [p|] eqn:Epr; [reflexivity|].
      exfalso. apply (P rj); [|exact Epr].
      apply (nth_error_In _ _ Ej).
    - apply nth_error_None in Ej. lia. }
  pose proof (derived_columns tz data i r ltac:(lia) H) as (_ & _ & Ha & _).
  fold price in Ha. rewrite nth_error_map in Ha.
  destruct (nth_error (rolling_mean 7 1 price) i) as [x|] eqn:Ex;
    [|discriminate].
  cbn in Ha. injection Ha as <-.
  apply nth_error_rolling_mean in Ex. cbn zeta in Ex.
  assert (W : observations (window_at 7 price i) = trailing_prices t i).
  { rewrite (window_at_as_map None) by lia.
    unfold trailing_prices.
    replace (S i - 7)%nat with (i - 6)%nat by lia.
    replace (S i - (i - 6))%nat with (i - (i - 6) + 1)%nat by lia.
    apply observations_all_present.
    intros j Hj. apply in_seq in Hj. apply Q. lia. }
  rewrite W in Ex.
  assert (Ln : (1 <= List.length (trailing_prices t i))%nat).
  { unfold trailing_prices. rewrite length_map, length_seq. lia. }
  destruct (List.length (trailing_prices t i)) as [|k] eqn:Ek; [lia|].
  cbn in Ex. subst x. reflexivity.
Qed.

Lemma ma7_is_rounded_mean_witness :
  exists r,
    nth_error (get_historical_data 0 week_chart) 2 = Some r
    /\ MA_7 r
       = Some (round_to 4
                 (mean (trailing_prices (get_historical_data 0 week_chart) 2))).
Proof.
  eexists. split; [reflexivity|].
  apply (ma7_is_rounded_mean 0 week_chart).
  - vm_compute. lia.
  - intros r H. vm_compute in H.
    repeat (destruct H as [<-|H]; [discriminate|]). destruct H.
  - reflexivity.
Defined.

(** C4, as worded, fails on the code: with the prices 1, 1, 2, 1, 1, 1, 1
    the moving average of row 2 is 1.3333, which is not the mean 4/3. *)
Lemma ma7_of_week_chart_is_not_the_mean :
  (7 <= List.length (get_historical_data 0 week_chart))%nat
  /\ all_prices_present (get_historical_data 0 week_chart)
  /\ ~ ma7_is_mean (get_historical_data 0 week_chart).
Proof.
  split; [vm_compute; lia|]. split.
  - intros r H. vm_compute in H.
    repeat (destruct H as [<-|H]; [discriminate|]). destruct H.
  - intros M. destruct (M 2%nat _ eq_refl) as (m & E & Q).
    vm_compute in E. injection E as <-. vm_compute in Q. discriminate Q.
Qed.

(** ** Row 0 *)

Lemma nth_error_rolling_std w k s i x :
  nth_error (rolling_std w k s) i = Some x ->
  x = (let obs := observations (window_at w (map finite s) i) in
       if (List.length obs <? k)%nat || (List.length obs <=? 1)%nat
       then None else Some (variance obs)).
Proof.
  unfold rolling_std. rewrite nth_error_map, nth_error_seq.
  destruct (i <? List.length s)%nat; [|discriminate].
  cbn. congruence.
Qed.

Lemma daily_return_head p ps :
  exists rs, daily_return (p :: ps) = NaN :: rs.
Proof.
  unfold daily_return, shift1. cbn [combine map fst snd].
  eexists. f_equal. destruct p; reflexivity.
Qed.

Lemma mean_singleton (p : Q) : mean [p] == p.
Proof. unfold mean, sum. cbn [fold_right List.length Z.of_nat]. field. Qed.

(** C5, as the code has it.  Row 0 has no daily return and no volatility.
    Its two moving averages are empty in a table of one row; in a table of
    two or more rows they are the row's own price (empty only when that
    price is missing). *)
Theorem row0_derived_columns (tz : Z) (data : market_chart) (r : hist_row) :
  let t := get_historical_data tz data in
  nth_error t 0 = Some r ->
  Daily_Return r = NaN
  /\ Volatility_7d r = None
  /\ (List.length t = 1%nat -> MA_7 r = None /\ MA_30 r = None)
  /\ ((2 <= List.length t)%nat -> MA_7 r = Price r /\ MA_30 r = Price r).
Proof.
  cbn zeta. rewrite length_get_historical_data. intros H.
  destruct (le_lt_dec (shortest data) 1) as [N|N].
  - destruct (single_row_underived tz data r N (nth_error_In _ _ H))
      as (Hr & Ha & Hb & Hs).
    repeat split; auto; lia.
  - pose proof (derived_columns tz data 0 r ltac:(lia) H)
      as (Hp & Hr & Ha & Hb & Hs).
    destruct (raw_columns tz data 0 r H) as (pt & v & m & _ & _ & _ & _ & Epr & _).
    set (price := price_column (firstn (shortest data) (prices data))) in *.
    destruct price as [|p0 ps] eqn:Eprice; [discriminate Hp|].
    cbn in Hp. injection Hp as ->.
    destruct (daily_return_head (Price r) ps) as (rs & Ers).
    rewrite Ers in Hr, Hs.
    split; [cbn in Hr; congruence|].
    split.
    { rewrite nth_error_map in Hs.
      destruct (nth_error (rolling_std 7 1 (NaN :: rs)) 0) as [x|] eqn:Ex;
        [|discriminate].
      apply nth_error_rolling_std in Ex. cbn in Ex. subst x.
      cbn in Hs. congruence. }
    split; [lia|]. intros _.
    assert (M : forall w, (1 <= w)%nat ->
              forall y, nth_error (map (option_map (round_to 4))
                          (rolling_mean w 1 (Price r :: ps))) 0 = Some y ->
              y = Price r).
    { intros w Hw y Hy. rewrite nth_error_map in Hy.
      destruct (nth_error (rolling_mean w 1 (Price r :: ps)) 0) as [x|] eqn:Ex;
        [|discriminate].
      apply nth_error_rolling_mean in Ex.
      unfold window_at in Ex. replace (1 - w)%nat with 0%nat in Ex by lia.
      cbn [firstn skipn observations flat_map] in Ex.
      cbn in Hy. injection Hy as <-. subst x.
      destruct (Price r) as [p|] eqn:Ep; [|reflexivity].
      cbn. f_equal.
      destruct (snd pt) as [raw|]; [|discriminate Epr].
      cbn in Epr. injection Epr as ->.
      apply round_to_fixpoint. apply mean_singleton. }
    split; [apply (M 7%nat) | apply (M 30%nat)]; auto; lia.
Qed.

Lemma row0_derived_columns_witness :
  exists r,
    nth_error (get_historical_data 0 two_day_chart) 0 = Some r
    /\ Daily_Return r = NaN /\ Volatility_7d r = None
    /\ MA_7 r = Price r /\ MA_30 r = Price r.
Proof.
  eexists. split; [reflexivity|].
  destruct (row0_derived_columns 0 two_day_chart _ eq_refl)
    as (Hr & Hs & _ & Hm).
  destruct Hm as (Ha & Hb); [vm_compute; lia|].
  repeat split; assumption.
Defined.

(** C5, as worded, fails on the code: in a table of two rows the moving
    averages of row 0 are the price of row 0. *)
Lemma row0_of_two_day_chart_has_moving_averages :
  (1 <= List.length (get_historical_data 0 two_day_chart))%nat
  /\ ~ row0_underived (get_historical_data 0 two_day_chart).
Proof.
  split; [vm_compute; lia|].
  intros U. destruct (U _ eq_refl) as (_ & Ha & _).
  vm_compute in Ha. discriminate Ha.
Qed.

End HistoricalProofs.

(** * Properties of the sentiment normaliser *)

Module SentimentProofs.
Import Sentiment SentimentSpec.

Lemma date_leb_total (a b : fng_row) :
  date_leb a b = false -> date_leb b a = true.
Proof.
  unfold date_leb. destruct (Date a) as [x|], (Date b) as [y|]; try discriminate.
  intros H. destruct (String.leb_total x y) as [E|E]; congruence.
Qed.

Lemma date_leb_le (a b : fng_row) :
  dated a = true -> dated b = true -> date_leb a b = true -> date_le a b.
Proof.
  unfold dated, date_leb, date_le.
  destruct (Date a), (Date b); try discriminate; auto.
Qed.

(** ** The insertion sort orders by date *)

Lemma insert_by_date_perm r l : Permutation (r :: l) (insert_by_date r l).
Proof.
  induction l as [|x l IH]; cbn [insert_by_date]; [reflexivity|].
  destruct (date_leb r x); [reflexivity|].
  rewrite perm_swap. constructor. exact IH.
Qed.

Lemma insert_by_date_sorted r l :
  Sorted (fun a b => date_leb a b = true) l ->
  Sorted (fun a b => date_leb a b = true) (insert_by_date r l).
Proof.
  induction l as [|x l IH]; intros S; cbn [insert_by_date].
  - repeat constructor.
  - destruct (date_leb r x) eqn:E.
    + constructor; [exact S | constructor; exact E].
    + apply Sorted_inv in S as [S Hd]. constructor; [apply IH, S|].
      destruct l as [|y l]; cbn [insert_by_date].
      * constructor. apply date_leb_total, E.
      * destruct (date_leb r y); constructor.
        -- apply date_leb_total, E.
        -- apply HdRel_inv in Hd. exact Hd.
Qed.

Lemma isort_perm l : Permutation l (insertion_sort l).
Proof.
  unfold insertion_sort.
  induction l as [|x l IH]; cbn [fold_right]; [reflexivity|].
  rewrite <- insert_by_date_perm. constructor. exact IH.
Qed.

Lemma isort_sorted l :
  Sorted (fun a b => date_leb a b = true) (insertion_sort l).
Proof.
  unfold insertion_sort.
  induction l as [|x l IH]; cbn [fold_right]; [constructor|].
  apply insert_by_date_sorted, IH.
Qed.

(** The contract of the sort has a model. *)
Lemma insertion_sort_orders_by_date : orders_by_date insertion_sort.
Proof. intros rows _. split; [apply isort_perm|apply isort_sorted]. Qed.

(** ** Filters *)

Lemma filter_all {A} (f : A -> bool) l :
  Forall (fun x => f x = true) l -> filter f l = l.
Proof.
  induction 1 as [|x l H _ IH]; [reflexivity|].
  cbn [filter]. rewrite H, IH. reflexivity.
Qed.

Lemma filter_none {A} (f : A -> bool) l :
  Forall (fun x => f x = false) l -> filter f l = [].
Proof.
  induction 1 as [|x l H _ IH]; [reflexivity|].
  cbn [filter]. rewrite H, IH. reflexivity.
Qed.

Lemma Forall_filter {A} (f : A -> bool) l :
  Forall (fun x => f x = true) (filter f l).
Proof. apply Forall_forall. intros x H. apply filter_In in H. tauto. Qed.

Lemma filter_partition_perm {A} (f : A -> bool) l :
  Permutation l (filter f l ++ filter (fun x => negb (f x)) l).
Proof.
  induction l as [|x l IH]; [reflexivity|].
  cbn [filter]. destruct (f x); cbn [negb app].
  - constructor. exact IH.
  - apply Permutation_cons_app. exact IH.
Qed.

Lemma Sorted_app {A} (R : A -> A -> Prop) l1 l2 :
  Sorted R l1 -> Sorted R l2 ->
  (forall a b, In a l1 -> In b l2 -> R a b) ->
  Sorted R (l1 ++ l2).
Proof.
  induction l1 as [|x l1 IH]; intros S1 S2 H; [exact S2|].
  apply Sorted_inv in S1 as [S1 Hd]. cbn [app]. constructor.
  - apply IH; auto. intros a b Ha Hb. apply H; [right|]; assumption.
  - destruct l1 as [|y l1]; cbn [app].
    + destruct l2 as [|z l2]; constructor.
      apply H; left; reflexivity.
    + constructor. apply HdRel_inv in Hd. exact Hd.
Qed.

Lemma Sorted_weaken {A} (R R' : A -> A -> Prop) (P : A -> Prop) l :
  (forall a b, P a -> P b -> R a b -> R' a b) ->
  Forall P l -> Sorted R l -> Sorted R' l.
Proof.
  intros W. induction l as [|x l IH]; intros F S; [constructor|].
  apply Sorted_inv in S as [S Hd].
  pose proof (Forall_inv F) as Px. pose proof (Forall_inv_tail F) as Fl.
  constructor; [apply IH; assumption|].
  destruct l as [|y l]; constructor.
  apply HdRel_inv in Hd. apply W; auto. exact (Forall_inv Fl).
Qed.

(** ** The sorted frame *)

Section Sorted_frame.
Variable argsort : list fng_row -> list fng_row.
Hypothesis argsort_orders : orders_by_date argsort.

Lemma argsort_perm rows :
  Permutation (filter dated rows) (argsort (filter dated rows)).
Proof. apply argsort_orders, Forall_filter. Qed.

Lemma argsort_sorted rows :
  Sorted (fun a b => date_leb a b = true) (argsort (filter dated rows)).
Proof. apply argsort_orders, Forall_filter. Qed.

Lemma argsort_dated rows :
  Forall (fun r => dated r = true) (argsort (filter dated rows)).
Proof.
  eapply Permutation_Forall; [apply argsort_perm | apply Forall_filter].
Qed.

Lemma sort_values_Date_perm rows :
  Permutation rows (sort_values_Date argsort rows).
Proof.
  unfold sort_values_Date. rewrite <- (argsort_perm rows).
  apply filter_partition_perm.
Qed.

Lemma sort_values_Date_ascending rows :
  ascending (sort_values_Date argsort rows).
Proof.
  unfold ascending, sort_values_Date. apply Sorted_app.
  - apply (Sorted_weaken (fun a b => date_leb a b = true) date_le
             (fun r => dated r = true)).
    + intros a b. apply date_leb_le.
    + apply argsort_dated.
    + apply argsort_sorted.
  - apply (Sorted_weaken (fun _ _ => True) date_le
             (fun r => negb (dated r) = true)).
    + intros a b Ha Hb _. unfold date_le, dated in *.
      destruct (Date a), (Date b); try discriminate; exact I.
    + apply Forall_filter.
    + induction (filter _ rows) as [|x l IH]; constructor; auto.
      destruct l; constructor. exact I.
  - intros a b Ha Hb. apply filter_In in Hb as [_ Hb].
    unfold date_le, dated in *.
    destruct (Date b); [discriminate|]. destruct (Date a); exact I.
Qed.

(** The rows with a date and the rows without one, of a sorted frame. *)
Lemma sorted_frame_parts rows :
  filter dated (sort_values_Date argsort rows) = argsort (filter dated rows)
  /\ filter (fun r => negb (dated r)) (sort_values_Date argsort rows)
     = filter (fun r => negb (dated r)) rows.
Proof.
  unfold sort_values_Date.
  set (D := argsort (filter dated rows)).
  set (U := filter (fun r => negb (dated r)) rows).
  assert (FD : Forall (fun r => dated r = true) D) by apply argsort_dated.
  assert (FU : Forall (fun r => negb (dated r) = true) U)
    by apply Forall_filter.
  assert (FU' : Forall (fun r => dated r = false) U).
  { eapply Forall_impl; [|exact FU]. intros r. apply negb_true_iff. }
  assert (FD' : Forall (fun r => negb (dated r) = false) D).
  { eapply Forall_impl; [|exact FD]. intros r ->. reflexivity. }
  rewrite !filter_app.
  rewrite (filter_all dated D FD), (filter_none dated U FU'), app_nil_r.
  rewrite (filter_none _ D FD'), (filter_all _ U FU). split; reflexivity.
Qed.

End Sorted_frame.

(** ** Order of the date texts *)

Lemma ascii_compare_lt_trans (a b c : ascii) :
  Ascii.compare a b = Lt -> Ascii.compare b c = Lt -> Ascii.compare a c = Lt.
Proof.
  unfold Ascii.compare. rewrite !N.compare_lt_iff. apply N.lt_trans.
Qed.

Lemma string_leb_trans (s1 s2 s3 : string) :
  String.leb s1 s2 = true -> String.leb s2 s3 = true ->
  String.leb s1 s3 = true.
Proof.
  unfold String.leb. revert s2 s3.
  induction s1 as [|c1 s1 IH]; intros [|c2 s2] [|c3 s3]; cbn [String.compare];
    try reflexivity; try discriminate.
  destruct (Ascii.compare c1 c2) eqn:E12; try discriminate.
  - apply Ascii.compare_eq_iff in E12. subst c2.
    destruct (Ascii.compare c1 c3) eqn:E13; try discriminate;
      try reflexivity.
    apply IH.
  - destruct (Ascii.compare c2 c3) eqn:E23; try discriminate.
    + apply Ascii.compare_eq_iff in E23. subst c3. rewrite E12. reflexivity.
    + rewrite (ascii_compare_lt_trans c1 c2 c3 E12 E23). reflexivity.
Qed.

(** Two texts lists in ascending order with the same members are the same
    list. *)
Lemma sorted_texts_unique (l1 l2 : list string) :
  Sorted (fun x y => String.leb x y = true) l1 ->
  Sorted (fun x y => String.leb x y = true) l2 ->
  Permutation l1 l2 ->
  l1 = l2.
Proof.
  intros S1 S2.
  assert (T : Relations_1.Transitive (fun x y => String.leb x y = true))
    by (intros x y z; apply string_leb_trans).
  apply (Sorted_StronglySorted T) in S1.
  apply (Sorted_StronglySorted T) in S2.
  clear T. revert l2 S2.
  induction l1 as [|a l1 IH]; intros l2 S2 P.
  - apply Permutation_nil in P. congruence.
  - destruct l2 as [|b l2].
    { apply Permutation_sym, Permutation_nil in P. discriminate P. }
    apply StronglySorted_inv in S1 as [S1 F1].
    apply StronglySorted_inv in S2 as [S2' F2].
    rewrite Forall_forall in F1, F2.
    assert (E : a = b).
    { assert (Ha : In a (b :: l2))
        by (eapply Permutation_in; [exact P|left; reflexivity]).
      assert (Hb : In b (a :: l1))
        by (eapply Permutation_in;
            [apply Permutation_sym; exact P|left; reflexivity]).
      destruct Ha as [Ha|Ha]; [congruence|].
      destruct Hb as [Hb|Hb]; [congruence|].
      apply String.leb_antisym; [apply F1, Hb|apply F2, Ha]. }
    subst b. f_equal. apply (IH S1 l2 S2').
    eapply Permutation_cons_inv. exact P.
Qed.

Lemma map_Date_dated (l : list fng_row) :
  Forall (fun r => dated r = true) l ->
  map Date l = map Some (map date_text l).
Proof.
  induction 1 as [|r l H _ IH]; [reflexivity|].
  cbn [map]. rewrite IH. f_equal. unfold dated, date_text in *.
  destruct (Date r); [reflexivity|discriminate H].
Qed.

Lemma sorted_date_texts (l : list fng_row) :
  Forall (fun r => dated r = true) l ->
  Sorted (fun a b => date_leb a b = true) l ->
  Sorted (fun x y => String.leb x y = true) (map date_text l).
Proof.
  induction l as [|a l IH]; intros F S; [constructor|].
  apply Sorted_inv in S as [S Hd].
  pose proof (Forall_inv F) as Da. pose proof (Forall_inv_tail F) as Fl.
  cbn [map]. constructor; [apply IH; assumption|].
  destruct l as [|b l]; constructor.
  apply HdRel_inv in Hd. pose proof (Forall_inv Fl) as Db.
  unfold date_leb, date_text, dated in *.
  destruct (Date a), (Date b); try discriminate; exact Hd.
Qed.

(** Two orderings of the same dated rows show the same dates, row by
    row. *)
Lemma sorted_dates_unique (l1 l2 : list fng_row) :
  Forall (fun r => dated r = true) l1 ->
  Permutation l1 l2 ->
  Sorted (fun a b => date_leb a b = true) l1 ->
  Sorted (fun a b => date_leb a b = true) l2 ->
  map Date l1 = map Date l2.
Proof.
  intros F P S1 S2.
  assert (F2 : Forall (fun r => dated r = true) l2)
    by (eapply Permutation_Forall; [exact P|exact F]).
  rewrite (map_Date_dated l1 F), (map_Date_dated l2 F2). f_equal.
  apply sorted_texts_unique.
  - apply sorted_date_texts; assumption.
  - apply sorted_date_texts; assumption.
  - apply Permutation_map, P.
Qed.

Lemma same_keys_same_list {A B} (f : A -> B) (l1 l2 : list A) :
  Permutation l1 l2 -> map f l1 = map f l2 -> NoDup (map f l1) -> l1 = l2.
Proof.
  revert l2. induction l1 as [|a l1 IH]; intros l2 P E ND.
  - apply Permutation_nil in P. congruence.
  - destruct l2 as [|b l2]; [discriminate E|].
    cbn [map] in E, ND. injection E as Eab E.
    apply NoDup_cons_iff in ND as [Ha ND].
    assert (X : a = b).
    { assert (Hin : In a (b :: l2))
        by (eapply Permutation_in; [exact P|left; reflexivity]).
      destruct Hin as [Hin|Hin]; [congruence|].
      exfalso. apply Ha. rewrite E. apply in_map, Hin. }
    subst b. f_equal. apply IH; [|exact E|exact ND].
    eapply Permutation_cons_inv. exact P.
Qed.

(** ** Sorting a sorted frame again *)

Lemma resorted_frame (argsort argsort' : list fng_row -> list fng_row) rows :
  orders_by_date argsort ->
  sort_values_Date argsort' (sort_values_Date argsort rows)
  = argsort' (argsort (filter dated rows))
    ++ filter (fun r => negb (dated r)) rows.
Proof.
  intros O. unfold sort_values_Date at 1.
  destruct (sorted_frame_parts argsort O rows) as [-> ->]. reflexivity.
Qed.

Lemma resorted_dates (argsort argsort' : list fng_row -> list fng_row) rows :
  orders_by_date argsort -> orders_by_date argsort' ->
  map Date (sort_values_Date argsort' (sort_values_Date argsort rows))
  = map Date (sort_values_Date argsort rows).
Proof.
  intros O O'. rewrite (resorted_frame argsort argsort' rows O).
  unfold sort_values_Date. rewrite !map_app. f_equal. symmetry.
  pose proof (argsort_dated argsort O rows) as F.
  destruct (O' _ F) as [P S].
  apply sorted_dates_unique; try assumption.
  apply argsort_sorted, O.
Qed.

Lemma resorted_distinct (argsort argsort' : list fng_row -> list fng_row) rows :
  orders_by_date argsort -> orders_by_date argsort' ->
  distinct_dates (sort_values_Date argsort rows) ->
  sort_values_Date argsort' (sort_values_Date argsort rows)
  = sort_values_Date argsort rows.
Proof.
  intros O O' D. rewrite (resorted_frame argsort argsort' rows O).
  unfold sort_values_Date. f_equal. symmetry.
  unfold distinct_dates in D.
  rewrite (proj1 (sorted_frame_parts argsort O rows)) in D.
  pose proof (argsort_dated argsort O rows) as F.
  destruct (O' _ F) as [P S].
  apply (same_keys_same_list Date); [exact P| |exact D].
  apply sorted_dates_unique; try assumption.
  apply argsort_sorted, O.
Qed.

Lemma sort_values_Date_nil (argsort : list fng_row -> list fng_row) :
  orders_by_date argsort -> sort_values_Date argsort [] = [].
Proof.
  intros O. unfold sort_values_Date. cbn [filter]. rewrite app_nil_r.
  destruct (O [] (Forall_nil _)) as [P _].
  apply Permutation_nil in P. exact P.
Qed.

(** ** Payloads that the parsing block gets through *)

Lemma castable_fits (v : field Q) : castable v = true <-> fits_Int64 v.
Proof.
  unfold fits_Int64, castable. destruct v as [| |q]; cbn [to_Int64].
  - split; [intros _ q H; discriminate H|reflexivity].
  - split; [intros _ q H; discriminate H|reflexivity].
  - transitivity (is_integral q && in_int64 (Qfloor q) = true).
    { destruct (is_integral q && in_int64 (Qfloor q)); split; congruence. }
    unfold is_integral, in_int64.
    rewrite !andb_true_iff, Qeq_bool_iff, !Z.leb_le. split.
    + intros [I R] q' [= <-]. exists (Qfloor q). split; [exact I|exact R].
    + intros H. destruct (H q eq_refl) as [z [E R]].
      assert (Fz : Qfloor q = z) by (rewrite E; apply Qfloor_Z).
      rewrite Fz. split; [exact E|exact R].
Qed.

Lemma accepted_condition (data : list fng_entry) :
  existsb (fun e => present (timestamp e)) data
  && existsb (fun e => present (value e)) data
  && forallb (fun e => castable (value e)) data
  && existsb (fun e => present (value_classification e)) data = true
  <-> accepted data.
Proof.
  unfold accepted.
  rewrite !andb_true_iff, !existsb_exists, forallb_forall. split.
  - intros [[[T V] C] K]. repeat split; try assumption.
    intros e H. apply castable_fits, C, H.
  - intros (T & V & K & C). repeat split; try assumption.
    intros e H. apply castable_fits, C, H.
Qed.

(** C9, as the code has it.  Whatever order the sort gives to rows of equal
    date: the table is in ascending order of date, the rows without a date
    last; sorting it again leaves the dates as they stand, row by row, and
    leaves the table itself unchanged when no two rows share a date.  The
    table is not deduplicated: a payload that the parsing block gets
    through (each of the three keys occurs in some record, and every index
    value is missing or a whole number of the 64-bit range) gives one row
    per record, and every other payload gives the empty table. *)
Theorem sentiment_table_sorted_and_complete
    (argsort argsort' : list fng_row -> list fng_row)
    (payload : option (list fng_entry)) :
  orders_by_date argsort ->
  orders_by_date argsort' ->
  let t := get_fear_greed_index argsort payload in
  ascending t
  /\ map Date (sort_values_Date argsort' t) = map Date t
  /\ (distinct_dates t -> sort_values_Date argsort' t = t)
  /\ (forall data, payload = Some data -> accepted data ->
        Permutation (map normalise data) t)
  /\ ((forall data, payload = Some data -> ~ accepted data) -> t = []).
Proof.
  intros O O'. cbn zeta.
  assert (Shape : exists rows,
            get_fear_greed_index argsort payload = sort_values_Date argsort rows).
  { unfold get_fear_greed_index. destruct payload as [data|].
    - destruct (_ && _); [eexists; reflexivity|].
      exists []. symmetry. apply sort_values_Date_nil, O.
    - exists []. symmetry. apply sort_values_Date_nil, O. }
  destruct Shape as [rows Shape].
  split; [rewrite Shape; apply sort_values_Date_ascending, O|].
  split; [rewrite Shape; apply resorted_dates; assumption|].
  split; [rewrite Shape; apply resorted_distinct; assumption|].
  clear rows Shape. unfold get_fear_greed_index. split.
  - intros data -> A. apply accepted_condition in A. rewrite A.
    apply sort_values_Date_perm, O.
  - intros R. destruct payload as [data|]; [|reflexivity].
    destruct (_ && _) eqn:C; [|reflexivity].
    exfalso. apply (R data eq_refl). apply accepted_condition, C.
Qed.

Lemma sentiment_table_sorted_and_complete_witness :
  ascending (get_fear_greed_index insertion_sort three_day_payload)
  /\ map Date (sort_values_Date insertion_sort
                 (get_fear_greed_index insertion_sort three_day_payload))
     = map Date (get_fear_greed_index insertion_sort three_day_payload).
Proof.
  destruct (sentiment_table_sorted_and_complete insertion_sort insertion_sort
              three_day_payload insertion_sort_orders_by_date
              insertion_sort_orders_by_date)
    as (A & B & _).
  split; [exact A|exact B].
Defined.

(** C9, as worded, fails on the code: two records of the same day give two
    rows of the same date. *)
Lemma same_day_records_are_both_kept :
  ~ one_row_per_date (get_fear_greed_index insertion_sort same_day_payload).
Proof.
  intros H. vm_compute in H. apply NoDup_cons_iff in H as [H _].
  apply H. left. reflexivity.
Qed.

(** The three-day payload comes out oldest first. *)
Lemma three_day_payload_sorted :
  map Date (get_fear_greed_index insertion_sort three_day_payload)
  = [Some "1970-01-01"; Some "1970-01-02"; Some "1970-01-03"].
Proof. reflexivity. Qed.

End SentimentProofs.

(** * Properties of the portfolio merge *)

Module WorkbookProofs.
Import Workbook WorkbookSpec.

(** ** Cell equality *)

Lemma cell_eqb_refl (a : cell) : cell_eqb a a = true.
Proof.
  destruct a; cbn; auto using String.eqb_refl.
  apply Qeq_bool_iff. reflexivity.
Qed.

Lemma cell_eqb_sym (a b : cell) : cell_eqb a b = cell_eqb b a.
Proof.
  destruct a, b; cbn; auto using String.eqb_sym.
  destruct (Qeq_bool q q0) eqn:E, (Qeq_bool q0 q) eqn:E'; auto.
  - apply Qeq_bool_iff in E. symmetry in E. apply Qeq_bool_iff in E. congruence.
  - apply Qeq_bool_iff in E'. symmetry in E'. apply Qeq_bool_iff in E'.
    congruence.
Qed.

Lemma cell_eqb_congr (a b c : cell) :
  cell_eqb a b = true -> cell_eqb a c = cell_eqb b c.
Proof.
  destruct a, b; cbn; try discriminate; auto.
  - intros E. apply String.eqb_eq in E. subst. reflexivity.
  - intros E. apply Qeq_bool_iff in E. destruct c; auto.
    destruct (Qeq_bool q q1) eqn:E1, (Qeq_bool q0 q1) eqn:E2; auto.
    + apply Qeq_bool_iff in E1. rewrite E in E1.
      apply Qeq_bool_iff in E1. congruence.
    + apply Qeq_bool_iff in E2. rewrite <- E in E2.
      apply Qeq_bool_iff in E2. congruence.
Qed.

Lemma cell_eqb_Str (a : cell) (s : string) :
  cell_eqb a (Str s) = true <-> a = Str s.
Proof.
  destruct a; cbn; split; try discriminate.
  - intros E. apply String.eqb_eq in E. congruence.
  - intros [= ->]. apply String.eqb_refl.
Qed.

(** ** Dictionaries *)

Lemma dict_get_set (k k' v : cell) (d : dict) :
  dict_get k' (dict_set k v d)
  = if cell_eqb k k' then Some v else dict_get k' d.
Proof.
  induction d as [|[k0 v0] d IH]; cbn [dict_set dict_get]; [reflexivity|].
  destruct (cell_eqb k0 k) eqn:E; cbn [dict_get].
  - rewrite <- (cell_eqb_congr k0 k k' E).
    destruct (cell_eqb k0 k'); reflexivity.
  - rewrite IH. destruct (cell_eqb k0 k') eqn:E'; [|reflexivity].
    destruct (cell_eqb k k') eqn:E''; [|reflexivity].
    rewrite cell_eqb_sym in E''. rewrite cell_eqb_sym in E'.
    rewrite (cell_eqb_congr k' k k0 E''), cell_eqb_sym in E'. congruence.
Qed.

Lemma dict_get_del (k k' : cell) (d : dict) :
  cell_eqb k k' = false -> dict_get k' (dict_del k d) = dict_get k' d.
Proof.
  intros N. induction d as [|[k0 v0] d IH]; [reflexivity|].
  cbn [dict_del filter fst]. destruct (cell_eqb k0 k) eqn:E; cbn [negb dict_get].
  - fold (dict_del k d). rewrite IH.
    rewrite (cell_eqb_congr k0 k k' E), N. reflexivity.
  - fold (dict_del k d). rewrite IH. reflexivity.
Qed.

(** Reading a field of [dict(zip(header, row))] is reading the cell under
    the header. *)
Lemma dict_get_fold_set (name : string) (kvs : list (cell * cell)) (d : dict) :
  dict_get (Str name)
    (fold_left (fun d kv => dict_set (fst kv) (snd kv) d) kvs d)
  = match cell_under name (map fst kvs) (map snd kvs) with
    | Some v => Some v
    | None => dict_get (Str name) d
    end.
Proof.
  revert d. induction kvs as [|[k v] kvs IH]; intros d; [reflexivity|].
  cbn [fold_left map fst snd cell_under]. rewrite IH.
  destruct (cell_under name (map fst kvs) (map snd kvs)); [reflexivity|].
  rewrite dict_get_set. destruct (cell_eqb k (Str name)); reflexivity.
Qed.

Lemma cell_under_combine (name : string) (header row : list cell) :
  cell_under name (map fst (combine header row)) (map snd (combine header row))
  = cell_under name header row.
Proof.
  revert row. induction header as [|h header IH]; intros [|c row];
    try reflexivity.
  cbn [combine map fst snd cell_under]. rewrite IH. reflexivity.
Qed.

Lemma dict_get_zip (name : string) (header row : list cell) :
  dict_get (Str name) (dict_zip header row) = cell_under name header row.
Proof.
  unfold dict_zip. rewrite dict_get_fold_set, cell_under_combine.
  destruct (cell_under name header row); reflexivity.
Qed.

Lemma field_zip (name : string) (header row : list cell) :
  field (Str name) (dict_zip header row) = value_in header row name.
Proof. unfold field, value_in. rewrite dict_get_zip. reflexivity. Qed.

(** ** Column labels *)

Lemma has_label_app (k : cell) (a b : list cell) :
  has_label k (a ++ b) = has_label k a || has_label k b.
Proof. unfold has_label. apply existsb_app. Qed.

Lemma has_label_congr (k c : cell) (cols : list cell) :
  cell_eqb k c = true -> has_label k cols = has_label c cols.
Proof.
  intros E. unfold has_label. induction cols as [|x cols IH]; [reflexivity|].
  cbn [existsb]. rewrite IH, (cell_eqb_congr k c x E). reflexivity.
Qed.

Lemma has_label_add (k c : cell) (cols : list cell) :
  has_label k (add_label c cols) = has_label k cols || cell_eqb k c.
Proof.
  unfold add_label. destruct (has_label c cols) eqn:E.
  - destruct (cell_eqb k c) eqn:E'; [|rewrite orb_false_r; reflexivity].
    rewrite (has_label_congr k c cols E'), E. reflexivity.
  - rewrite has_label_app. cbn. rewrite orb_false_r. reflexivity.
Qed.

Lemma has_label_Str (name c : string) (cols : list cell) :
  has_label (Str name) (cols ++ [Str c])
  = has_label (Str name) cols || String.eqb name c.
Proof. rewrite has_label_app. cbn. rewrite orb_false_r. reflexivity. Qed.

(** ** Filling the missing columns *)

Lemma existsb_pick (P : string -> bool) (col : string) (cs : list string) :
  In col cs -> existsb (fun c => String.eqb col c && P c) cs = P col.
Proof.
  induction cs as [|c cs IH]; intros H; [destruct H|].
  cbn [existsb]. destruct (String.eqb_spec col c) as [->|N].
  - cbn [andb]. destruct (P c) eqn:E; [reflexivity|]. cbn [orb].
    clear IH H. induction cs as [|c' cs IH]; [reflexivity|].
    cbn [existsb]. rewrite IH.
    destruct (String.eqb_spec c c') as [<-|_]; [rewrite E|]; reflexivity.
  - cbn [andb orb]. apply IH. destruct H as [->|H]; [congruence|exact H].
Qed.

Lemma Forall2_map_eq {A B} (R : A -> A -> Prop) (h h' : A -> B) l l' :
  Forall2 R l l' -> (forall r r', R r r' -> h' r' = h r) ->
  map h' l' = map h l.
Proof.
  intros F E. induction F as [|r r' l l' Hr _ IH]; [reflexivity|].
  cbn [map]. rewrite (E r r' Hr), IH. reflexivity.
Qed.

Lemma Forall2_diag {A} (R : A -> A -> Prop) l :
  (forall r, R r r) -> Forall2 R l l.
Proof. intros H. induction l; constructor; auto. Qed.

Lemma Forall2_map_left {A B C} (R : B -> C -> Prop) (g : A -> B) l l' :
  Forall2 R (map g l) l' -> Forall2 (fun a c => R (g a) c) l l'.
Proof.
  revert l'. induction l as [|a l IH]; intros l' H; inversion H; subst;
    constructor; auto.
Qed.

Lemma existsb_same {A} (f g : A -> bool) l :
  (forall x, f x = g x) -> existsb f l = existsb g l.
Proof.
  intros E. induction l as [|x l IH]; [reflexivity|].
  cbn [existsb]. rewrite E, IH. reflexivity.
Qed.

Lemma fill_missing_fold (cs : list string) (f : frame) :
  let f' := fold_left fill_missing cs f in
  (forall name, has_label (Str name) (columns f')
                = has_label (Str name) (columns f)
                  || existsb (String.eqb name) cs)
  /\ Forall2 (filled_from (columns f) cs) (records f) (records f').
Proof.
  revert f. induction cs as [|c cs IH]; intros f; cbn zeta.
  - split.
    + intros name. cbn. rewrite orb_false_r. reflexivity.
    + apply Forall2_diag. intros r. split; reflexivity.
  - cbn [fold_left]. destruct (IH (fill_missing f c)) as [Hc Hr].
    unfold fill_missing in Hc, Hr |- *.
    destruct (has_label (Str c) (columns f)) eqn:E.
    + split.
      * intros name. rewrite Hc. cbn [existsb].
        destruct (String.eqb_spec name c) as [->|_]; [|reflexivity].
        rewrite E. reflexivity.
      * eapply Forall2_impl; [|exact Hr].
        intros r r' [H1 H2]. split; [exact H1|].
        intros name. rewrite H2. cbn [existsb]. rewrite E.
        rewrite andb_false_r. reflexivity.
    + cbn [columns records] in Hc, Hr. split.
      * intros name. rewrite Hc, has_label_Str. cbn [existsb].
        rewrite orb_assoc. reflexivity.
      * apply Forall2_map_left in Hr.
        eapply Forall2_impl; [|exact Hr].
        intros r r' [H1 H2]. cbn [fst snd] in H1, H2. split; [exact H1|].
        intros name. rewrite H2, dict_get_set. cbn [existsb cell_eqb].
        rewrite E. cbn [negb]. rewrite andb_true_r.
        rewrite (String.eqb_sym c name).
        destruct (String.eqb_spec name c) as [->|N].
        -- cbn [orb]. destruct (existsb _ cs); reflexivity.
        -- cbn [orb].
           assert (X : existsb (fun c0 => String.eqb name c0
                         && negb (has_label (Str c0) (columns f ++ [Str c]))) cs
                       = existsb (fun c0 => String.eqb name c0
                         && negb (has_label (Str c0) (columns f))) cs).
           { apply existsb_same. intros c0. rewrite has_label_Str.
             destruct (String.eqb_spec name c0) as [<-|_]; [|reflexivity].
             apply String.eqb_neq in N. rewrite N, orb_false_r.
             reflexivity. }
           rewrite X. reflexivity.
Qed.

Lemma filter_keeps_all {A} (f : A -> bool) l :
  (forall x, In x l -> f x = true) -> filter f l = l.
Proof.
  induction l as [|x l IH]; intros H; [reflexivity|].
  cbn [filter]. rewrite (H x) by (left; reflexivity).
  f_equal. apply IH. intros y Hy. apply H. right. exact Hy.
Qed.

Lemma In_existsb_eqb (name : string) (cs : list string) :
  In name cs -> existsb (String.eqb name) cs = true.
Proof.
  intros H. apply existsb_exists. exists name. split; [exact H|].
  apply String.eqb_refl.
Qed.

(** The sheet that is written: the fixed header, and for each row of the
    merged frame its index label followed by what is shown under each of
    the nine fixed columns. *)
Lemma portfolio_rows_filled (f : frame) :
  portfolio_rows (fold_left fill_missing portfolio_cols f)
  = FIXED_HEADER :: map (out_row (columns f)) (records f).
Proof.
  destruct (fill_missing_fold portfolio_cols f) as [Hc Hr].
  set (f' := fold_left fill_missing portfolio_cols f) in *.
  unfold portfolio_rows.
  assert (K : filter (fun col => has_label (Str col) (columns f'))
                portfolio_cols = portfolio_cols).
  { apply filter_keeps_all. intros col H. rewrite Hc.
    rewrite (In_existsb_eqb col portfolio_cols H). apply orb_true_r. }
  rewrite K. unfold FIXED_HEADER. f_equal.
  apply (Forall2_map_eq (filled_from (columns f) portfolio_cols)); [exact Hr|].
  intros r r' [H1 H2]. unfold out_row. rewrite H1. f_equal.
  apply map_ext_in. intros col H. unfold shown, field. rewrite H2.
  rewrite (existsb_pick (fun c => negb (has_label (Str c) (columns f)))
             col portfolio_cols H).
  destruct (has_label (Str col) (columns f)); reflexivity.
Qed.

(** ** The merge loop *)

Lemma upd_fst cp r : fst (upd cp r) = fst r.
Proof. unfold upd. destruct (cell_eqb _ _); reflexivity. Qed.

Lemma updall_cons cp fresh r : updall (cp :: fresh) r = updall fresh (upd cp r).
Proof. reflexivity. Qed.

Lemma updall_snoc fresh cp r : updall (fresh ++ [cp]) r = upd cp (updall fresh r).
Proof. unfold updall. rewrite fold_left_app. reflexivity. Qed.

Lemma fresh_price_snoc fresh cp c :
  fresh_price (fresh ++ [cp]) c
  = if String.eqb (fst cp) c then Some (snd cp) else fresh_price fresh c.
Proof. unfold fresh_price. rewrite fold_left_app. reflexivity. Qed.

Lemma price_for_snoc fresh cp (coin : cell) :
  price_for (fresh ++ [cp]) coin
  = if cell_eqb coin (Str (fst cp)) then Some (snd cp)
    else price_for fresh coin.
Proof.
  destruct coin as [|c|q]; cbn [price_for cell_eqb]; try reflexivity.
  rewrite fresh_price_snoc, (String.eqb_sym c). reflexivity.
Qed.

Lemma map_upd_absent cp (rs : list (cell * dict)) :
  existsb (fun r => cell_eqb (fst r) (Str (fst cp))) rs = false ->
  map (upd cp) rs = rs.
Proof.
  induction rs as [|r rs IH]; intros H; [reflexivity|].
  cbn [existsb] in H. apply orb_false_iff in H as [H1 H2].
  cbn [map]. rewrite (IH H2). unfold upd. rewrite H1. reflexivity.
Qed.

Lemma merge_step_records f cp :
  records (merge_step f cp)
  = map (upd cp) (records f)
    ++ (if in_index (fst cp) f then []
        else [(Str (fst cp), [(Str CURRENT_VALUE, Num (snd cp))])]).
Proof.
  unfold merge_step. destruct (in_index (fst cp) f) eqn:E.
  - cbn [loc_set records]. rewrite app_nil_r. reflexivity.
  - cbn [concat_row records]. rewrite (map_upd_absent cp _ E). reflexivity.
Qed.

Lemma merge_step_columns f cp :
  columns (merge_step f cp) = add_label (Str CURRENT_VALUE) (columns f).
Proof. unfold merge_step. destruct (in_index _ _); reflexivity. Qed.

Lemma in_index_map_upd c cp rs :
  existsb (fun r => cell_eqb (fst r) (Str c)) (map (upd cp) rs)
  = existsb (fun r => cell_eqb (fst r) (Str c)) rs.
Proof.
  induction rs as [|r rs IH]; [reflexivity|].
  cbn [map existsb]. rewrite upd_fst, IH. reflexivity.
Qed.

Lemma in_index_merge_step c f cp :
  in_index c (merge_step f cp)
  = in_index c f || String.eqb (fst cp) c.
Proof.
  unfold in_index at 1. rewrite merge_step_records, existsb_app, in_index_map_upd.
  fold (in_index c f). destruct (in_index (fst cp) f) eqn:E.
  - cbn [existsb]. rewrite orb_false_r.
    destruct (String.eqb_spec (fst cp) c) as [<-|_];
      [rewrite E|rewrite orb_false_r]; reflexivity.
  - cbn [existsb fst cell_eqb]. rewrite orb_false_r. reflexivity.
Qed.

Lemma merge_snoc fresh cp f :
  fold_left merge_step (fresh ++ [cp]) f
  = merge_step (fold_left merge_step fresh f) cp.
Proof. rewrite fold_left_app. reflexivity. Qed.

(** The rows that were there stay at their places, each with all fresh
    prices applied; new rows come after them. *)
Lemma merged_records fresh f :
  exists extra,
    records (fold_left merge_step fresh f)
    = map (updall fresh) (records f) ++ extra.
Proof.
  revert f. induction fresh as [|cp fresh IH]; intros f.
  - exists []. cbn. rewrite app_nil_r, map_id. reflexivity.
  - cbn [fold_left]. destruct (IH (merge_step f cp)) as [extra E].
    rewrite E, merge_step_records, map_app, map_map, <- app_assoc.
    eexists. reflexivity.
Qed.

(** When every fresh coin has a row already, no row is added. *)
Lemma merged_records_known fresh f :
  (forall c, In c (map fst fresh) -> in_index c f = true) ->
  records (fold_left merge_step fresh f) = map (updall fresh) (records f).
Proof.
  revert f. induction fresh as [|cp fresh IH]; intros f H.
  - cbn. rewrite map_id. reflexivity.
  - cbn [fold_left]. rewrite IH.
    + rewrite merge_step_records, (H (fst cp)) by (left; reflexivity).
      rewrite app_nil_r, map_map. reflexivity.
    + intros c Hc. rewrite in_index_merge_step, (H c) by (right; exact Hc).
      reflexivity.
Qed.

(** A row after all fresh prices: same label, same fields, the current
    value excepted when the fresh table prices the label. *)
Lemma updall_spec fresh r :
  fst (updall fresh r) = fst r
  /\ forall name,
       dict_get (Str name) (snd (updall fresh r))
       = if String.eqb name CURRENT_VALUE
         then match price_for fresh (fst r) with
              | Some p => Some (Num p)
              | None => dict_get (Str name) (snd r)
              end
         else dict_get (Str name) (snd r).
Proof.
  induction fresh as [|cp fresh [IH1 IH2]] using rev_ind.
  - split; [reflexivity|]. intros name. cbn.
    destruct (fst r), (String.eqb name CURRENT_VALUE); reflexivity.
  - rewrite updall_snoc. split; [rewrite upd_fst; exact IH1|].
    intros name. rewrite price_for_snoc. unfold upd. rewrite IH1.
    destruct (cell_eqb (fst r) (Str (fst cp))) eqn:E.
    + cbn [snd]. rewrite dict_get_set. cbn [cell_eqb].
      rewrite (String.eqb_sym CURRENT_VALUE name), IH2.
      destruct (String.eqb name CURRENT_VALUE); reflexivity.
    + apply IH2.
Qed.

(** Every row whose coin the fresh table prices carries that price. *)
Lemma merged_current_value fresh f r p :
  In r (records (fold_left merge_step fresh f)) ->
  price_for fresh (fst r) = Some p ->
  dict_get (Str CURRENT_VALUE) (snd r) = Some (Num p).
Proof.
  revert r p. induction fresh as [|cp fresh IH] using rev_ind; intros r p H P.
  - destruct (fst r); discriminate P.
  - rewrite merge_snoc, merge_step_records in H.
    rewrite price_for_snoc in P.
    apply in_app_or in H as [H|H].
    + apply in_map_iff in H as (r0 & <- & H0).
      rewrite upd_fst in P. unfold upd.
      destruct (cell_eqb (fst r0) (Str (fst cp))) eqn:E.
      * injection P as <-. cbn [snd]. rewrite dict_get_set, cell_eqb_refl.
        reflexivity.
      * apply (IH r0 p H0 P).
    + destruct (in_index (fst cp) _); [destruct H|].
      destruct H as [<-|[]]. cbn [fst snd] in *.
      rewrite cell_eqb_refl in P. injection P as <-.
      cbn [dict_get]. rewrite cell_eqb_refl. reflexivity.
Qed.

(** Every fresh coin has a row in the merged frame. *)
Lemma merged_index fresh f c :
  In c (map fst fresh) -> in_index c (fold_left merge_step fresh f) = true.
Proof.
  induction fresh as [|cp fresh IH] using rev_ind; intros H; [destruct H|].
  rewrite merge_snoc, in_index_merge_step.
  rewrite map_app in H. apply in_app_or in H as [H|[<-|[]]].
  - rewrite (IH H). reflexivity.
  - rewrite String.eqb_refl. apply orb_true_r.
Qed.

(** The merged frame has the current-value column and no other new one. *)
Lemma merged_columns fresh f name :
  has_label (Str name) (columns (fold_left merge_step fresh f))
  = has_label (Str name) (columns f)
    || (negb (List.length fresh =? 0)%nat && String.eqb name CURRENT_VALUE).
Proof.
  induction fresh as [|cp fresh IH] using rev_ind.
  - cbn. rewrite orb_false_r. reflexivity.
  - rewrite merge_snoc, merge_step_columns, has_label_add, IH.
    rewrite length_app. cbn [List.length cell_eqb].
    replace (List.length fresh + 1 =? 0)%nat with false
      by (symmetry; apply Nat.eqb_neq; lia).
    cbn [negb andb].
    destruct (has_label (Str name) (columns f)),
      (String.eqb name CURRENT_VALUE), (List.length fresh =? 0)%nat;
      reflexivity.
Qed.

(** ** The frame read from the sheet *)

Lemma has_label_fold_add k keys cols :
  has_label k (fold_left (fun cs k' => add_label k' cs) keys cols)
  = has_label k cols || existsb (cell_eqb k) keys.
Proof.
  revert cols. induction keys as [|k' keys IH]; intros cols.
  - cbn. rewrite orb_false_r. reflexivity.
  - cbn [fold_left existsb]. rewrite IH, has_label_add, orb_assoc.
    reflexivity.
Qed.

Lemma has_label_dicts k (ds : list dict) cols :
  has_label k
    (fold_left (fun cols (d : dict) =>
                  fold_left (fun cs k' => add_label k' cs) (map fst d) cols)
               ds cols)
  = has_label k cols
    || existsb (fun d : dict => existsb (cell_eqb k) (map fst d)) ds.
Proof.
  revert cols. induction ds as [|d ds IH]; intros cols.
  - cbn. rewrite orb_false_r. reflexivity.
  - cbn [fold_left existsb]. rewrite IH, has_label_fold_add, orb_assoc.
    reflexivity.
Qed.

Lemma dict_get_key k (d : dict) v :
  dict_get k d = Some v -> existsb (cell_eqb k) (map fst d) = true.
Proof.
  induction d as [|[k0 v0] d IH]; [discriminate|].
  cbn [dict_get map fst existsb]. rewrite (cell_eqb_sym k k0).
  destruct (cell_eqb k0 k); [reflexivity|]. exact IH.
Qed.

Lemma cell_under_present name header row :
  In (Str name) header -> (List.length header <= List.length row)%nat ->
  exists v, cell_under name header row = Some v.
Proof.
  revert row. induction header as [|h header IH]; intros row H L;
    [destruct H|].
  destruct row as [|c row]; [cbn in L; lia|].
  cbn [cell_under]. cbn [List.length] in L.
  destruct (cell_under name header row) as [v|] eqn:E; [eauto|].
  destruct H as [->|H].
  - rewrite cell_eqb_refl. eauto.
  - destruct (IH row H ltac:(lia)) as [v Ev]. congruence.
Qed.

Lemma has_label_filter k name cols :
  cell_eqb k name = false ->
  has_label k (filter (fun c => negb (cell_eqb c name)) cols)
  = has_label k cols.
Proof.
  intros N. unfold has_label. induction cols as [|c cols IH]; [reflexivity|].
  cbn [filter existsb]. destruct (cell_eqb c name) eqn:E; cbn [negb existsb].
  - rewrite IH. destruct (cell_eqb k c) eqn:E'; [|reflexivity].
    rewrite (cell_eqb_congr k c name E'), E in N. discriminate.
  - rewrite IH. reflexivity.
Qed.

(** A sheet with a header that names the coin column and at least one row
    below it is read as one frame row per sheet row. *)
Lemma existing_portfolio_spec (hdr r1 : list cell) (rest : worksheet) :
  rectangular (hdr :: r1 :: rest) ->
  In (Str COIN_ID) hdr ->
  records (existing_portfolio (hdr :: r1 :: rest))
  = map (fun row => (value_in hdr row COIN_ID,
                     dict_del (Str COIN_ID) (dict_zip hdr row)))
        (r1 :: rest)
  /\ forall name, name <> COIN_ID -> In (Str name) hdr ->
       has_label (Str name) (columns (existing_portfolio (hdr :: r1 :: rest)))
       = true.
Proof.
  intros R H. unfold existing_portfolio.
  assert (M : max_row (hdr :: r1 :: rest) = S (S (List.length rest))).
  { unfold max_row. cbn [List.length]. lia. }
  rewrite M. cbn [Nat.ltb Nat.leb first_row rows_from_2 tl].
  set (ds := map (dict_zip hdr) (r1 :: rest)).
  assert (L1 : (List.length hdr <= List.length r1)%nat).
  { unfold rectangular in R. cbn [first_row] in R.
    apply Forall_inv_tail, Forall_inv in R. lia. }
  assert (K : forall name, In (Str name) hdr ->
                has_label (Str name) (columns_of_dicts ds) = true).
  { intros name Hn. unfold columns_of_dicts. rewrite has_label_dicts.
    cbn [has_label existsb orb]. unfold ds. cbn [map existsb].
    destruct (cell_under_present name hdr r1 Hn L1) as [v Ev].
    rewrite <- dict_get_zip in Ev. rewrite (dict_get_key _ _ _ Ev).
    reflexivity. }
  rewrite (K COIN_ID H). cbn [set_index records columns]. split.
  - unfold ds. rewrite map_map. apply map_ext. intros row.
    rewrite field_zip. reflexivity.
  - intros name N Hn. rewrite has_label_filter; [apply K, Hn|].
    cbn [cell_eqb]. apply String.eqb_neq. exact N.
Qed.

(** ** The sheet that the merge writes *)

Lemma merge_portfolio_rows ws fresh :
  merge_portfolio ws fresh
  = FIXED_HEADER
    :: map (out_row (columns (fold_left merge_step fresh (existing_portfolio ws))))
           (records (fold_left merge_step fresh (existing_portfolio ws))).
Proof. unfold merge_portfolio. apply portfolio_rows_filled. Qed.

Lemma value_in_out_row_coin (x : cell) (g : string -> cell) :
  value_in FIXED_HEADER (x :: map g portfolio_cols) COIN_ID = x.
Proof. reflexivity. Qed.

Lemma value_in_out_row (x : cell) (g : string -> cell) (name : string) :
  In name portfolio_cols ->
  value_in FIXED_HEADER (x :: map g portfolio_cols) name = g name.
Proof.
  intros H. cbn in H.
  repeat (destruct H as [<-|H]; [reflexivity|]). destruct H.
Qed.

Lemma portfolio_col_not_coin (name : string) :
  In name portfolio_cols -> name <> COIN_ID.
Proof.
  intros H. cbn in H.
  repeat (destruct H as [<-|H]; [discriminate|]). destruct H.
Qed.

Lemma merged_has_current_value fresh f :
  fresh <> [] ->
  has_label (Str CURRENT_VALUE) (columns (fold_left merge_step fresh f)) = true.
Proof.
  intros N. rewrite merged_columns. destruct fresh; [congruence|].
  cbn. apply orb_true_r.
Qed.

Lemma merged_keeps_label fresh f name :
  has_label (Str name) (columns f) = true ->
  has_label (Str name) (columns (fold_left merge_step fresh f)) = true.
Proof. intros H. rewrite merged_columns, H. reflexivity. Qed.

Lemma merged_nonempty fresh f :
  fresh <> [] -> records (fold_left merge_step fresh f) <> [].
Proof.
  intros N. destruct fresh as [|cp fresh]; [congruence|].
  pose proof (merged_index (cp :: fresh) f (fst cp) (or_introl eq_refl)) as H.
  unfold in_index in H. intros E. rewrite E in H. discriminate H.
Qed.

(** The field of a row read from the sheet, under a name other than the
    coin column. *)
Lemma field_of_sheet_row hdr row name :
  name <> COIN_ID ->
  field (Str name) (dict_del (Str COIN_ID) (dict_zip hdr row))
  = value_in hdr row name.
Proof.
  intros N. unfold field. rewrite dict_get_del.
  - rewrite dict_get_zip. reflexivity.
  - cbn [cell_eqb]. apply String.eqb_neq. congruence.
Qed.

(** ** Columns of other names do not reach the merged sheet *)

Lemma fixed_name_is_fixed (name : string) :
  In name (COIN_ID :: portfolio_cols) -> is_fixed_name (Str name) = true.
Proof.
  intros H. cbn in H.
  repeat (destruct H as [<-|H]; [reflexivity|]). destruct H.
Qed.

Lemma keep_fixed_header (hdr : list cell) :
  keep_fixed hdr hdr = filter is_fixed_name hdr.
Proof.
  induction hdr as [|h hdr IH]; [reflexivity|].
  cbn [keep_fixed filter]. rewrite IH. reflexivity.
Qed.

Lemma cell_under_keep_fixed (name : string) (hdr row : list cell) :
  is_fixed_name (Str name) = true ->
  cell_under name (filter is_fixed_name hdr) (keep_fixed hdr row)
  = cell_under name hdr row.
Proof.
  intros F. revert row. induction hdr as [|h hdr IH]; intros row;
    [reflexivity|].
  destruct row as [|c row].
  - cbn [keep_fixed filter]. destruct (is_fixed_name h); [|cbn].
    + reflexivity.
    + destruct (filter is_fixed_name hdr); reflexivity.
  - cbn [keep_fixed filter cell_under].
    destruct (is_fixed_name h) eqn:E; cbn [cell_under]; rewrite IH.
    + reflexivity.
    + destruct (cell_under name hdr row); [reflexivity|].
      destruct (cell_eqb h (Str name)) eqn:E'; [|reflexivity].
      apply cell_eqb_Str in E'. congruence.
Qed.

Lemma dict_has_key k (d : dict) :
  existsb (cell_eqb k) (map fst d)
  = match dict_get k d with
    | Some _ => true
    | None => false
    end.
Proof.
  induction d as [|[k0 v0] d IH]; [reflexivity|].
  cbn [dict_get map fst existsb]. rewrite (cell_eqb_sym k k0).
  destruct (cell_eqb k0 k); [reflexivity|exact IH].
Qed.

(** Whether the frame read from the rows has a column is decided by the
    cells under the header. *)
Lemma has_label_of_rows (name : string) (hdr : list cell) (rows : worksheet) :
  has_label (Str name) (columns_of_dicts (map (dict_zip hdr) rows))
  = existsb (fun row => match cell_under name hdr row with
                        | Some _ => true
                        | None => false
                        end) rows.
Proof.
  unfold columns_of_dicts. rewrite has_label_dicts. cbn [has_label existsb orb].
  induction rows as [|row rows IH]; [reflexivity|].
  cbn [map existsb]. rewrite IH, dict_has_key, dict_get_zip. reflexivity.
Qed.

Lemma first_row_without_foreign (ws : worksheet) :
  ws <> [] ->
  first_row (without_foreign_columns ws) = filter is_fixed_name (first_row ws).
Proof.
  destruct ws as [|hdr rest]; [congruence|]. intros _.
  unfold without_foreign_columns. cbn [first_row map].
  apply keep_fixed_header.
Qed.

Lemma same_fixed_frame_refl (f : frame) : same_fixed_frame f f.
Proof.
  split; [reflexivity|]. apply Forall2_diag. intros r. split; reflexivity.
Qed.

(** The frames read from a sheet and from the sheet without its foreign
    columns agree on the fixed columns. *)
Lemma existing_portfolio_without_foreign (ws : worksheet) :
  same_fixed_frame (existing_portfolio (without_foreign_columns ws))
                   (existing_portfolio ws).
Proof.
  destruct ws as [|hdr rest]; [apply same_fixed_frame_refl|].
  unfold existing_portfolio.
  assert (M : max_row (without_foreign_columns (hdr :: rest))
              = max_row (hdr :: rest)).
  { unfold max_row, without_foreign_columns. rewrite length_map. reflexivity. }
  rewrite M, first_row_without_foreign by discriminate.
  destruct (0 <? max_row (hdr :: rest))%nat eqn:Z0.
  2:{ unfold max_row in Z0. apply Nat.ltb_ge in Z0. lia. }
  cbn [first_row rows_from_2 tl without_foreign_columns map].
  destruct (1 <? max_row (hdr :: rest))%nat.
  2:{ cbn [map columns_of_dicts fold_left has_label existsb].
      apply same_fixed_frame_refl. }
  rewrite map_map.
  assert (K : forall name, is_fixed_name (Str name) = true ->
                has_label (Str name)
                  (columns_of_dicts
                     (map (fun row => dict_zip (filter is_fixed_name hdr)
                                               (keep_fixed hdr row)) rest))
                = has_label (Str name)
                    (columns_of_dicts (map (dict_zip hdr) rest))).
  { intros name F.
    rewrite has_label_of_rows. unfold columns_of_dicts.
    rewrite has_label_dicts. cbn [has_label existsb orb].
    clear - F. induction rest as [|row rest IH]; [reflexivity|].
    cbn [map existsb]. rewrite IH, dict_has_key, dict_get_zip.
    rewrite (cell_under_keep_fixed name hdr row F). reflexivity. }
  rewrite (K COIN_ID eq_refl).
  destruct (has_label (Str COIN_ID) (columns_of_dicts (map (dict_zip hdr) rest)));
    [|apply same_fixed_frame_refl].
  unfold set_index. split; cbn [columns records].
  - intros name H.
    assert (N : cell_eqb (Str name) (Str COIN_ID) = false).
    { cbn [cell_eqb]. apply String.eqb_neq, portfolio_col_not_coin, H. }
    rewrite !has_label_filter by exact N.
    apply K, fixed_name_is_fixed. right. exact H.
  - rewrite !map_map. clear.
    induction rest as [|row rest IH]; cbn [map]; constructor; [|exact IH].
    split; cbn [fst snd].
    + unfold field. rewrite !dict_get_zip.
      rewrite (cell_under_keep_fixed COIN_ID hdr row eq_refl). reflexivity.
    + intros name H.
      assert (N : cell_eqb (Str COIN_ID) (Str name) = false).
      { cbn [cell_eqb]. apply String.eqb_neq. intros E.
        apply (portfolio_col_not_coin name H). congruence. }
      rewrite !dict_get_del by exact N. rewrite !dict_get_zip.
      apply cell_under_keep_fixed, fixed_name_is_fixed. right. exact H.
Qed.

Lemma in_index_same c f f' :
  same_fixed_frame f f' -> in_index c f = in_index c f'.
Proof.
  intros [_ R]. unfold in_index.
  induction R as [|r r' rs rs' [E _] _ IH]; [reflexivity|].
  cbn [existsb]. rewrite E, IH. reflexivity.
Qed.

Lemma upd_same cp r r' :
  same_fixed_fields r r' -> same_fixed_fields (upd cp r) (upd cp r').
Proof.
  intros [E H]. unfold upd. rewrite <- E.
  destruct (cell_eqb (fst r) (Str (fst cp))); [|split; assumption].
  split; [reflexivity|]. intros name Hn. cbn [snd].
  rewrite !dict_get_set, (H name Hn). reflexivity.
Qed.

Lemma merge_step_same f f' cp :
  same_fixed_frame f f' ->
  same_fixed_frame (merge_step f cp) (merge_step f' cp).
Proof.
  intros S. pose proof (in_index_same (fst cp) f f' S) as I.
  destruct S as [C R]. split.
  - intros name Hn. rewrite !merge_step_columns, !has_label_add, (C name Hn).
    reflexivity.
  - rewrite !merge_step_records, <- I. apply Forall2_app.
    + clear - R. induction R as [|r r' rs rs' H _ IH]; cbn [map]; constructor;
        [apply upd_same, H | exact IH].
    + destruct (in_index (fst cp) f); constructor; [|constructor].
      split; reflexivity.
Qed.

Lemma merged_same fresh f f' :
  same_fixed_frame f f' ->
  same_fixed_frame (fold_left merge_step fresh f) (fold_left merge_step fresh f').
Proof.
  revert f f'. induction fresh as [|cp fresh IH]; intros f f' S; [exact S|].
  cbn [fold_left]. apply IH, merge_step_same, S.
Qed.

Lemma out_row_same cols cols' r r' :
  (forall name, In name portfolio_cols ->
     has_label (Str name) cols = has_label (Str name) cols') ->
  same_fixed_fields r r' ->
  out_row cols r = out_row cols' r'.
Proof.
  intros C [E H]. unfold out_row. rewrite E. f_equal.
  apply map_ext_in. intros name Hn. unfold shown, field.
  rewrite (C name Hn), (H name Hn). reflexivity.
Qed.

(** The merged sheet is the one that the sheet without its columns of
    other names gives: nothing that stands under such a column has a part
    in it. *)
Lemma merge_ignores_foreign_columns ws fresh :
  merge_portfolio (without_foreign_columns ws) fresh = merge_portfolio ws fresh.
Proof.
  rewrite !merge_portfolio_rows. f_equal.
  destruct (merged_same fresh _ _ (existing_portfolio_without_foreign ws))
    as [C R].
  induction R as [|r r' rs rs' H _ IH]; [reflexivity|].
  cbn [map]. rewrite IH. f_equal. apply out_row_same; assumption.
Qed.

(** C10.  After a merge with a fresh table that is not empty, the header
    row is exactly Coin ID, Current Value (USD), Symbol, Location, Quantity,
    Purchase Price (USD), Total Value (USD), P/L (USD), P/L Ratio,
    Airdrop or Invest, whatever the header was; every row has exactly
    these ten cells, so a column of any other name (names compared as they
    are spelt) is gone from the sheet, and what stood under it has no part
    in the merged sheet: the sheet without those columns gives the same
    result. *)
Theorem merged_sheet_has_the_fixed_columns
    (ws : worksheet) (fresh : list (string * Q)) :
  fresh <> [] ->
  let out := merge_portfolio ws fresh in
  first_row out
  = map Str [ "Coin ID"; "Current Value (USD)"; "Symbol"; "Location";
              "Quantity"; "Purchase Price (USD)"; "Total Value (USD)";
              "P/L (USD)"; "P/L Ratio"; "Airdrop or Invest" ]
  /\ Forall (fun r => List.length r = 10%nat) out
  /\ (2 <= List.length out)%nat
  /\ (forall name,
       ~ In name [ "Coin ID"; "Current Value (USD)"; "Symbol"; "Location";
                   "Quantity"; "Purchase Price (USD)"; "Total Value (USD)";
                   "P/L (USD)"; "P/L Ratio"; "Airdrop or Invest" ] ->
       ~ In (Str name) (first_row out)
       /\ forall r, In r out -> cell_under name (first_row out) r = None)
  /\ merge_portfolio (without_foreign_columns ws) fresh = out.
Proof.
  intros N. cbn zeta. rewrite merge_ignores_foreign_columns.
  rewrite merge_portfolio_rows. cbn [first_row].
  split; [reflexivity|]. split.
  { constructor; [reflexivity|]. apply Forall_forall. intros r H.
    apply in_map_iff in H as (r0 & <- & _). reflexivity. }
  split.
  { pose proof (merged_nonempty fresh (existing_portfolio ws) N) as E.
    destruct (records _); [congruence|]. cbn [List.length map]. lia. }
  split; [|reflexivity].
  intros name Hn. split.
  - intros H. apply Hn. cbn in H.
    repeat (destruct H as [[= <-]|H]; [cbn; tauto|]). destruct H.
  - intros r _.
    assert (E : forall h, In h FIXED_HEADER -> cell_eqb h (Str name) = false).
    { intros h Hh. destruct (cell_eqb h (Str name)) eqn:E; [|reflexivity].
      apply cell_eqb_Str in E. subst h. exfalso. apply Hn. cbn in Hh.
      repeat (destruct Hh as [[= <-]|Hh]; [cbn; tauto|]). destruct Hh. }
    revert r. induction FIXED_HEADER as [|h hs IH]; intros r; [reflexivity|].
    destruct r as [|c r]; [reflexivity|]. cbn [cell_under].
    rewrite IH by (intros h' Hh'; apply E; right; exact Hh').
    rewrite (E h) by (left; reflexivity). reflexivity.
Qed.

Lemma merged_sheet_has_the_fixed_columns_witness :
  first_row (merge_portfolio template_with_holding fresh_prices)
  = map Str [ "Coin ID"; "Current Value (USD)"; "Symbol"; "Location";
              "Quantity"; "Purchase Price (USD)"; "Total Value (USD)";
              "P/L (USD)"; "P/L Ratio"; "Airdrop or Invest" ].
Proof.
  apply (merged_sheet_has_the_fixed_columns template_with_holding fresh_prices).
  discriminate.
Defined.

(** C1, as the code has it.  In a sheet whose header names the coin column,
    every existing row stays at its place and keeps its coin; each of its
    fields under a fixed column other than the current value keeps its prior
    value; the current value becomes the fresh price when the fresh table
    prices the coin, and keeps its prior value otherwise. *)
Theorem existing_rows_keep_their_fixed_fields
    (ws : worksheet) (fresh : list (string * Q)) :
  fresh <> [] ->
  rectangular ws ->
  In (Str COIN_ID) (first_row ws) ->
  let out := merge_portfolio ws fresh in
  first_row out = FIXED_HEADER
  /\ forall i row, nth_error (rows_from_2 ws) i = Some row ->
       exists new_row,
         nth_error (rows_from_2 out) i = Some new_row
         /\ value_in FIXED_HEADER new_row COIN_ID
            = value_in (first_row ws) row COIN_ID
         /\ (forall name, In name portfolio_cols -> name <> CURRENT_VALUE ->
               In (Str name) (first_row ws) ->
               value_in FIXED_HEADER new_row name
               = value_in (first_row ws) row name)
         /\ value_in FIXED_HEADER new_row CURRENT_VALUE
            = match price_for fresh (value_in (first_row ws) row COIN_ID) with
              | Some p => Num p
              | None => value_in (first_row ws) row CURRENT_VALUE
              end.
Proof.
  intros N R C. cbn zeta. rewrite merge_portfolio_rows.
  split; [reflexivity|]. intros i row Hi.
  destruct ws as [|hdr [|r1 rest]]; try (destruct i; discriminate Hi).
  cbn [first_row rows_from_2 tl] in *.
  destruct (existing_portfolio_spec hdr r1 rest R C) as [Er Ec].
  set (E := existing_portfolio (hdr :: r1 :: rest)) in *.
  destruct (merged_records fresh E) as [extra Em].
  set (mk := fun row => (value_in hdr row COIN_ID,
                         dict_del (Str COIN_ID) (dict_zip hdr row))) in *.
  exists (out_row (columns (fold_left merge_step fresh E))
                  (updall fresh (mk row))).
  destruct (updall_spec fresh (mk row)) as [U1 U2].
  split.
  { rewrite Em, Er, map_app, nth_error_app1.
    - rewrite !nth_error_map, Hi. reflexivity.
    - rewrite !length_map. apply nth_error_Some. congruence. }
  unfold out_row. split; [rewrite value_in_out_row_coin; exact U1|].
  split.
  - intros name Hn Hcv Hh. rewrite value_in_out_row by exact Hn.
    unfold shown.
    rewrite (merged_keeps_label fresh E name
               (Ec name (portfolio_col_not_coin name Hn) Hh)).
    unfold field. rewrite U2.
    apply String.eqb_neq in Hcv. rewrite Hcv.
    apply (field_of_sheet_row hdr row name (portfolio_col_not_coin name Hn)).
  - rewrite value_in_out_row by (left; reflexivity).
    unfold shown. rewrite (merged_has_current_value fresh E N).
    unfold field. rewrite U2, String.eqb_refl. cbn [mk fst snd].
    destruct (price_for fresh (value_in hdr row COIN_ID)); [reflexivity|].
    apply (field_of_sheet_row hdr row CURRENT_VALUE). discriminate.
Qed.

Lemma existing_rows_keep_their_fixed_fields_witness :
  exists new_row,
    nth_error (rows_from_2 (merge_portfolio merged_sheet fresh_prices)) 1
    = Some new_row
    /\ value_in FIXED_HEADER new_row COIN_ID = Str "notcoin"
    /\ value_in FIXED_HEADER new_row "Airdrop or Invest" = Str "Airdrop"
    /\ value_in FIXED_HEADER new_row CURRENT_VALUE = Num 1.
Proof.
  destruct (existing_rows_keep_their_fixed_fields merged_sheet fresh_prices)
    as [_ H].
  - discriminate.
  - repeat constructor.
  - left. reflexivity.
  - destruct (H 1%nat _ eq_refl) as (new_row & H1 & H2 & H3 & H4).
    exists new_row. split; [exact H1|]. split; [exact H2|].
    split; [|exact H4].
    apply (H3 "Airdrop or Invest"); cbn; auto 20. discriminate.
Defined.

(** C1, as worded, fails on the code: a note that the operator keeps in a
    column of their own is not in the merged sheet. *)
Lemma operator_column_is_not_carried_over :
  ~ fields_preserved sheet_with_notes fresh_prices.
Proof.
  intros P. destruct (P 0%nat _ eq_refl) as (new_row & H1 & H2).
  vm_compute in H1. injection H1 as <-.
  specialize (H2 "Notes").
  assert (X : Blank = Str "cold wallet"); [|discriminate X].
  apply H2; [cbn; auto 20 | discriminate].
Qed.

(** The same happens to the last column of the sheet that the script itself
    creates: it is headed "AirDrop or Invest", the merge looks for
    "Airdrop or Invest", and what the operator entered there is not in the
    merged sheet. *)
Lemma template_column_is_lost :
  ~ fields_preserved template_with_holding fresh_prices.
Proof.
  intros P. destruct (P 0%nat _ eq_refl) as (new_row & H1 & H2).
  vm_compute in H1. injection H1 as <-.
  specialize (H2 "AirDrop or Invest").
  assert (X : Blank = Str "Invest"); [|discriminate X].
  apply H2; [cbn; auto 20 | discriminate].
Qed.

(** ** Merging twice *)

(** The merge of a non-empty fresh table is idempotent on every sheet. *)
Lemma merge_portfolio_idempotent (ws : worksheet) (fresh : list (string * Q)) :
  fresh <> [] ->
  merge_portfolio (merge_portfolio ws fresh) fresh = merge_portfolio ws fresh.
Proof.
  intros N. rewrite (merge_portfolio_rows ws fresh).
  set (M := fold_left merge_step fresh (existing_portfolio ws)).
  pose proof (merged_nonempty fresh (existing_portfolio ws) N) as NE.
  fold M in NE.
  destruct (records M) as [|m ms] eqn:Erec; [congruence|].
  cbn [map].
  set (o1 := out_row (columns M) m).
  set (os := map (out_row (columns M)) ms).
  assert (R : rectangular (FIXED_HEADER :: o1 :: os)).
  { unfold rectangular. cbn [first_row]. constructor; [reflexivity|].
    constructor; [reflexivity|]. apply Forall_forall. intros r H.
    apply in_map_iff in H as (r0 & <- & _). reflexivity. }
  assert (C : In (Str COIN_ID) FIXED_HEADER) by (left; reflexivity).
  destruct (existing_portfolio_spec FIXED_HEADER o1 os R C) as [Er Ec].
  rewrite (merge_portfolio_rows (FIXED_HEADER :: o1 :: os) fresh).
  set (E2 := existing_portfolio (FIXED_HEADER :: o1 :: os)) in *.
  set (mk := fun row => (value_in FIXED_HEADER row COIN_ID,
                         dict_del (Str COIN_ID) (dict_zip FIXED_HEADER row)))
    in *.
  assert (Er' : records E2 = map (fun r => mk (out_row (columns M) r)) (m :: ms)).
  { rewrite Er. unfold o1, os. rewrite <- map_cons, map_map. reflexivity. }
  assert (K : forall c, In c (map fst fresh) -> in_index c E2 = true).
  { intros c Hc. pose proof (merged_index fresh (existing_portfolio ws) c Hc) as I.
    fold M in I. unfold in_index in I |- *. rewrite Erec in I.
    rewrite Er'. clear - I. induction (m :: ms) as [|r rs IH]; [exact I|].
    cbn [map existsb] in I |- *. apply orb_true_iff in I as [I|I].
    - unfold mk at 1. cbn [fst]. unfold out_row.
      rewrite value_in_out_row_coin, I. reflexivity.
    - rewrite (IH I). apply orb_true_r. }
  rewrite (merged_records_known fresh E2 K), Er', !map_map.
  f_equal. change (o1 :: os) with (map (out_row (columns M)) (m :: ms)).
  apply map_ext_in. intros r Hr.
  destruct (updall_spec fresh (mk (out_row (columns M) r))) as [U1 U2].
  unfold out_row at 1. rewrite U1. unfold mk at 1. cbn [fst].
  unfold out_row at 1. rewrite value_in_out_row_coin.
  unfold out_row at 2. f_equal.
  apply map_ext_in. intros name Hn. unfold shown at 1.
  rewrite (merged_keeps_label fresh E2 name
             (Ec name (portfolio_col_not_coin name Hn)
                 (or_intror (in_map Str portfolio_cols name Hn)))).
  unfold field. rewrite U2.
  assert (F : match dict_get (Str name) (snd (mk (out_row (columns M) r))) with
              | Some v => v
              | None => Blank
              end = shown (columns M) r name).
  { change (field (Str name) (snd (mk (out_row (columns M) r)))
            = shown (columns M) r name).
    unfold mk. cbn [snd].
    rewrite (field_of_sheet_row _ _ name (portfolio_col_not_coin name Hn)).
    unfold out_row. apply value_in_out_row, Hn. }
  destruct (String.eqb_spec name CURRENT_VALUE) as [->|_]; [|exact F].
  unfold mk at 1. cbn [fst]. unfold out_row at 1.
  rewrite value_in_out_row_coin.
  destruct (price_for fresh (fst r)) as [p|] eqn:P; [|exact F].
  unfold shown. unfold M at 1.
  rewrite (merged_has_current_value fresh (existing_portfolio ws) N).
  unfold field.
  rewrite (merged_current_value fresh (existing_portfolio ws) r p); auto.
  fold M. rewrite Erec. exact Hr.
Qed.

End WorkbookProofs.

(** * Properties of the workbook synchroniser *)

Module SyncProofs.
Import Workbook WorkbookSpec.

(** ** Sheet titles *)

Lemma length_append (s t : string) :
  String.length (String.append s t) = (String.length s + String.length t)%nat.
Proof. induction s as [|c s IH]; cbn; [reflexivity|]. rewrite IH. reflexivity. Qed.

Lemma append_inj_l (s1 s2 t : string) :
  String.append s1 t = String.append s2 t -> s1 = s2.
Proof.
  revert s2. induction s1 as [|c s1 IH]; intros [|d s2] H.
  - reflexivity.
  - apply (f_equal String.length) in H. cbn in H. rewrite length_append in H. lia.
  - apply (f_equal String.length) in H. cbn in H. rewrite length_append in H. lia.
  - cbn in H. injection H as -> H. f_equal. apply IH, H.
Qed.

Lemma last_char_append (s t : string) (c : ascii) :
  last_char t = Some c -> last_char (String.append s t) = Some c.
Proof.
  intros H. induction s as [|d s IH]; cbn; [exact H|]. rewrite IH. reflexivity.
Qed.

Lemma history_sheet_name_last (symbol : string) :
  last_char (history_sheet_name symbol) = Some ")"%char.
Proof. apply last_char_append. reflexivity. Qed.

Lemma history_sheet_name_inj (s1 s2 : string) :
  history_sheet_name s1 = history_sheet_name s2 -> s1 = s2.
Proof. apply append_inj_l. Qed.

(** A title that does not end in a closing parenthesis is no history
    sheet. *)
Lemma not_a_history_sheet (name symbol : string) :
  last_char name <> Some ")"%char ->
  String.eqb name (history_sheet_name symbol) = false.
Proof.
  intros H. apply String.eqb_neq. intros ->. apply H, history_sheet_name_last.
Qed.

(** ** Reading and writing sheets *)

Lemma has_sheet_get name wb :
  has_sheet name wb = match get_sheet name wb with
                      | Some _ => true
                      | None => false
                      end.
Proof.
  unfold has_sheet, sheetnames. induction wb as [|[n ws] wb IH]; [reflexivity|].
  cbn [map fst existsb get_sheet]. destruct (String.eqb name n); [reflexivity|].
  exact IH.
Qed.

Lemma sheetnames_update name f wb :
  sheetnames (update_sheet name f wb) = sheetnames wb.
Proof.
  unfold sheetnames, update_sheet. rewrite map_map. apply map_ext.
  intros [n ws]. cbn [fst]. destruct (String.eqb name n); reflexivity.
Qed.

Lemma get_sheet_update name m f wb :
  get_sheet name (update_sheet m f wb)
  = if String.eqb name m then option_map f (get_sheet name wb)
    else get_sheet name wb.
Proof.
  induction wb as [|[n ws] wb IH].
  - cbn. destruct (String.eqb name m); reflexivity.
  - unfold update_sheet in *. cbn [map fst snd].
    destruct (String.eqb_spec m n) as [<-|N]; cbn [get_sheet].
    + destruct (String.eqb_spec name m) as [->|N']; [reflexivity|exact IH].
    + destruct (String.eqb_spec name n) as [->|_]; [|exact IH].
      destruct (String.eqb_spec n m) as [->|_]; [congruence|reflexivity].
Qed.

Lemma get_sheet_app name wb wb' :
  get_sheet name (wb ++ wb')
  = match get_sheet name wb with
    | Some ws => Some ws
    | None => get_sheet name wb'
    end.
Proof.
  induction wb as [|[n ws] wb IH]; [reflexivity|].
  cbn [app get_sheet]. destruct (String.eqb name n); [reflexivity|exact IH].
Qed.

Lemma get_sheet_ensure name wb m :
  get_sheet name (ensure_sheet wb m)
  = match get_sheet name wb with
    | Some ws => Some ws
    | None => if String.eqb name m then Some (created_content m) else None
    end.
Proof.
  unfold ensure_sheet. rewrite has_sheet_get.
  destruct (get_sheet m wb) as [ws|] eqn:E.
  - destruct (get_sheet name wb) eqn:E'; [reflexivity|].
    destruct (String.eqb_spec name m) as [->|_]; [congruence|reflexivity].
  - unfold create_sheet. rewrite get_sheet_app. cbn [get_sheet].
    reflexivity.
Qed.

Lemma get_sheet_ensure_all name order wb :
  get_sheet name (fold_left ensure_sheet order wb)
  = match get_sheet name wb with
    | Some ws => Some ws
    | None => if existsb (String.eqb name) order
              then Some (created_content name) else None
    end.
Proof.
  revert wb. induction order as [|m order IH]; intros wb.
  - cbn. destruct (get_sheet name wb); reflexivity.
  - cbn [fold_left existsb]. rewrite IH, get_sheet_ensure.
    destruct (get_sheet name wb); [reflexivity|].
    destruct (String.eqb_spec name m) as [->|_]; reflexivity.
Qed.

Lemma get_sheet_replace name m df wb :
  get_sheet name (replace_if_usable m df wb)
  = if String.eqb name m && usable df
    then option_map (fun _ => match df with
                              | Some d => sheet_of_frame d
                              | None => []
                              end) (get_sheet name wb)
    else get_sheet name wb.
Proof.
  unfold replace_if_usable, usable. destruct df as [d|].
  - destruct (empty d); cbn [negb].
    + rewrite andb_false_r. reflexivity.
    + rewrite get_sheet_update, andb_true_r. reflexivity.
  - rewrite andb_false_r. reflexivity.
Qed.

Lemma get_sheet_write_history name item wb :
  get_sheet name (write_history wb item)
  = if String.eqb name (history_sheet_name (fst item)) && usable (snd item)
    then option_map (fun _ => match snd item with
                              | Some d => sheet_of_frame d
                              | None => []
                              end) (get_sheet name wb)
    else get_sheet name wb.
Proof.
  unfold write_history. rewrite has_sheet_get.
  destruct (get_sheet (history_sheet_name (fst item)) wb) as [ws|] eqn:E;
    cbn [andb].
  - destruct (usable (snd item)).
    + rewrite get_sheet_update, andb_true_r. reflexivity.
    + rewrite andb_false_r. reflexivity.
  - destruct (String.eqb_spec name (history_sheet_name (fst item))) as [->|_];
      [|reflexivity].
    rewrite E. destruct (usable (snd item)); reflexivity.
Qed.

(** A sheet that is no history sheet comes through the history loop as it
    is. *)
Lemma get_sheet_histories_other name items wb :
  last_char name <> Some ")"%char ->
  get_sheet name (fold_left write_history items wb) = get_sheet name wb.
Proof.
  intros H. revert wb. induction items as [|item items IH]; intros wb;
    [reflexivity|].
  cbn [fold_left]. rewrite IH, get_sheet_write_history.
  rewrite (not_a_history_sheet name (fst item) H). reflexivity.
Qed.

(** The history sheet of a symbol after the loop, for distinct keys. *)
Lemma get_sheet_histories symbol items wb :
  NoDup (map fst items) ->
  get_sheet (history_sheet_name symbol) (fold_left write_history items wb)
  = if usable (lookup symbol items)
    then option_map (fun _ => match lookup symbol items with
                              | Some d => sheet_of_frame d
                              | None => []
                              end)
                    (get_sheet (history_sheet_name symbol) wb)
    else get_sheet (history_sheet_name symbol) wb.
Proof.
  revert wb. induction items as [|[s df] items IH]; intros wb ND;
    [reflexivity|].
  cbn [map fst] in ND. apply NoDup_cons_iff in ND as [Hs ND].
  cbn [fold_left lookup]. rewrite (IH _ ND), get_sheet_write_history.
  cbn [fst snd].
  destruct (String.eqb_spec symbol s) as [->|N].
  - rewrite String.eqb_refl. cbn [andb].
    assert (L : lookup s items = None).
    { clear - Hs. induction items as [|[s' d'] items IH]; [reflexivity|].
      cbn [lookup]. cbn [map fst In] in Hs.
      destruct (String.eqb_spec s s') as [->|_]; [tauto|].
      apply IH. tauto. }
    rewrite L. cbn [usable]. reflexivity.
  - assert (X : String.eqb (history_sheet_name symbol) (history_sheet_name s)
                = false).
    { apply String.eqb_neq. intros E. apply N, history_sheet_name_inj, E. }
    rewrite X. reflexivity.
Qed.

(** ** Reordering the tabs *)

Lemma move_sheet_perm idx i wb : Permutation wb (move_sheet idx i wb).
Proof.
  unfold move_sheet. destruct (nth_error wb idx) as [s|] eqn:E; [|reflexivity].
  rewrite <- (firstn_skipn_middle _ _ E) at 1.
  set (rest := firstn idx wb ++ skipn (S idx) wb).
  rewrite <- Permutation_middle. fold rest.
  rewrite <- (firstn_skipn i rest) at 1. apply Permutation_middle.
Qed.

Lemma reorder_perm order i wb : Permutation wb (reorder order i wb).
Proof.
  revert i wb. induction order as [|n order IH]; intros i wb; [reflexivity|].
  cbn [reorder]. rewrite <- IH. destruct (_ && _); [|reflexivity].
  apply move_sheet_perm.
Qed.

Lemma get_sheet_In name ws wb : get_sheet name wb = Some ws -> In (name, ws) wb.
Proof.
  induction wb as [|[n w] wb IH]; [discriminate|]. cbn [get_sheet].
  destruct (String.eqb_spec name n) as [->|_].
  - intros [= ->]. left. reflexivity.
  - intros H. right. apply IH, H.
Qed.

Lemma In_get_sheet name ws wb :
  NoDup (sheetnames wb) -> In (name, ws) wb -> get_sheet name wb = Some ws.
Proof.
  induction wb as [|[n w] wb IH]; intros ND H; [destruct H|].
  cbn [sheetnames map fst] in ND. apply NoDup_cons_iff in ND as [Hn ND].
  cbn [get_sheet]. destruct H as [[= -> ->]|H].
  - rewrite String.eqb_refl. reflexivity.
  - destruct (String.eqb_spec name n) as [->|_]; [|apply IH; assumption].
    exfalso. apply Hn. apply (in_map fst) in H. exact H.
Qed.

(** Sheets with distinct titles are found by title wherever they stand. *)
Lemma get_sheet_perm name wb wb' :
  NoDup (sheetnames wb) -> Permutation wb wb' ->
  get_sheet name wb' = get_sheet name wb.
Proof.
  intros ND P.
  assert (ND' : NoDup (sheetnames wb')).
  { eapply Permutation_NoDup; [|exact ND]. apply Permutation_map, P. }
  destruct (get_sheet name wb) as [ws|] eqn:E.
  - apply In_get_sheet; [exact ND'|].
    eapply Permutation_in; [exact P|]. apply get_sheet_In, E.
  - destruct (get_sheet name wb') as [ws'|] eqn:E'; [|reflexivity].
    apply get_sheet_In in E'. apply Permutation_sym in P.
    apply (Permutation_in _ P) in E'. apply (In_get_sheet _ _ _ ND) in E'.
    congruence.
Qed.

Lemma NoDup_ensure wb m :
  NoDup (sheetnames wb) -> NoDup (sheetnames (ensure_sheet wb m)).
Proof.
  intros ND. unfold ensure_sheet. destruct (has_sheet m wb) eqn:E; [exact ND|].
  unfold create_sheet, sheetnames. rewrite map_app. cbn [map fst].
  apply NoDup_app; [exact ND | repeat constructor; intros [] |].
  intros a Ha [<-|[]].
  unfold has_sheet in E.
  assert (T : existsb (String.eqb m) (sheetnames wb) = true).
  { apply existsb_exists. exists m. split; [exact Ha|apply String.eqb_refl]. }
  congruence.
Qed.

Lemma NoDup_ensure_all order wb :
  NoDup (sheetnames wb) -> NoDup (sheetnames (fold_left ensure_sheet order wb)).
Proof.
  revert wb. induction order as [|m order IH]; intros wb ND; [exact ND|].
  cbn [fold_left]. apply IH, NoDup_ensure, ND.
Qed.

Lemma sheetnames_replace m df wb :
  sheetnames (replace_if_usable m df wb) = sheetnames wb.
Proof.
  unfold replace_if_usable. destruct df as [d|]; [|reflexivity].
  destruct (negb (empty d)); [apply sheetnames_update|reflexivity].
Qed.

Lemma sheetnames_histories items wb :
  sheetnames (fold_left write_history items wb) = sheetnames wb.
Proof.
  revert wb. induction items as [|item items IH]; intros wb; [reflexivity|].
  cbn [fold_left]. rewrite IH. unfold write_history.
  destruct (_ && _); [apply sheetnames_update|reflexivity].
Qed.

(** ** The run as a whole *)

Lemma update_sheet_id name wb : update_sheet name (fun ws => ws) wb = wb.
Proof.
  unfold update_sheet. rewrite <- (map_id wb) at 2. apply map_ext.
  intros [n ws]. cbn [fst snd]. destruct (String.eqb name n); reflexivity.
Qed.

Lemma run_is_reorder now all_data existing :
  create_or_update_excel now all_data existing
  = reorder SHEET_ORDER 0 (before_reorder now all_data existing).
Proof.
  unfold create_or_update_excel, before_reorder, loaded, merge_or_keep.
  cbn zeta. f_equal.
  destruct (current_portfolio all_data) as [[|p ps]|];
    [symmetry; apply update_sheet_id | reflexivity
    | symmetry; apply update_sheet_id].
Qed.

Lemma NoDup_before_reorder now all_data existing :
  distinct_titles existing ->
  NoDup (sheetnames (before_reorder now all_data existing)).
Proof.
  intros D. unfold before_reorder. cbn zeta.
  rewrite sheetnames_update, sheetnames_histories, !sheetnames_replace,
    sheetnames_update.
  apply NoDup_ensure_all. destruct existing; [exact D|constructor].
Qed.

(** Titles stay distinct from one run to the next. *)
Lemma distinct_titles_after_run now all_data existing :
  distinct_titles existing ->
  distinct_titles (Some (create_or_update_excel now all_data existing)).
Proof.
  intros D. cbn [distinct_titles]. rewrite run_is_reorder.
  eapply Permutation_NoDup;
    [apply Permutation_map, reorder_perm|].
  apply NoDup_before_reorder, D.
Qed.

Lemma get_sheet_after_run name now all_data existing :
  distinct_titles existing ->
  get_sheet name (create_or_update_excel now all_data existing)
  = get_sheet name (before_reorder now all_data existing).
Proof.
  intros D. rewrite run_is_reorder. apply get_sheet_perm.
  - apply NoDup_before_reorder, D.
  - apply reorder_perm.
Qed.



Lemma history_is_not (name symbol : string) :
  last_char name <> Some ")"%char ->
  String.eqb (history_sheet_name symbol) name = false.
Proof. intros H. rewrite String.eqb_sym. apply not_a_history_sheet, H. Qed.

(** The dashboard is written anew by every run. *)
Lemma dashboard_after_run now all_data existing :
  distinct_titles existing ->
  get_sheet EXECUTIVE_DASHBOARD_SHEET_NAME
    (create_or_update_excel now all_data existing)
  = Some (dashboard now (global_metrics all_data) (fear_greed_index all_data)).
Proof.
  intros D. rewrite (get_sheet_after_run _ _ _ _ D). unfold before_reorder.
  cbn zeta. rewrite get_sheet_update. cbn [String.eqb Ascii.eqb Bool.eqb].
  rewrite get_sheet_histories_other by discriminate.
  rewrite !get_sheet_replace. cbn [String.eqb Ascii.eqb Bool.eqb andb].
  rewrite get_sheet_update, String.eqb_refl, get_sheet_ensure_all.
  destruct (get_sheet _ (loaded existing)); reflexivity.
Qed.

(** The portfolio sheet after a run: the merge applied to what was
    persisted, or to the header row of a sheet that the run creates. *)
Lemma portfolio_after_run now all_data existing :
  distinct_titles existing ->
  get_sheet CURRENT_PORTFOLIO_SHEET_NAME
    (create_or_update_excel now all_data existing)
  = Some (merge_or_keep (current_portfolio all_data)
            (stale_or_created existing CURRENT_PORTFOLIO_SHEET_NAME)).
Proof.
  intros D. rewrite (get_sheet_after_run _ _ _ _ D). unfold before_reorder.
  cbn zeta. rewrite get_sheet_update, String.eqb_refl.
  rewrite get_sheet_histories_other by discriminate.
  rewrite !get_sheet_replace. cbn [String.eqb Ascii.eqb Bool.eqb andb].
  rewrite get_sheet_update. cbn [String.eqb Ascii.eqb Bool.eqb].
  rewrite get_sheet_ensure_all. unfold stale_or_created.
  destruct (get_sheet _ (loaded existing)); reflexivity.
Qed.

Lemma merge_or_keep_idempotent fresh ws :
  merge_or_keep fresh (merge_or_keep fresh ws) = merge_or_keep fresh ws.
Proof.
  destruct fresh as [[|p ps]|]; [reflexivity| |reflexivity].
  cbn [merge_or_keep]. apply WorkbookProofs.merge_portfolio_idempotent.
  discriminate.
Qed.

(** C2.  Two runs in succession with the same fresh price table leave the
    Current Portfolio sheet as one run leaves it, whatever the persisted
    workbook and the other fresh tables of the two runs are. *)
Theorem portfolio_merge_is_idempotent
    (now1 now2 : string) (data1 data2 : fetched) (existing : option workbook) :
  distinct_titles existing ->
  current_portfolio data2 = current_portfolio data1 ->
  let once := create_or_update_excel now1 data1 existing in
  let twice := create_or_update_excel now2 data2 (Some once) in
  get_sheet CURRENT_PORTFOLIO_SHEET_NAME twice
  = get_sheet CURRENT_PORTFOLIO_SHEET_NAME once.
Proof.
  intros D E. cbn zeta.
  rewrite (portfolio_after_run now2 data2 _
             (distinct_titles_after_run now1 data1 existing D)).
  unfold stale_or_created. cbn [loaded].
  rewrite (portfolio_after_run now1 data1 existing D), E.
  rewrite merge_or_keep_idempotent. reflexivity.
Qed.

Lemma portfolio_merge_is_idempotent_witness :
  get_sheet CURRENT_PORTFOLIO_SHEET_NAME
    (create_or_update_excel "2024-01-02 09:00:00" prices_only
       (Some (create_or_update_excel "2024-01-01 09:00:00" prices_only None)))
  = get_sheet CURRENT_PORTFOLIO_SHEET_NAME
      (create_or_update_excel "2024-01-01 09:00:00" prices_only None).
Proof.
  apply (portfolio_merge_is_idempotent "2024-01-01 09:00:00"
           "2024-01-02 09:00:00" prices_only prices_only None).
  - exact I.
  - reflexivity.
Defined.

(** ** Generated sheets *)

Lemma configured_history_in_order symbol :
  In symbol HISTORY_SYMBOLS ->
  existsb (String.eqb (history_sheet_name symbol)) SHEET_ORDER = true.
Proof.
  intros H. cbn in H.
  repeat (destruct H as [<-|H]; [reflexivity|]). destruct H.
Qed.

(** C3, as the code has it.  Every run makes sure that the sheets of the
    fixed order exist.  For the market overview, the global metrics, the
    sentiment index and the history of a configured symbol: with a fresh
    table that is not empty the sheet holds the header and the rows of that
    table, whether it existed or not; without one the sheet holds what was
    persisted, and a sheet that was absent is there and empty.  The
    dashboard sheet is written anew by every run. *)
Theorem generated_sheet_after_run
    (now : string) (all_data : fetched) (existing : option workbook)
    (c : category) :
  distinct_titles existing ->
  distinct_symbols all_data ->
  configured c ->
  let out := create_or_update_excel now all_data existing in
  get_sheet (sheet_name_of c) out
  = Some (match fresh_of all_data c with
          | Some df => if empty df then stale existing (sheet_name_of c)
                       else sheet_of_frame df
          | None => stale existing (sheet_name_of c)
          end)
  /\ get_sheet EXECUTIVE_DASHBOARD_SHEET_NAME out
     = Some (dashboard now (global_metrics all_data)
                       (fear_greed_index all_data)).
Proof.
  intros D S C. cbn zeta. split; [|apply dashboard_after_run, D].
  rewrite (get_sheet_after_run _ _ _ _ D). unfold before_reorder, stale.
  cbn zeta. destruct c as [| | |symbol]; cbn [sheet_name_of fresh_of].
  - rewrite get_sheet_update. cbn [String.eqb Ascii.eqb Bool.eqb].
    rewrite get_sheet_histories_other by discriminate.
    rewrite !get_sheet_replace. cbn [String.eqb Ascii.eqb Bool.eqb andb].
    rewrite String.eqb_refl. cbn [andb].
    rewrite get_sheet_update. cbn [String.eqb Ascii.eqb Bool.eqb].
    rewrite get_sheet_ensure_all.
    destruct (market_overview all_data) as [d|]; cbn [usable];
      [destruct (empty d); cbn [negb]|];
      destruct (get_sheet _ (loaded existing)); reflexivity.
  - rewrite get_sheet_update. cbn [String.eqb Ascii.eqb Bool.eqb].
    rewrite get_sheet_histories_other by discriminate.
    rewrite !get_sheet_replace. cbn [String.eqb Ascii.eqb Bool.eqb andb].
    rewrite String.eqb_refl. cbn [andb].
    rewrite get_sheet_update. cbn [String.eqb Ascii.eqb Bool.eqb].
    rewrite get_sheet_ensure_all.
    destruct (option_map global_metrics_frame (global_metrics all_data))
      as [d|]; cbn [usable];
      [destruct (empty d); cbn [negb]|];
      destruct (get_sheet _ (loaded existing)); reflexivity.
  - rewrite get_sheet_update. cbn [String.eqb Ascii.eqb Bool.eqb].
    rewrite get_sheet_histories_other by discriminate.
    rewrite !get_sheet_replace. cbn [String.eqb Ascii.eqb Bool.eqb andb].
    rewrite String.eqb_refl. cbn [andb].
    rewrite get_sheet_update. cbn [String.eqb Ascii.eqb Bool.eqb].
    rewrite get_sheet_ensure_all.
    destruct (option_map fear_greed_frame (fear_greed_index all_data))
      as [d|]; cbn [usable];
      [destruct (empty d); cbn [negb]|];
      destruct (get_sheet _ (loaded existing)); reflexivity.
  - cbn [configured] in C.
    assert (L : last_char (history_sheet_name symbol) = Some ")"%char)
      by apply history_sheet_name_last.
    rewrite get_sheet_update, history_is_not by discriminate.
    assert (X : get_sheet (history_sheet_name symbol)
                  (fold_left ensure_sheet SHEET_ORDER (loaded existing))
                = Some (match get_sheet (history_sheet_name symbol)
                                (loaded existing) with
                        | Some ws => ws
                        | None => []
                        end)).
    { rewrite get_sheet_ensure_all, (configured_history_in_order symbol C).
      destruct (get_sheet _ (loaded existing)); [reflexivity|].
      unfold created_content.
      rewrite !history_is_not by discriminate. reflexivity. }
    unfold distinct_symbols in S.
    destruct (historical_data all_data) as [items|].
    + rewrite (get_sheet_histories symbol items _ S).
      rewrite !get_sheet_replace, !history_is_not by discriminate.
      cbn [andb]. rewrite get_sheet_update, history_is_not by discriminate.
      rewrite X.
      destruct (lookup symbol items) as [d|]; cbn [usable option_map];
        [destruct (empty d)|]; reflexivity.
    + cbn [fold_left].
      rewrite !get_sheet_replace, !history_is_not by discriminate.
      cbn [andb]. rewrite get_sheet_update, history_is_not by discriminate.
      exact X.
Qed.

Lemma generated_sheet_after_run_witness :
  get_sheet MARKET_OVERVIEW_SHEET_NAME
    (create_or_update_excel "2024-01-01 09:00:00" nothing_fetched stale_workbook)
  = Some [[Str "Rank"; Str "Name"]; [Num 1; Str "Bitcoin"]].
Proof.
  apply (generated_sheet_after_run "2024-01-01 09:00:00" nothing_fetched
           stale_workbook MarketOverview).
  - repeat constructor. intros [].
  - constructor.
  - exact I.
Defined.

(** C3, as worded, fails on the code: after a run that fetched nothing on a
    machine without a workbook, the market overview sheet exists. *)
Lemma absent_sheet_is_created :
  ~ category_untouched_or_fresh "2024-01-01 09:00:00" nothing_fetched None
      MarketOverview.
Proof.
  unfold category_untouched_or_fresh. vm_compute. discriminate.
Qed.

End SyncProofs.

(** * Further properties of the fetcher *)

Module FetcherExtra.
Import Fetcher FetcherSpec.

(** What the local [response] can hold when the loop body starts: nothing
    before the first attempt, a 429 response afterwards. *)
Lemma stale_response_cases (attempt : nat) (response : option Response) :
  (attempt = 0%nat /\ response = None)
  \/ (exists r, response = Some r /\ status_code r = 429%Z) ->
  forall server, treated_as_rate_limit server attempt = true ->
  server attempt = NoAnswer ->
  exists r, response = Some r /\ status_code r = 429%Z.
Proof.
  intros [[-> ->]|H] server T E; [|exact H].
  unfold treated_as_rate_limit in T. rewrite E in T. discriminate T.
Qed.

(** ** The delays *)

Lemma retry_loop_sleeps server uniform fuel :
  forall attempt delay response slept,
    List.length slept = attempt ->
    forall k s,
      nth_error (sleeps (snd (retry_loop server uniform fuel attempt delay
                                response slept))) k = Some s ->
      ((k < attempt)%nat /\ nth_error slept k = Some s)
      \/ ((attempt <= k)%nat
          /\ s == delay * BACKOFF_FACTOR ^ Z.of_nat (k - attempt) + uniform k).
Proof.
  induction fuel as [|fuel IH]; intros attempt delay response slept L k s H.
  - cbn in H. left. split; [|exact H].
    rewrite <- L. apply nth_error_Some. congruence.
  - assert (Keep : nth_error slept k = Some s ->
              (k < attempt)%nat /\ nth_error slept k = Some s).
    { intros Hk. split; [|exact Hk].
      rewrite <- L. apply nth_error_Some. congruence. }
    assert (Go : forall resp,
              nth_error (sleeps (snd (retry_loop server uniform fuel (S attempt)
                           (delay * BACKOFF_FACTOR) resp
                           (slept ++ [delay + uniform (List.length slept)]))))
                        k = Some s ->
              ((k < attempt)%nat /\ nth_error slept k = Some s)
              \/ ((attempt <= k)%nat
                  /\ s == delay * BACKOFF_FACTOR ^ Z.of_nat (k - attempt)
                          + uniform k)).
    { intros resp Hk.
      apply IH in Hk; [|rewrite length_app; cbn; lia].
      destruct Hk as [[Hlt Hn]|[Hle Hs]].
      - destruct (Nat.eq_dec k attempt) as [->|Nk].
        + right. split; [lia|].
          rewrite nth_error_app2, L, Nat.sub_diag in Hn by lia.
          cbn in Hn. injection Hn as <-. rewrite Nat.sub_diag.
          cbn. ring.
        + left. split; [lia|].
          rewrite nth_error_app1 in Hn by lia. exact Hn.
      - right. split; [lia|]. rewrite Hs.
        replace (k - attempt)%nat with (S (k - S attempt)) by lia.
        rewrite Nat2Z.inj_succ, <- Z.add_1_r.
        rewrite Qpower_plus by discriminate. cbn. ring. }
    cbn [retry_loop] in H.
    destruct (server attempt) as [r|].
    + destruct (raise_for_status r).
      * destruct (status_code r =? 429)%Z; [apply Go in H; exact H|].
        left. apply Keep, H.
      * left. apply Keep, H.
    + destruct response as [stale|].
      * destruct (status_code stale =? 429)%Z; [apply Go in H; exact H|].
        left. apply Keep, H.
      * left. apply Keep, H.
Qed.

(** X1.  Whatever the server does, the [k]-th sleep of a call lasts the
    initial delay times the back-off factor to the power [k], plus the
    [k]-th jitter. *)
Theorem sleeps_follow_exponential_backoff
    (server : nat -> reply) (uniform : nat -> Q) (max_retries : nat)
    (initial_delay : Q) (k : nat) (s : Q) :
  nth_error (sleeps (snd (make_api_call_with_retry server uniform max_retries
                            initial_delay))) k = Some s ->
  s == initial_delay * BACKOFF_FACTOR ^ Z.of_nat k + uniform k.
Proof.
  intros H. unfold make_api_call_with_retry in H.
  apply retry_loop_sleeps in H; [|reflexivity].
  destruct H as [[Hlt _]|[_ Hs]]; [lia|].
  rewrite Nat.sub_0_r in Hs. exact Hs.
Qed.

Lemma sleeps_follow_exponential_backoff_witness :
  5 * BACKOFF_FACTOR + (1 # 2)
  == INITIAL_API_CALL_DELAY_SECONDS * BACKOFF_FACTOR ^ Z.of_nat 1 + (1 # 2).
Proof.
  apply (sleeps_follow_exponential_backoff twice_limited (fun _ => 1 # 2)
           MAX_RETRIES INITIAL_API_CALL_DELAY_SECONDS 1).
  reflexivity.
Defined.

(** ** Attempts that are taken for rate limits *)

Lemma limited_step server uniform fuel attempt delay response slept :
  (attempt = 0%nat /\ response = None)
  \/ (exists r, response = Some r /\ status_code r = 429%Z) ->
  treated_as_rate_limit server attempt = true ->
  exists stale,
    status_code stale = 429%Z
    /\ retry_loop server uniform (S fuel) attempt delay response slept
       = retry_loop server uniform fuel (S attempt) (delay * BACKOFF_FACTOR)
           (Some stale) (slept ++ [delay + uniform (List.length slept)]).
Proof.
  intros Inv T. cbn [retry_loop].
  destruct (server attempt) as [r|] eqn:E.
  - unfold treated_as_rate_limit in T. rewrite E in T.
    apply Z.eqb_eq in T. exists r. split; [exact T|].
    rewrite (FetcherProofs.rate_limit_raises r T), T. reflexivity.
  - destruct (stale_response_cases attempt response Inv server T E)
      as (st & -> & C).
    exists st. split; [exact C|]. rewrite C. reflexivity.
Qed.

(** A run of [n] attempts that are all taken for rate limits leaves the
    loop where it would be [n] iterations later, [n] sleeps longer. *)
Lemma limited_prefix server uniform n :
  forall fuel attempt delay response slept,
    (attempt = 0%nat /\ response = None)
    \/ (exists r, response = Some r /\ status_code r = 429%Z) ->
    (forall j, (attempt <= j < attempt + n)%nat ->
               treated_as_rate_limit server j = true) ->
    exists delay' response' slept',
      retry_loop server uniform (n + fuel)%nat attempt delay response slept
      = retry_loop server uniform fuel (attempt + n)%nat delay' response' slept'
      /\ (((attempt + n)%nat = 0%nat /\ response' = None)
          \/ (exists r, response' = Some r /\ status_code r = 429%Z))
      /\ List.length slept' = (List.length slept + n)%nat.
Proof.
  induction n as [|n IH]; intros fuel attempt delay response slept Inv T.
  - exists delay, response, slept. rewrite !Nat.add_0_r.
    split; [reflexivity|]. split; [exact Inv|reflexivity].
  - destruct (limited_step server uniform (n + fuel)%nat attempt delay response
                slept Inv (T attempt ltac:(lia))) as (st & C & E).
    destruct (IH fuel (S attempt) (delay * BACKOFF_FACTOR) (Some st)
                (slept ++ [delay + uniform (List.length slept)]))
      as (d' & r' & s' & E' & Inv' & L').
    + right. exists st. split; [reflexivity|exact C].
    + intros j Hj. apply T. lia.
    + exists d', r', s'. cbn [Nat.add]. rewrite E, E'.
      replace (attempt + S n)%nat with (S attempt + n)%nat by lia.
      split; [reflexivity|]. split; [exact Inv'|].
      rewrite L', length_app. cbn [List.length]. lia.
Qed.

(** X2.  When every attempt is taken for a rate limit, the call gives up
    with [None] after exactly [max_retries] requests, and it has slept
    after each of them, the last one included. *)
Theorem rate_limited_throughout_gives_up
    (server : nat -> reply) (uniform : nat -> Q) (max_retries : nat)
    (initial_delay : Q) :
  (forall k, (k < max_retries)%nat -> treated_as_rate_limit server k = true) ->
  let run := make_api_call_with_retry server uniform max_retries initial_delay in
  fst run = Return None
  /\ requests (snd run) = max_retries
  /\ List.length (sleeps (snd run)) = max_retries.
Proof.
  intros T. cbn zeta. unfold make_api_call_with_retry.
  destruct (limited_prefix server uniform max_retries 0 0 initial_delay None [])
    as (d' & r' & s' & E & _ & L).
  - left. split; reflexivity.
  - intros j Hj. apply T. lia.
  - rewrite Nat.add_0_r in E. rewrite E. cbn. rewrite L. auto.
Qed.

Lemma rate_limited_throughout_gives_up_witness :
  let run :=
    make_api_call_with_retry
      (fun k => match k with
                | 0%nat => Answered (mkResponse 429 "")
                | _ => NoAnswer
                end)
      (fun _ => 0) MAX_RETRIES INITIAL_API_CALL_DELAY_SECONDS in
  fst run = Return None
  /\ requests (snd run) = MAX_RETRIES
  /\ List.length (sleeps (snd run)) = MAX_RETRIES.
Proof.
  apply rate_limited_throughout_gives_up.
  intros [|k] _; reflexivity.
Defined.

(** X3.  The first attempt that is not taken for a rate limit decides the
    call: if [k] attempts were taken for rate limits and the server then
    answers with a status other than 429, the call ends there, after
    [k + 1] requests and [k] sleeps, with the response if its status is no
    error and with [None] if it is. *)
Theorem first_other_answer_decides
    (server : nat -> reply) (uniform : nat -> Q) (max_retries : nat)
    (initial_delay : Q) (k : nat) (r : Response) :
  (k < max_retries)%nat ->
  (forall j, (j < k)%nat -> treated_as_rate_limit server j = true) ->
  server k = Answered r ->
  status_code r <> 429%Z ->
  let run := make_api_call_with_retry server uniform max_retries initial_delay in
  fst run = Return (if raise_for_status r then None else Some r)
  /\ requests (snd run) = S k
  /\ List.length (sleeps (snd run)) = k.
Proof.
  intros K T E C. cbn zeta. unfold make_api_call_with_retry.
  destruct (limited_prefix server uniform k (max_retries - k)%nat 0 initial_delay
              None [])
    as (d' & r' & s' & E' & _ & L).
  - left. split; reflexivity.
  - intros j Hj. apply T. lia.
  - replace (k + (max_retries - k))%nat with max_retries in E' by lia.
    rewrite E'. cbn [Nat.add].
    destruct (max_retries - k)%nat as [|fuel] eqn:F; [lia|].
    cbn [retry_loop]. rewrite E. apply Z.eqb_neq in C. rewrite C.
    destruct (raise_for_status r); cbn; rewrite L; auto.
Qed.

Lemma first_other_answer_decides_witness :
  let run :=
    make_api_call_with_retry
      (fun k => match k with
                | 0%nat => Answered (mkResponse 429 "")
                | _ => Answered (mkResponse 503 "")
                end)
      (fun _ => 0) MAX_RETRIES INITIAL_API_CALL_DELAY_SECONDS in
  fst run = Return None
  /\ requests (snd run) = 2%nat
  /\ List.length (sleeps (snd run)) = 1%nat.
Proof.
  apply (first_other_answer_decides _ _ MAX_RETRIES _ 1 (mkResponse 503 "")).
  - unfold MAX_RETRIES. lia.
  - intros [|j] Hj; [reflexivity|lia].
  - reflexivity.
  - discriminate.
Defined.

(** ** Every call *)

Lemma retry_loop_bounds server uniform fuel :
  forall attempt delay response slept,
    List.length slept = attempt ->
    let e := snd (retry_loop server uniform fuel attempt delay response slept) in
    (requests e <= attempt + fuel)%nat
    /\ (List.length (sleeps e) <= requests e)%nat
    /\ (attempt <= requests e)%nat.
Proof.
  induction fuel as [|fuel IH]; intros attempt delay response slept L; cbn zeta.
  - cbn. lia.
  - assert (Go : forall resp,
              let e := snd (retry_loop server uniform fuel (S attempt)
                              (delay * BACKOFF_FACTOR) resp
                              (slept ++ [delay + uniform (List.length slept)])) in
              (requests e <= attempt + S fuel)%nat
              /\ (List.length (sleeps e) <= requests e)%nat
              /\ (attempt <= requests e)%nat).
    { intros resp.
      pose proof (IH (S attempt) (delay * BACKOFF_FACTOR) resp
                    (slept ++ [delay + uniform (List.length slept)])) as H.
      cbn zeta in H |- *. rewrite length_app in H. cbn [List.length] in H.
      specialize (H ltac:(lia)). lia. }
    cbn [retry_loop].
    destruct (server attempt) as [r|].
    + destruct (raise_for_status r).
      * destruct (status_code r =? 429)%Z; [apply Go|cbn; lia].
      * cbn. lia.
    + destruct response as [stale|].
      * destruct (status_code stale =? 429)%Z; [apply Go|cbn; lia].
      * cbn. lia.
Qed.

(** X4.  Whatever the server does, a call issues at least one request when
    [max_retries] is positive and never more than [max_retries], and it
    sleeps at most once per request. *)
Theorem requests_are_bounded
    (server : nat -> reply) (uniform : nat -> Q) (max_retries : nat)
    (initial_delay : Q) :
  let e := snd (make_api_call_with_retry server uniform max_retries
                  initial_delay) in
  (requests e <= max_retries)%nat
  /\ (List.length (sleeps e) <= requests e)%nat
  /\ (max_retries = 0%nat \/ 1 <= requests e)%nat.
Proof.
  cbn zeta. unfold make_api_call_with_retry.
  pose proof (retry_loop_bounds server uniform max_retries 0 initial_delay
                None [] eq_refl) as (H1 & H2 & _).
  cbn zeta in H1, H2. split; [exact H1|]. split; [exact H2|].
  destruct max_retries as [|n]; [left; reflexivity|right].
  cbn [retry_loop]. destruct (server 0%nat) as [r|].
  - destruct (raise_for_status r); [|cbn; lia].
    destruct (status_code r =? 429)%Z; [|cbn; lia].
    pose proof (retry_loop_bounds server uniform n 1 (initial_delay * BACKOFF_FACTOR)
                  (Some r) ([] ++ [initial_delay + uniform (List.length (@nil Q))])
                  eq_refl) as (_ & _ & H3).
    exact H3.
  - cbn. lia.
Qed.

Lemma retry_loop_success server uniform fuel :
  forall attempt delay response slept r e,
    List.length slept = attempt ->
    retry_loop server uniform fuel attempt delay response slept
    = (Return (Some r), e) ->
    raise_for_status r = false
    /\ server (requests e - 1)%nat = Answered r
    /\ (attempt < requests e)%nat
    /\ S (List.length (sleeps e)) = requests e.
Proof.
  induction fuel as [|fuel IH]; intros attempt delay response slept r e L H.
  - discriminate H.
  - assert (Go : forall resp,
              retry_loop server uniform fuel (S attempt)
                (delay * BACKOFF_FACTOR) resp
                (slept ++ [delay + uniform (List.length slept)])
              = (Return (Some r), e) ->
              raise_for_status r = false
              /\ server (requests e - 1)%nat = Answered r
              /\ (attempt < requests e)%nat
              /\ S (List.length (sleeps e)) = requests e).
    { intros resp Hr. apply IH in Hr.
      - destruct Hr as (H1 & H2 & H3 & H4). repeat split; auto. lia.
      - rewrite length_app. cbn [List.length]. lia. }
    cbn [retry_loop] in H.
    destruct (server attempt) as [r0|] eqn:E.
    + destruct (raise_for_status r0) eqn:R.
      * destruct (status_code r0 =? 429)%Z; [apply (Go _ H)|discriminate H].
      * injection H as <- <-. cbn [requests sleeps].
        rewrite Nat.sub_succ, Nat.sub_0_r. repeat split; auto.
    + destruct response as [stale|]; [|discriminate H].
      destruct (status_code stale =? 429)%Z; [apply (Go _ H)|discriminate H].
Qed.

(** X5.  A response that the call returns is never an error response: it
    is the server's answer to the last request of the call, its status is
    outside 400-599, and the call has slept once before each request but
    the first. *)
Theorem returned_response_is_a_success
    (server : nat -> reply) (uniform : nat -> Q) (max_retries : nat)
    (initial_delay : Q) (r : Response) :
  let run := make_api_call_with_retry server uniform max_retries initial_delay in
  fst run = Return (Some r) ->
  raise_for_status r = false
  /\ server (requests (snd run) - 1)%nat = Answered r
  /\ S (List.length (sleeps (snd run))) = requests (snd run).
Proof.
  cbn zeta. intros H.
  destruct (make_api_call_with_retry server uniform max_retries initial_delay)
    as [o e] eqn:E.
  cbn [fst snd] in *. subst o. unfold make_api_call_with_retry in E.
  apply retry_loop_success in E; [|reflexivity]. tauto.
Qed.

Lemma returned_response_is_a_success_witness :
  raise_for_status (mkResponse 200 "{}") = false
  /\ twice_limited
       (requests (snd (make_api_call_with_retry twice_limited (fun _ => 0%Q)
                         MAX_RETRIES INITIAL_API_CALL_DELAY_SECONDS)) - 1)%nat
     = Answered (mkResponse 200 "{}")
  /\ S (List.length
          (sleeps (snd (make_api_call_with_retry twice_limited (fun _ => 0%Q)
                          MAX_RETRIES INITIAL_API_CALL_DELAY_SECONDS))))
     = requests (snd (make_api_call_with_retry twice_limited (fun _ => 0%Q)
                        MAX_RETRIES INITIAL_API_CALL_DELAY_SECONDS)).
Proof.
  apply (returned_response_is_a_success twice_limited (fun _ => 0%Q) MAX_RETRIES
           INITIAL_API_CALL_DELAY_SECONDS (mkResponse 200 "{}")).
  reflexivity.
Defined.

End FetcherExtra.

(** * Further properties of the synchroniser *)

Module SyncExtra.
Import Workbook WorkbookSpec SyncSpec.

(** ** The tab order *)

Lemma index_of_app (n : string) (l1 l2 : list string) :
  ~ In n l1 -> index_of n (l1 ++ n :: l2) = List.length l1.
Proof.
  induction l1 as [|m l1 IH]; intros H; cbn [app index_of List.length].
  - rewrite String.eqb_refl. reflexivity.
  - destruct (String.eqb_spec n m) as [->|_].
    + exfalso. apply H. left. reflexivity.
    + f_equal. apply IH. intros X. apply H. right. exact X.
Qed.

Lemma firstn_length_app {A} (l1 l2 : list A) :
  firstn (List.length l1) (l1 ++ l2) = l1.
Proof. induction l1 as [|a l1 IH]; cbn; [destruct l2|rewrite IH]; reflexivity. Qed.

Lemma skipn_length_app {A} (l1 l2 : list A) :
  skipn (List.length l1) (l1 ++ l2) = l2.
Proof. induction l1 as [|a l1 IH]; cbn; [reflexivity|exact IH]. Qed.

(** The sheet behind [mid] is taken out and put in front of it. *)
Lemma move_sheet_middle (pre mid post : workbook) (s : string * worksheet) :
  move_sheet (List.length pre + List.length mid) (List.length pre)
             (pre ++ mid ++ s :: post)
  = pre ++ s :: mid ++ post.
Proof.
  unfold move_sheet. rewrite <- length_app, app_assoc.
  rewrite nth_error_app2, Nat.sub_diag by lia. cbn [nth_error].
  rewrite firstn_length_app.
  replace (S (List.length (pre ++ mid)))
    with (List.length ((pre ++ mid) ++ [s]))
    by (rewrite (length_app (pre ++ mid)); cbn; lia).
  replace ((pre ++ mid) ++ s :: post) with (((pre ++ mid) ++ [s]) ++ post)
    by (rewrite <- (app_assoc (pre ++ mid)); reflexivity).
  rewrite skipn_length_app, <- app_assoc.
  rewrite firstn_length_app, skipn_length_app. reflexivity.
Qed.

Lemma filter_unlisted (n : string) (order names : list string) :
  ~ In n names ->
  filter (fun m => negb (existsb (String.eqb m) (n :: order))) names
  = filter (fun m => negb (existsb (String.eqb m) order)) names.
Proof.
  intros H. apply filter_ext_in. intros m Hm. cbn [existsb].
  destruct (String.eqb_spec m n) as [->|_]; [tauto|reflexivity].
Qed.

(** The loop of lines 773-777 on a workbook whose first [length pre] tabs
    are in place: the sheets of [order] follow in that order, then the
    others as they stood. *)
Lemma reorder_sheetnames (order : list string) :
  forall pre rest : workbook,
    NoDup (sheetnames (pre ++ rest)) ->
    NoDup order ->
    (forall n, In n order -> In n (sheetnames rest)) ->
    sheetnames (reorder order (List.length pre) (pre ++ rest))
    = sheetnames pre ++ order
      ++ filter (fun n => negb (existsb (String.eqb n) order)) (sheetnames rest).
Proof.
  induction order as [|n order IH]; intros pre rest ND NO Hin.
  - cbn [reorder existsb negb app]. unfold sheetnames. rewrite map_app.
    f_equal. symmetry. clear. induction (map fst rest) as [|a l IHl];
      [reflexivity|]. cbn [filter]. f_equal. exact IHl.
  - apply NoDup_cons_iff in NO as [Hn NO].
    destruct (proj1 (in_map_iff _ _ _) (Hin n (or_introl eq_refl)))
      as [s [Hs Hsin]].
    destruct (in_split _ _ Hsin) as [mid [post ->]].
    assert (Names : sheetnames (pre ++ mid ++ s :: post)
                    = (sheetnames pre ++ sheetnames mid) ++ n :: sheetnames post).
    { unfold sheetnames. rewrite !map_app. cbn [map]. rewrite Hs.
      rewrite app_assoc. reflexivity. }
    assert (Out : ~ In n (sheetnames pre ++ sheetnames mid)
                  /\ ~ In n (sheetnames post)).
    { rewrite Names in ND. apply NoDup_remove_2 in ND.
      split; intros X; apply ND, in_or_app; [left|right]; exact X. }
    destruct Out as [Out1 Out2].
    assert (Idx : index_of n (sheetnames (pre ++ mid ++ s :: post))
                  = (List.length pre + List.length mid)%nat).
    { rewrite Names, index_of_app by exact Out1. unfold sheetnames.
      rewrite length_app, !length_map. reflexivity. }
    assert (Has : has_sheet n (pre ++ mid ++ s :: post) = true).
    { unfold has_sheet. rewrite Names. apply existsb_exists. exists n.
      split; [|apply String.eqb_refl]. apply in_or_app. right. left.
      reflexivity. }
    cbn [reorder]. rewrite Idx, Has. cbn [andb].
    assert (Step : (if negb (List.length pre + List.length mid
                             =? List.length pre)%nat
                    then move_sheet (List.length pre + List.length mid)
                           (List.length pre) (pre ++ mid ++ s :: post)
                    else pre ++ mid ++ s :: post)
                   = (pre ++ [s]) ++ (mid ++ post)).
    { rewrite <- app_assoc. cbn [app].
      destruct (Nat.eqb_spec (List.length pre + List.length mid)
                             (List.length pre)) as [E|_]; cbn [negb].
      - destruct mid; [reflexivity|cbn in E; lia].
      - apply move_sheet_middle. }
    rewrite Step.
    replace (S (List.length pre)) with (List.length (pre ++ [s]))
      by (rewrite length_app; cbn; lia).
    assert (ND' : NoDup (sheetnames ((pre ++ [s]) ++ mid ++ post))).
    { eapply Permutation_NoDup; [|exact ND]. apply Permutation_map.
      rewrite <- app_assoc. cbn [app]. apply Permutation_app_head.
      apply Permutation_sym, Permutation_middle. }
    rewrite (IH _ _ ND' NO).
    + unfold sheetnames. rewrite !map_app. cbn [map]. rewrite Hs.
      rewrite <- !app_assoc. cbn [app]. f_equal. f_equal. f_equal.
      rewrite !filter_app. cbn [filter].
      assert (E : existsb (String.eqb n) (n :: order) = true)
        by (cbn [existsb]; rewrite String.eqb_refl; reflexivity).
      rewrite E. cbn [negb]. fold (sheetnames mid). fold (sheetnames post).
      rewrite !filter_unlisted; [reflexivity|exact Out2|].
      intros X. apply Out1, in_or_app. right. exact X.
    + intros m Hm. specialize (Hin m (or_intror Hm)).
      unfold sheetnames in *. rewrite map_app in *. cbn [map] in Hin.
      apply in_app_or in Hin. apply in_or_app.
      destruct Hin as [X|[X|X]]; [left; exact X| |right; exact X].
      rewrite Hs in X. subst m. contradiction.
Qed.

Lemma sheetnames_ensure (wb : workbook) (m : string) :
  sheetnames (ensure_sheet wb m)
  = if has_sheet m wb then sheetnames wb else sheetnames wb ++ [m].
Proof.
  unfold ensure_sheet. destruct (has_sheet m wb); [reflexivity|].
  unfold create_sheet, sheetnames. rewrite map_app. reflexivity.
Qed.

(** Creating sheets of the fixed order leaves the other titles alone. *)
Lemma other_titles_ensure_all (order : list string) (wb : workbook) :
  incl order SHEET_ORDER ->
  other_titles (fold_left ensure_sheet order wb) = other_titles wb.
Proof.
  revert wb. induction order as [|m order IH]; intros wb I; [reflexivity|].
  cbn [fold_left]. rewrite IH by (intros x Hx; apply I; right; exact Hx).
  unfold other_titles. rewrite sheetnames_ensure.
  destruct (has_sheet m wb); [reflexivity|].
  rewrite filter_app. cbn [filter].
  assert (X : existsb (String.eqb m) SHEET_ORDER = true).
  { apply existsb_exists. exists m. split; [|apply String.eqb_refl].
    apply I. left. reflexivity. }
  rewrite X. cbn [negb]. apply app_nil_r.
Qed.

Lemma get_sheet_name_In name ws wb :
  get_sheet name wb = Some ws -> In name (sheetnames wb).
Proof.
  intros H. apply SyncProofs.get_sheet_In in H.
  apply (in_map fst) in H. exact H.
Qed.

Lemma sheetnames_before_reorder now all_data existing :
  sheetnames (before_reorder now all_data existing)
  = sheetnames (fold_left ensure_sheet SHEET_ORDER (loaded existing)).
Proof.
  unfold before_reorder. cbn zeta.
  rewrite SyncProofs.sheetnames_update, SyncProofs.sheetnames_histories,
    !SyncProofs.sheetnames_replace, SyncProofs.sheetnames_update.
  reflexivity.
Qed.

Lemma NoDup_SHEET_ORDER : NoDup SHEET_ORDER.
Proof.
  unfold SHEET_ORDER.
  repeat (apply NoDup_cons; [cbn [In]; intuition discriminate|]).
  apply NoDup_nil.
Qed.

(** X6.  After a run on a workbook whose titles are distinct, the tabs are
    the eleven sheets of the fixed order, in that order, followed by every
    other sheet of the workbook in the order in which they stood. *)
Theorem tabs_follow_the_fixed_order
    (now : string) (all_data : fetched) (existing : option workbook) :
  distinct_titles existing ->
  sheetnames (create_or_update_excel now all_data existing)
  = SHEET_ORDER ++ other_titles (loaded existing).
Proof.
  intros D. rewrite SyncProofs.run_is_reorder.
  pose proof (reorder_sheetnames SHEET_ORDER []
                (before_reorder now all_data existing)) as R.
  cbn [app List.length sheetnames map] in R. rewrite R.
  - fold (sheetnames (before_reorder now all_data existing)).
    fold (other_titles (before_reorder now all_data existing)).
    f_equal. unfold other_titles at 1. rewrite sheetnames_before_reorder.
    apply (other_titles_ensure_all SHEET_ORDER). apply incl_refl.
  - apply SyncProofs.NoDup_before_reorder, D.
  - apply NoDup_SHEET_ORDER.
  - intros n Hn. fold (sheetnames (before_reorder now all_data existing)).
    rewrite sheetnames_before_reorder.
    assert (X : existsb (String.eqb n) SHEET_ORDER = true).
    { apply existsb_exists. exists n. split; [exact Hn|apply String.eqb_refl]. }
    pose proof (SyncProofs.get_sheet_ensure_all n SHEET_ORDER (loaded existing))
      as G.
    rewrite X in G.
    destruct (get_sheet n (loaded existing)) as [ws|];
      eapply get_sheet_name_In; exact G.
Qed.

Lemma tabs_follow_the_fixed_order_witness :
  sheetnames (create_or_update_excel "2024-01-01 09:00:00" prices_only
                workbook_with_notes)
  = SHEET_ORDER ++ ["Notes"].
Proof.
  apply (tabs_follow_the_fixed_order "2024-01-01 09:00:00" prices_only
           workbook_with_notes).
  cbn. repeat (apply NoDup_cons; [cbn [In]; intuition discriminate|]).
  apply NoDup_nil.
Defined.

(** ** Sheets that the run leaves alone *)

(** The history loop leaves a sheet alone when no fetched table that it
    would write is bound for that sheet. *)
Lemma get_sheet_histories_unwritten name items wb :
  Forall (fun item => name <> history_sheet_name (fst item)
                      \/ usable (snd item) = false) items ->
  get_sheet name (fold_left write_history items wb) = get_sheet name wb.
Proof.
  intros H. revert wb. induction H as [|item items Hi _ IH]; intros wb;
    [reflexivity|].
  cbn [fold_left]. rewrite IH, SyncProofs.get_sheet_write_history.
  destruct Hi as [N|U].
  - apply String.eqb_neq in N. rewrite N. reflexivity.
  - rewrite U, andb_false_r. reflexivity.
Qed.

(** X7.  The Transactions sheet is never rewritten: after a run it holds
    what was persisted, and on a workbook that lacked it the header row
    alone. *)
Theorem transactions_sheet_is_kept
    (now : string) (all_data : fetched) (existing : option workbook) :
  distinct_titles existing ->
  get_sheet TRANSACTIONS_SHEET_NAME
    (create_or_update_excel now all_data existing)
  = Some (match get_sheet TRANSACTIONS_SHEET_NAME (loaded existing) with
          | Some ws => ws
          | None => [map Str TRANSACTIONS_HEADER]
          end).
Proof.
  intros D. rewrite (SyncProofs.get_sheet_after_run _ _ _ _ D).
  unfold before_reorder. cbn zeta.
  rewrite SyncProofs.get_sheet_update. cbn [String.eqb Ascii.eqb Bool.eqb].
  rewrite SyncProofs.get_sheet_histories_other by discriminate.
  rewrite !SyncProofs.get_sheet_replace.
  cbn [String.eqb Ascii.eqb Bool.eqb andb].
  rewrite SyncProofs.get_sheet_update. cbn [String.eqb Ascii.eqb Bool.eqb].
  rewrite SyncProofs.get_sheet_ensure_all.
  destruct (get_sheet _ (loaded existing)); reflexivity.
Qed.

Lemma transactions_sheet_is_kept_witness :
  get_sheet TRANSACTIONS_SHEET_NAME
    (create_or_update_excel "2024-01-01 09:00:00" prices_only
       workbook_with_notes)
  = Some [map Str TRANSACTIONS_HEADER;
          [Str "2024-01-01"; Str "bitcoin"; Str "Buy"; Num 2; Num 50; Num 100]].
Proof.
  apply (transactions_sheet_is_kept "2024-01-01 09:00:00" prices_only
           workbook_with_notes).
  cbn. repeat (apply NoDup_cons; [cbn [In]; intuition discriminate|]).
  apply NoDup_nil.
Defined.

Lemma unlisted_title (name : string) :
  ~ In name SHEET_ORDER -> existsb (String.eqb name) SHEET_ORDER = false.
Proof.
  intros H. destruct (existsb _ _) eqn:E; [|reflexivity].
  apply existsb_exists in E as [m [Hm E]]. apply String.eqb_eq in E.
  subst m. contradiction.
Qed.

(** X8.  A sheet that is not of the fixed order, and that is not the
    history sheet of a fetched symbol, comes out of a run as it went in;
    a title that no sheet had before has none after. *)
Theorem other_sheets_are_untouched
    (now : string) (all_data : fetched) (existing : option workbook)
    (name : string) :
  distinct_titles existing ->
  ~ In name SHEET_ORDER ->
  (forall item, In item (fetched_histories all_data) ->
     name <> history_sheet_name (fst item)) ->
  get_sheet name (create_or_update_excel now all_data existing)
  = get_sheet name (loaded existing).
Proof.
  intros D N H. rewrite (SyncProofs.get_sheet_after_run _ _ _ _ D).
  assert (P : String.eqb name CURRENT_PORTFOLIO_SHEET_NAME = false).
  { apply String.eqb_neq. intros ->. apply N. cbn. tauto. }
  assert (E : String.eqb name EXECUTIVE_DASHBOARD_SHEET_NAME = false).
  { apply String.eqb_neq. intros ->. apply N. cbn. tauto. }
  assert (M : String.eqb name MARKET_OVERVIEW_SHEET_NAME = false).
  { apply String.eqb_neq. intros ->. apply N. cbn. tauto. }
  assert (G : String.eqb name GLOBAL_METRICS_SHEET_NAME = false).
  { apply String.eqb_neq. intros ->. apply N. cbn. tauto. }
  assert (F : String.eqb name FEAR_GREED_INDEX_SHEET_NAME = false).
  { apply String.eqb_neq. intros ->. apply N. cbn. tauto. }
  unfold before_reorder. cbn zeta.
  rewrite SyncProofs.get_sheet_update, P.
  fold (fetched_histories all_data).
  rewrite get_sheet_histories_unwritten
    by (apply Forall_forall; intros item Hi; left; apply H, Hi).
  rewrite !SyncProofs.get_sheet_replace, M, G, F. cbn [andb].
  rewrite SyncProofs.get_sheet_update, E.
  rewrite SyncProofs.get_sheet_ensure_all, (unlisted_title name N).
  destruct (get_sheet name (loaded existing)); reflexivity.
Qed.

Lemma other_sheets_are_untouched_witness :
  get_sheet "Notes"
    (create_or_update_excel "2024-01-01 09:00:00" prices_only
       workbook_with_notes)
  = Some [[Str "remember"]].
Proof.
  apply (other_sheets_are_untouched "2024-01-01 09:00:00" prices_only
           workbook_with_notes "Notes").
  - cbn. repeat (apply NoDup_cons; [cbn [In]; intuition discriminate|]).
    apply NoDup_nil.
  - cbn [In SHEET_ORDER]. intuition discriminate.
  - intros item [].
Defined.

(** X9.  A run in which no fetch brought a table rewrites the dashboard
    only: every other sheet holds what was persisted, and a sheet of the
    fixed order that was missing holds what its creation put there. *)
Theorem failed_run_rewrites_the_dashboard_only
    (now : string) (all_data : fetched) (existing : option workbook)
    (name : string) :
  distinct_titles existing ->
  nothing_to_write all_data ->
  name <> EXECUTIVE_DASHBOARD_SHEET_NAME ->
  get_sheet name (create_or_update_excel now all_data existing)
  = match get_sheet name (loaded existing) with
    | Some ws => Some ws
    | None => if existsb (String.eqb name) SHEET_ORDER
              then Some (created_content name) else None
    end.
Proof.
  intros D (P & M & G & F & H) N.
  rewrite (SyncProofs.get_sheet_after_run _ _ _ _ D).
  unfold before_reorder. cbn zeta.
  fold (fetched_histories all_data).
  rewrite SyncProofs.get_sheet_update.
  rewrite get_sheet_histories_unwritten
    by (eapply Forall_impl; [|exact H]; cbn beta; intros item U; right;
        exact U).
  rewrite !SyncProofs.get_sheet_replace, M, G, F, !andb_false_r.
  rewrite SyncProofs.get_sheet_update.
  apply String.eqb_neq in N. rewrite N.
  rewrite SyncProofs.get_sheet_ensure_all.
  destruct (String.eqb name CURRENT_PORTFOLIO_SHEET_NAME); [|reflexivity].
  destruct P as [-> | ->]; cbn [merge_or_keep];
    destruct (get_sheet name (loaded existing));
    [reflexivity| |reflexivity|];
    destruct (existsb _ _); reflexivity.
Qed.

Lemma failed_run_rewrites_the_dashboard_only_witness :
  get_sheet CURRENT_PORTFOLIO_SHEET_NAME
    (create_or_update_excel "2024-01-01 09:00:00" nothing_fetched
       workbook_with_notes)
  = Some merged_sheet.
Proof.
  apply (failed_run_rewrites_the_dashboard_only "2024-01-01 09:00:00"
           nothing_fetched workbook_with_notes CURRENT_PORTFOLIO_SHEET_NAME).
  - cbn. repeat (apply NoDup_cons; [cbn [In]; intuition discriminate|]).
    apply NoDup_nil.
  - repeat split; [left; reflexivity|constructor].
  - discriminate.
Defined.

End SyncExtra.

(** * Further properties of the portfolio merge *)

Module PortfolioExtra.
Import Workbook WorkbookSpec PortfolioSpec WorkbookProofs.

(** ** The rows of the merged frame *)

Lemma updall_other fresh r :
  (forall cp, In cp fresh -> cell_eqb (fst r) (Str (fst cp)) = false) ->
  updall fresh r = r.
Proof.
  revert r. induction fresh as [|cp fresh IH]; intros r H; [reflexivity|].
  rewrite updall_cons. unfold upd.
  rewrite (H cp) by (left; reflexivity).
  apply IH. intros cp' Hc. apply H. right. exact Hc.
Qed.

(** For a fresh table that names no coin twice: the rows that were there,
    each with the fresh prices applied, then one row for each fresh coin
    that had none. *)
Lemma merged_records_split fresh :
  forall f,
    NoDup (map fst fresh) ->
    records (fold_left merge_step fresh f)
    = map (updall fresh) (records f)
      ++ map (fun cp => (Str (fst cp), [(Str CURRENT_VALUE, Num (snd cp))]))
             (filter (fun cp => negb (in_index (fst cp) f)) fresh).
Proof.
  induction fresh as [|cp fresh IH]; intros f ND.
  - cbn. rewrite app_nil_r, map_id. reflexivity.
  - cbn [map fst] in ND. apply NoDup_cons_iff in ND as [Hc ND].
    cbn [fold_left]. rewrite (IH _ ND), merge_step_records.
    rewrite map_app, map_map, <- app_assoc. f_equal.
    assert (F : filter (fun cp' => negb (in_index (fst cp') (merge_step f cp)))
                       fresh
                = filter (fun cp' => negb (in_index (fst cp') f)) fresh).
    { apply filter_ext_in. intros cp' Hcp'. rewrite in_index_merge_step.
      destruct (String.eqb_spec (fst cp) (fst cp')) as [E|_].
      - exfalso. apply Hc. rewrite E. apply in_map, Hcp'.
      - rewrite orb_false_r. reflexivity. }
    rewrite F. cbn [filter].
    destruct (in_index (fst cp) f); cbn [negb map app]; [reflexivity|].
    f_equal. apply updall_other. intros cp' Hcp'. cbn [fst cell_eqb].
    apply String.eqb_neq. intros E. apply Hc. rewrite E. apply in_map, Hcp'.
Qed.

Lemma existsb_map_comp {A B} (f : B -> bool) (g : A -> B) (l : list A) :
  existsb f (map g l) = existsb (fun x => f (g x)) l.
Proof.
  induction l as [|a l IH]; [reflexivity|]. cbn [map existsb].
  rewrite IH. reflexivity.
Qed.

Lemma cell_under_In name header row v :
  cell_under name header row = Some v -> In (Str name) header.
Proof.
  revert row v. induction header as [|h header IH]; intros row v H;
    [discriminate H|].
  destruct row as [|c row]; [discriminate H|]. cbn [cell_under] in H.
  destruct (cell_under name header row) as [w|] eqn:E.
  - right. eapply IH, E.
  - destruct (cell_eqb h (Str name)) eqn:E'; [|discriminate H].
    left. apply cell_eqb_Str, E'.
Qed.

Lemma has_label_In name cols :
  has_label (Str name) cols = true <-> In (Str name) cols.
Proof.
  unfold has_label. rewrite existsb_exists. split.
  - intros [c [Hc E]]. rewrite cell_eqb_sym in E. apply cell_eqb_Str in E.
    subst c. exact Hc.
  - intros H. exists (Str name). split; [exact H|apply cell_eqb_refl].
Qed.

Lemma has_label_filtered k (f : cell -> bool) cols :
  has_label k (filter f cols) = true -> has_label k cols = true.
Proof.
  unfold has_label. rewrite !existsb_exists. intros [c [Hc E]].
  exists c. split; [|exact E]. apply filter_In in Hc. tauto.
Qed.

(** A column of the frame read from a sheet is named in its header. *)
Lemma existing_column_in_header ws name :
  has_label (Str name) (columns (existing_portfolio ws)) = true ->
  In (Str name) (first_row ws).
Proof.
  unfold existing_portfolio.
  assert (M : (0 <? max_row ws)%nat = true)
    by (apply Nat.ltb_lt; unfold max_row; lia).
  rewrite M.
  destruct (has_label (Str COIN_ID) _); [|discriminate].
  unfold set_index. cbn [columns]. intros H.
  apply has_label_filtered in H.
  destruct (1 <? max_row ws)%nat; [|discriminate H].
  rewrite has_label_of_rows in H. apply existsb_exists in H as [row [_ H]].
  destruct (cell_under name (first_row ws) row) as [v|] eqn:E;
    [|discriminate H].
  eapply cell_under_In, E.
Qed.

Lemma existing_portfolio_empty ws :
  ~ In (Str COIN_ID) (first_row ws) -> existing_portfolio ws = empty_frame.
Proof.
  intros H. unfold existing_portfolio.
  assert (M : (0 <? max_row ws)%nat = true)
    by (apply Nat.ltb_lt; unfold max_row; lia).
  rewrite M.
  destruct (has_label (Str COIN_ID) _) eqn:E; [|reflexivity].
  exfalso. apply H. destruct (1 <? max_row ws)%nat; [|discriminate E].
  rewrite has_label_of_rows in E. apply existsb_exists in E as [row [_ E]].
  destruct (cell_under COIN_ID (first_row ws) row) as [v|] eqn:E';
    [|discriminate E].
  eapply cell_under_In, E'.
Qed.

Lemma existing_portfolio_short ws :
  (List.length ws <= 1)%nat -> existing_portfolio ws = empty_frame.
Proof.
  intros L. destruct ws as [|hdr [|r ws]]; [reflexivity|reflexivity|].
  cbn in L. lia.
Qed.

(** What is written for a coin that comes new to the frame. *)
Lemma out_row_new fresh f cp :
  In cp fresh ->
  out_row (columns (fold_left merge_step fresh f))
          (Str (fst cp), [(Str CURRENT_VALUE, Num (snd cp))])
  = Str (fst cp) :: Num (snd cp)
    :: map (fun col => if has_label (Str col) (columns f)
                       then Blank else Str "")
           (tl portfolio_cols).
Proof.
  intros H. unfold out_row. cbn [fst]. f_equal.
  assert (N : fresh <> []) by (intros ->; destruct H).
  change portfolio_cols with (CURRENT_VALUE :: tl portfolio_cols) at 1.
  cbn [map]. f_equal.
  - unfold shown. rewrite (merged_has_current_value fresh f N). reflexivity.
  - apply map_ext_in. intros col Hc. unfold shown. rewrite merged_columns.
    assert (E : String.eqb col CURRENT_VALUE = false).
    { cbn in Hc. repeat (destruct Hc as [<-|Hc]; [reflexivity|]). destruct Hc. }
    rewrite E, andb_false_r, orb_false_r.
    destruct (has_label (Str col) (columns f)); [|reflexivity].
    unfold field. cbn [snd dict_get cell_eqb].
    rewrite String.eqb_sym, E. reflexivity.
Qed.

Lemma merge_of_empty_frame ws fresh :
  existing_portfolio ws = empty_frame ->
  NoDup (map fst fresh) ->
  merge_portfolio ws fresh = FIXED_HEADER :: map first_row_of fresh.
Proof.
  intros E ND. rewrite merge_portfolio_rows, E. f_equal.
  rewrite (merged_records_split fresh empty_frame ND).
  change (records empty_frame) with (@nil (cell * dict)). cbn [map app].
  rewrite filter_keeps_all by reflexivity.
  rewrite map_map. apply map_ext_in. intros cp H.
  rewrite (out_row_new fresh empty_frame cp H). reflexivity.
Qed.

(** X10.  On a sheet without data rows (the header alone, or no cell at
    all) the merge of a fresh table that names no coin twice writes the
    fixed header and one row per fresh coin in the order of the table: the
    coin, its price, and the empty string under the eight other columns. *)
Theorem first_merge_lists_the_fresh_coins
    (ws : worksheet) (fresh : list (string * Q)) :
  (List.length ws <= 1)%nat ->
  NoDup (map fst fresh) ->
  merge_portfolio ws fresh = FIXED_HEADER :: map first_row_of fresh.
Proof.
  intros L ND. apply merge_of_empty_frame; [|exact ND].
  apply existing_portfolio_short, L.
Qed.

Lemma first_merge_lists_the_fresh_coins_witness :
  merge_portfolio [map Str PORTFOLIO_HEADER] fresh_prices
  = [ FIXED_HEADER;
      [ Str "bitcoin"; Num 200; Str ""; Str ""; Str ""; Str ""; Str "";
        Str ""; Str ""; Str "" ];
      [ Str "ethereum"; Num 10; Str ""; Str ""; Str ""; Str ""; Str "";
        Str ""; Str ""; Str "" ] ].
Proof.
  apply (first_merge_lists_the_fresh_coins [map Str PORTFOLIO_HEADER]
           fresh_prices).
  - cbn. lia.
  - cbn. repeat (apply NoDup_cons; [cbn [In]; intuition discriminate|]).
    apply NoDup_nil.
Defined.

(** X11.  The rows of a sheet whose header does not name the coin column
    are not carried over: the merge writes what it writes on a sheet
    without cells. *)
Theorem sheet_without_coin_column_is_discarded
    (ws : worksheet) (fresh : list (string * Q)) :
  ~ In (Str COIN_ID) (first_row ws) ->
  merge_portfolio ws fresh = merge_portfolio [] fresh.
Proof.
  intros H. unfold merge_portfolio.
  rewrite (existing_portfolio_empty ws H). reflexivity.
Qed.

Lemma sheet_without_coin_column_is_discarded_witness :
  merge_portfolio sheet_without_coin_column fresh_prices
  = merge_portfolio [] fresh_prices.
Proof.
  apply (sheet_without_coin_column_is_discarded sheet_without_coin_column
           fresh_prices).
  cbn. intuition discriminate.
Defined.

Lemma in_index_existing hdr r1 rest c :
  rectangular (hdr :: r1 :: rest) ->
  In (Str COIN_ID) hdr ->
  in_index c (existing_portfolio (hdr :: r1 :: rest))
  = held (hdr :: r1 :: rest) c.
Proof.
  intros R H. unfold in_index, held.
  rewrite (proj1 (existing_portfolio_spec hdr r1 rest R H)).
  rewrite existsb_map_comp. reflexivity.
Qed.

(** X12.  On a sheet with data rows under a header that names the coin
    column, the merge of a fresh table that names no coin twice keeps as
    many rows as the sheet had and appends one row for each fresh coin
    that the sheet did not hold, in the order of the fresh table: the coin,
    its price, a blank under each other fixed column of the sheet and the
    empty string under those the sheet lacks. *)
Theorem new_coins_are_appended
    (hdr r1 : list cell) (rest : worksheet) (fresh : list (string * Q)) :
  rectangular (hdr :: r1 :: rest) ->
  In (Str COIN_ID) hdr ->
  NoDup (map fst fresh) ->
  let ws := hdr :: r1 :: rest in
  exists kept,
    rows_from_2 (merge_portfolio ws fresh)
    = kept ++ map (new_row ws) (new_coins ws fresh)
    /\ List.length kept = List.length (rows_from_2 ws).
Proof.
  intros R H ND ws.
  destruct (existing_portfolio_spec hdr r1 rest R H) as [Recs Labels].
  fold ws in Recs, Labels.
  exists (map (out_row (columns (fold_left merge_step fresh
                                   (existing_portfolio ws))))
              (map (updall fresh) (records (existing_portfolio ws)))).
  split.
  - rewrite merge_portfolio_rows. cbn [rows_from_2 tl].
    rewrite (merged_records_split fresh _ ND), map_app. f_equal.
    assert (F : filter (fun cp => negb (in_index (fst cp)
                                          (existing_portfolio ws))) fresh
                = new_coins ws fresh).
    { unfold new_coins. apply filter_ext. intros cp.
      unfold ws. rewrite (in_index_existing hdr r1 rest (fst cp) R H).
      reflexivity. }
    rewrite F, map_map. apply map_ext_in. intros cp Hcp.
    apply filter_In in Hcp as [Hcp _].
    rewrite (out_row_new fresh _ cp Hcp). unfold new_row. do 2 f_equal.
    apply map_ext_in. intros col Hc.
    assert (N : col <> COIN_ID).
    { cbn in Hc. repeat (destruct Hc as [<-|Hc]; [discriminate|]).
      destruct Hc. }
    cbn [first_row ws].
    destruct (has_label (Str col) hdr) eqn:E.
    + apply has_label_In in E. fold ws. rewrite (Labels col N E). reflexivity.
    + destruct (has_label (Str col) (columns (existing_portfolio ws))) eqn:E';
        [|reflexivity].
      apply existing_column_in_header in E'. cbn [first_row ws] in E'.
      apply has_label_In in E'. congruence.
  - rewrite !length_map, Recs, length_map. reflexivity.
Qed.

Lemma new_coins_are_appended_witness :
  exists kept,
    rows_from_2 (merge_portfolio merged_sheet fresh_prices)
    = kept ++ [ [ Str "ethereum"; Num 10; Blank; Blank; Blank; Blank; Blank;
                  Blank; Blank; Blank ] ]
    /\ List.length kept = 2%nat.
Proof.
  apply (new_coins_are_appended FIXED_HEADER
           [ Str "bitcoin"; Num 100; Str "BTC"; Str "Ledger"; Num 2; Num 50;
             Blank; Blank; Blank; Str "Invest" ]
           [ [ Str "notcoin"; Num 1; Str "NOT"; Str "Wallet"; Num 500; Num 0;
               Blank; Blank; Blank; Str "Airdrop" ] ]
           fresh_prices).
  - repeat constructor.
  - left. reflexivity.
  - cbn. repeat (apply NoDup_cons; [cbn [In]; intuition discriminate|]).
    apply NoDup_nil.
Defined.

(** X13.  After a merge every coin of the fresh table has a row, and every
    row whose coin the fresh table prices shows that price, the last one
    when the table names the coin more than once. *)
Theorem every_fresh_coin_is_listed_at_its_price
    (ws : worksheet) (fresh : list (string * Q)) :
  let out := merge_portfolio ws fresh in
  (forall c, In c (map fst fresh) ->
     exists row, In row (rows_from_2 out)
                 /\ value_in FIXED_HEADER row COIN_ID = Str c)
  /\ (forall row p, In row (rows_from_2 out) ->
        price_for fresh (value_in FIXED_HEADER row COIN_ID) = Some p ->
        value_in FIXED_HEADER row CURRENT_VALUE = Num p).
Proof.
  cbn zeta. rewrite merge_portfolio_rows. cbn [rows_from_2 tl].
  set (M := fold_left merge_step fresh (existing_portfolio ws)).
  split.
  - intros c Hc.
    pose proof (merged_index fresh (existing_portfolio ws) c Hc) as I.
    fold M in I. unfold in_index in I.
    apply existsb_exists in I as [r [Hr E]]. apply cell_eqb_Str in E.
    exists (out_row (columns M) r). split; [apply in_map, Hr|].
    unfold out_row. rewrite value_in_out_row_coin. exact E.
  - intros row p Hrow P. apply in_map_iff in Hrow as [r [<- Hr]].
    unfold out_row in *. rewrite value_in_out_row_coin in P.
    rewrite value_in_out_row by (left; reflexivity).
    assert (N : fresh <> []).
    { intros ->. destruct (fst r); discriminate P. }
    unfold shown, M. rewrite (merged_has_current_value fresh _ N).
    unfold field.
    rewrite (merged_current_value fresh (existing_portfolio ws) r p Hr P).
    reflexivity.
Qed.

Lemma every_fresh_coin_is_listed_at_its_price_witness :
  value_in FIXED_HEADER
    [ Str "bitcoin"; Num 200; Str "BTC"; Str "Ledger"; Num 2; Num 50;
      Blank; Blank; Blank; Str "Invest" ]
    CURRENT_VALUE
  = Num 200.
Proof.
  apply (proj2 (every_fresh_coin_is_listed_at_its_price merged_sheet
                  fresh_prices)).
  - vm_compute. left. reflexivity.
  - reflexivity.
Defined.

(** X14.  A fixed column other than the current value that the header of
    the sheet does not name is empty after the merge: every row holds the
    empty string under it. *)
Theorem column_absent_from_the_sheet_is_empty
    (ws : worksheet) (fresh : list (string * Q)) (name : string) (row : list cell) :
  In name portfolio_cols ->
  name <> CURRENT_VALUE ->
  ~ In (Str name) (first_row ws) ->
  In row (rows_from_2 (merge_portfolio ws fresh)) ->
  value_in FIXED_HEADER row name = Str "".
Proof.
  intros Hn Hcv Habs Hrow. rewrite merge_portfolio_rows in Hrow.
  cbn [rows_from_2 tl] in Hrow. apply in_map_iff in Hrow as [r [<- _]].
  unfold out_row. rewrite value_in_out_row by exact Hn.
  unfold shown. rewrite merged_columns.
  apply String.eqb_neq in Hcv. rewrite Hcv, andb_false_r, orb_false_r.
  destruct (has_label (Str name) (columns (existing_portfolio ws))) eqn:E;
    [|reflexivity].
  exfalso. apply Habs. apply existing_column_in_header, E.
Qed.

Lemma column_absent_from_the_sheet_is_empty_witness :
  value_in FIXED_HEADER
    [ Str "bitcoin"; Num 200; Str "BTC"; Str "Ledger"; Num 2; Num 50;
      Blank; Blank; Blank; Str "" ]
    "Airdrop or Invest"
  = Str "".
Proof.
  apply (column_absent_from_the_sheet_is_empty template_with_holding
           fresh_prices "Airdrop or Invest").
  - cbn. tauto.
  - discriminate.
  - cbn. intuition discriminate.
  - vm_compute. left. reflexivity.
Defined.

End PortfolioExtra.

(** * Further properties of the historical series *)

Module SeriesExtra.
Import Numeric Historical HistoricalSpec SeriesSpec HistoricalProofs.

Lemma observations_present {A} (f : A -> option Q) (js : list A) :
  observations (map f js) = present f js.
Proof.
  unfold observations, present. induction js as [|j js IH]; [reflexivity|].
  cbn [map flat_map]. rewrite IH. reflexivity.
Qed.

Lemma length_price_column data :
  List.length (price_column (firstn (shortest data) (prices data)))
  = shortest data.
Proof.
  unfold price_column. rewrite length_map. apply length_firstn_le.
  apply Nat.le_min_l.
Qed.

(** In a table of at least two rows the price column is read off the
    rows. *)
Lemma price_column_of_rows tz data j :
  (2 <= shortest data)%nat ->
  nth j (price_column (firstn (shortest data) (prices data))) None
  = price_of (get_historical_data tz data) j.
Proof.
  intros N. unfold price_of.
  destruct (nth_error (get_historical_data tz data) j) as [r|] eqn:E.
  - pose proof (derived_columns tz data j r N E) as (Hp & _).
    apply (nth_error_nth _ _ _ Hp).
  - apply nth_overflow. rewrite length_price_column.
    apply nth_error_None in E. rewrite length_get_historical_data in E.
    exact E.
Qed.

Lemma window_of_prices tz data w i :
  (2 <= shortest data)%nat -> (i < shortest data)%nat ->
  observations
    (window_at w (price_column (firstn (shortest data) (prices data))) i)
  = present_prices (get_historical_data tz data) w i.
Proof.
  intros N I. rewrite (window_at_as_map None) by (rewrite length_price_column; exact I).
  rewrite observations_present. unfold present_prices, trailing, present.
  apply flat_map_ext. intros j. rewrite (price_column_of_rows tz data j N).
  reflexivity.
Qed.

Lemma rolling_mean_of_prices tz data w i y :
  (2 <= shortest data)%nat -> (i < shortest data)%nat ->
  nth_error (map (option_map (round_to 4))
               (rolling_mean w 1
                  (price_column (firstn (shortest data) (prices data))))) i
  = Some y ->
  y = rounded_mean (present_prices (get_historical_data tz data) w i).
Proof.
  intros N I H. rewrite nth_error_map in H.
  destruct (nth_error (rolling_mean w 1 _) i) as [x|] eqn:Ex; [|discriminate H].
  cbn in H. injection H as <-.
  apply nth_error_rolling_mean in Ex. cbn zeta in Ex.
  rewrite (window_of_prices tz data w i N I) in Ex. subst x.
  destruct (present_prices _ w i); reflexivity.
Qed.

(** X15.  In a table of two or more rows, each moving average of a row is
    the mean, rounded to four decimals, of the prices that the rows of its
    window carry (the last 7, or 30, rows up to the row itself, fewer at the
    start of the table); rows without a price are left out of the mean, and
    the average is empty only when no row of the window has a price. *)
Theorem moving_averages_skip_missing_prices (tz : Z) (data : market_chart) :
  let t := get_historical_data tz data in
  (2 <= List.length t)%nat ->
  forall i r, nth_error t i = Some r ->
    MA_7 r = rounded_mean (present_prices t 7 i)
    /\ MA_30 r = rounded_mean (present_prices t 30 i).
Proof.
  cbn zeta. rewrite length_get_historical_data. intros N i r H.
  assert (I : (i < shortest data)%nat).
  { rewrite <- (length_get_historical_data tz data). apply nth_error_Some.
    congruence. }
  pose proof (derived_columns tz data i r N H) as (_ & _ & Ha & Hb & _).
  split.
  - apply (rolling_mean_of_prices tz data 7 i _ N I Ha).
  - apply (rolling_mean_of_prices tz data 30 i _ N I Hb).
Qed.

Lemma moving_averages_skip_missing_prices_witness :
  exists r,
    nth_error (get_historical_data 0 gap_chart) 2 = Some r
    /\ MA_7 r
       = rounded_mean (present_prices (get_historical_data 0 gap_chart) 7 2)
    /\ MA_30 r
       = rounded_mean (present_prices (get_historical_data 0 gap_chart) 30 2).
Proof.
  eexists. split; [reflexivity|].
  apply (moving_averages_skip_missing_prices 0 gap_chart).
  - vm_compute. lia.
  - reflexivity.
Defined.

(** In the first seven rows of a table the 30-day moving average is
    the 7-day moving average. *)
Lemma moving_averages_agree_in_the_first_week
    (tz : Z) (data : market_chart) (i : nat) (r : hist_row) :
  (i <= 6)%nat ->
  nth_error (get_historical_data tz data) i = Some r ->
  MA_30 r = MA_7 r.
Proof.
  intros I H. destruct (le_lt_dec (shortest data) 1) as [N|N].
  - destruct (single_row_underived tz data r N (nth_error_In _ _ H))
      as (_ & Ha & Hb & _).
    congruence.
  - assert (I' : (i < shortest data)%nat).
    { rewrite <- (length_get_historical_data tz data). apply nth_error_Some.
      congruence. }
    pose proof (derived_columns tz data i r ltac:(lia) H)
      as (_ & _ & Ha & Hb & _).
    rewrite (rolling_mean_of_prices tz data 7 i _ ltac:(lia) I' Ha).
    rewrite (rolling_mean_of_prices tz data 30 i _ ltac:(lia) I' Hb).
    unfold present_prices, trailing.
    replace (S i - 30)%nat with 0%nat by lia.
    replace (S i - 7)%nat with 0%nat by lia. reflexivity.
Qed.


(** ** Daily returns *)

Lemma nth_error_shift1 {A} (s : list (option A)) (i : nat) :
  (S i < List.length s)%nat ->
  nth_error (shift1 s) (S i) = nth_error s i.
Proof.
  intros H. unfold shift1. destruct s as [|x s]; [cbn in H; lia|].
  cbn [nth_error]. rewrite removelast_firstn_len, nth_error_firstn.
  assert (B : (i <? Init.Nat.pred (List.length (x :: s)))%nat = true).
  { apply Nat.ltb_lt. cbn [List.length] in *. lia. }
  rewrite B. reflexivity.
Qed.

Lemma nth_error_combine {A B} (l : list A) (l' : list B) i a b :
  nth_error l i = Some a -> nth_error l' i = Some b ->
  nth_error (combine l l') i = Some (a, b).
Proof.
  revert l l'. induction i as [|i IH]; intros [|x l] [|y l'] Ha Hb;
    try discriminate.
  - cbn in *. congruence.
  - cbn in *. apply IH; assumption.
Qed.

(** The unrounded return of a row after the first. *)
Lemma nth_error_daily_return (price : list (option Q)) (i : nat) a b :
  nth_error price i = Some a ->
  nth_error price (S i) = Some b ->
  nth_error (daily_return price) (S i)
  = Some (fmap (fun q => ((q - 1) * 100)%Q) (fdiv b a)).
Proof.
  intros Ha Hb. unfold daily_return. rewrite nth_error_map.
  assert (L : (S i < List.length price)%nat).
  { apply nth_error_Some. congruence. }
  rewrite (nth_error_combine price (shift1 price) (S i) b a Hb)
    by (rewrite nth_error_shift1 by exact L; exact Ha).
  reflexivity.
Qed.

Lemma length_ge_2 tz data i r :
  nth_error (get_historical_data tz data) (S i) = Some r ->
  (2 <= shortest data)%nat.
Proof.
  intros H. rewrite <- (length_get_historical_data tz data).
  assert (S i < List.length (get_historical_data tz data))%nat; [|lia].
  apply nth_error_Some. congruence.
Qed.

(** X16.  The daily return of a row after the first is taken on the row
    just before it: with both prices there and the earlier one not zero it
    is (price / earlier price - 1) * 100 rounded to three decimals; it is
    the missing marker when one of the two prices is missing; and it is
    never a finite number when the earlier price is zero. *)
Theorem daily_return_is_taken_on_the_previous_row
    (tz : Z) (data : market_chart) (i : nat) (prev r : hist_row) :
  let t := get_historical_data tz data in
  nth_error t i = Some prev ->
  nth_error t (S i) = Some r ->
  (forall a b, Price prev = Some a -> Price r = Some b -> ~ a == 0 ->
     Daily_Return r = Fin (round_to 3 ((b / a - 1) * 100)))
  /\ (Price prev = None \/ Price r = None -> Daily_Return r = NaN)
  /\ (forall a, Price prev = Some a -> a == 0 ->
        forall q, Daily_Return r <> Fin q).
Proof.
  cbn zeta. intros Hprev Hr.
  pose proof (length_ge_2 tz data i r Hr) as N.
  pose proof (derived_columns tz data i prev N Hprev) as (Pp & _).
  pose proof (derived_columns tz data (S i) r N Hr) as (Pr & Rr & _).
  cbn zeta in *. rewrite nth_error_map in Rr.
  rewrite (nth_error_daily_return _ i _ _ Pp Pr) in Rr. cbn in Rr.
  injection Rr as Rr. rewrite <- Rr. clear Rr.
  split; [|split].
  - intros a b -> -> Z. cbn [fdiv].
    destruct (Qeq_bool a 0) eqn:E; [apply Qeq_bool_iff in E; contradiction|].
    reflexivity.
  - intros [-> | ->]; [destruct (Price r)|]; reflexivity.
  - intros a -> Z q. destruct (Price r) as [b|]; cbn [fdiv fmap]; [|discriminate].
    apply Qeq_bool_iff in Z. rewrite Z.
    destruct (b ?= 0)%Q; discriminate.
Qed.

Lemma daily_return_is_taken_on_the_previous_row_witness :
  exists r,
    nth_error (get_historical_data 0 two_day_chart) 1 = Some r
    /\ Daily_Return r
       = Fin (round_to 3 ((round_to 4 2 / round_to 4 1 - 1) * 100)).
Proof.
  eexists. split; [reflexivity|].
  refine (proj1 (daily_return_is_taken_on_the_previous_row 0 two_day_chart 0
                   _ _ eq_refl eq_refl)
            (round_to 4 1) (round_to 4 2) eq_refl eq_refl _).
  intros E. vm_compute in E. discriminate E.
Defined.

(** ** Volatility *)

(** The unrounded returns as the rows give them. *)
Lemma return_column_of_rows tz data j :
  (2 <= shortest data)%nat ->
  nth j (map finite
           (daily_return
              (price_column (firstn (shortest data) (prices data))))) None
  = return_of (get_historical_data tz data) j.
Proof.
  intros N. set (price := price_column _).
  assert (Lp : List.length price = shortest data) by apply length_price_column.
  assert (Ld : List.length (map finite (daily_return price)) = shortest data).
  { rewrite length_map, length_daily_return. exact Lp. }
  destruct (le_lt_dec (shortest data) j) as [O|I].
  - rewrite nth_overflow by lia. unfold return_of.
    destruct j as [|k]; [reflexivity|].
    unfold price_of at 1.
    assert (E : nth_error (get_historical_data tz data) (S k) = None).
    { apply nth_error_None. rewrite length_get_historical_data. exact O. }
    rewrite E. reflexivity.
  - destruct j as [|k].
    + destruct price as [|p ps] eqn:Ep; [cbn in Lp; lia|].
      destruct (daily_return_head p ps) as [rs ->]. reflexivity.
    + unfold return_of.
      rewrite <- !(price_column_of_rows tz data _ N). fold price.
      destruct (nth_error price k) as [a|] eqn:Ea.
      2:{ apply nth_error_None in Ea. lia. }
      destruct (nth_error price (S k)) as [b|] eqn:Eb.
      2:{ apply nth_error_None in Eb. lia. }
      rewrite (nth_error_nth _ _ None Ea), (nth_error_nth _ _ None Eb).
      apply nth_error_nth. rewrite nth_error_map.
      rewrite (nth_error_daily_return price k a b Ea Eb). cbn [option_map].
      f_equal. destruct b as [b|], a as [a|]; cbn [fdiv fmap finite];
        try reflexivity.
      destruct (Qeq_bool a 0); [destruct (b ?= 0)%Q|]; reflexivity.
Qed.

(** X17.  In a table of two or more rows the volatility of a row is the
    sample variance (under the rounded square root) of the unrounded daily
    returns that the rows of its 7-row window have, and it is empty when
    the window holds fewer than two returns. *)
Theorem volatility_is_taken_on_unrounded_returns
    (tz : Z) (data : market_chart) :
  let t := get_historical_data tz data in
  (2 <= List.length t)%nat ->
  forall i r, nth_error t i = Some r ->
    Volatility_7d r
    = match present_returns t i with
      | [] | [_] => None
      | obs => Some (Sqrt3 (variance obs))
      end.
Proof.
  cbn zeta. rewrite length_get_historical_data. intros N i r H.
  assert (I : (i < shortest data)%nat).
  { rewrite <- (length_get_historical_data tz data). apply nth_error_Some.
    congruence. }
  pose proof (derived_columns tz data i r N H) as (_ & _ & _ & _ & Hs).
  cbn zeta in Hs. rewrite nth_error_map in Hs.
  destruct (nth_error (rolling_std 7 1 _) i) as [x|] eqn:Ex; [|discriminate Hs].
  cbn in Hs. injection Hs as <-.
  apply nth_error_rolling_std in Ex. cbn zeta in Ex.
  rewrite (window_at_as_map None) in Ex
    by (rewrite length_map, length_daily_return, length_price_column; exact I).
  rewrite observations_present in Ex.
  assert (W : present (fun j => nth j (map finite
                 (daily_return
                    (price_column (firstn (shortest data) (prices data)))))
                 None) (seq (S i - 7) (S i - (S i - 7)))
              = present_returns (get_historical_data tz data) i).
  { unfold present_returns, trailing, present. apply flat_map_ext.
    intros j. rewrite (return_column_of_rows tz data j N). reflexivity. }
  rewrite W in Ex. subst x.
  destruct (present_returns _ i) as [|a [|b obs]]; reflexivity.
Qed.

Lemma volatility_is_taken_on_unrounded_returns_witness :
  exists r,
    nth_error (get_historical_data 0 week_chart) 2 = Some r
    /\ Volatility_7d r
       = Some (Sqrt3 (variance
                        (present_returns (get_historical_data 0 week_chart) 2))).
Proof.
  eexists. split; [reflexivity|].
  refine (volatility_is_taken_on_unrounded_returns 0 week_chart _ 2 _ eq_refl).
  vm_compute. lia.
Defined.

Lemma present_le {A} (f : A -> option Q) (js : list A) :
  (List.length (present f js) <= List.length js)%nat.
Proof.
  unfold present. induction js as [|j js IH]; [apply Nat.le_refl|].
  cbn [flat_map]. rewrite length_app. destruct (f j); cbn [List.length]; lia.
Qed.

(** X18.  The first two rows of a table never have a volatility: their
    windows hold at most one daily return. *)
Theorem first_two_rows_have_no_volatility
    (tz : Z) (data : market_chart) (i : nat) (r : hist_row) :
  (i <= 1)%nat ->
  nth_error (get_historical_data tz data) i = Some r ->
  Volatility_7d r = None.
Proof.
  intros I H. destruct (le_lt_dec (shortest data) 1) as [N|N].
  - apply (single_row_underived tz data r N (nth_error_In _ _ H)).
  - pose proof (derived_columns tz data i r ltac:(lia) H)
      as (_ & _ & _ & _ & Hs).
    cbn zeta in Hs. rewrite nth_error_map in Hs.
    destruct (nth_error (rolling_std 7 1 _) i) as [x|] eqn:Ex;
      [|discriminate Hs].
    cbn in Hs. injection Hs as <-.
    apply nth_error_rolling_std in Ex. cbn zeta in Ex. subst x.
    set (price := price_column _).
    destruct price as [|p ps] eqn:Ep.
    { pose proof (length_price_column data) as L. fold price in L.
      rewrite Ep in L. cbn in L. lia. }
    destruct (daily_return_head p ps) as [rs ->].
    unfold window_at. replace (S i - 7)%nat with 0%nat by lia.
    cbn [skipn map finite].
    assert (B : (List.length
                   (observations (firstn (S i) (None :: map finite rs)))
                 <=? 1)%nat = true).
    { apply Nat.leb_le. cbn [firstn observations flat_map app].
      fold (observations (firstn i (map finite rs))).
      rewrite <- (map_id (firstn i (map finite rs))), observations_present.
      etransitivity; [apply present_le|].
      rewrite length_firstn. lia. }
    rewrite B, orb_true_r. reflexivity.
Qed.

Lemma first_two_rows_have_no_volatility_witness :
  exists r,
    nth_error (get_historical_data 0 week_chart) 1 = Some r
    /\ Volatility_7d r = None.
Proof.
  eexists. split; [reflexivity|].
  apply (first_two_rows_have_no_volatility 0 week_chart 1).
  - lia.
  - reflexivity.
Defined.

End SeriesExtra.

(** * Properties of the price fetch and of the main block *)

Module MainExtra.
Import Workbook WorkbookSpec SyncSpec Prices Main MainSpec.

(** ** The dictionary of prices *)

Lemma set_keys {V} (k : string) (v : V) (d : list (string * V)) :
  map fst (set k v d)
  = if existsb (String.eqb k) (map fst d) then map fst d else map fst d ++ [k].
Proof.
  induction d as [|[k0 v0] d IH]; [reflexivity|].
  cbn [set map fst existsb]. rewrite (String.eqb_sym k k0).
  destruct (String.eqb k0 k); cbn [map fst orb]; [reflexivity|].
  rewrite IH. destruct (existsb _ _); reflexivity.
Qed.

Lemma set_In {V} (k : string) (v : V) (d : list (string * V)) c x :
  In (c, x) (set k v d) -> (c = k /\ x = v) \/ In (c, x) d.
Proof.
  induction d as [|[k0 v0] d IH]; cbn [set].
  - intros [[= <- <-]|[]]. left. split; reflexivity.
  - destruct (String.eqb_spec k0 k) as [->|_].
    + intros [[= <- <-]|H]; [left; split; reflexivity|right; right; exact H].
    + intros [H|H]; [right; left; exact H|].
      destruct (IH H) as [X|X]; [left; exact X|right; right; exact X].
Qed.

Lemma existsb_eqb_In (k : string) (l : list string) :
  existsb (String.eqb k) l = true <-> In k l.
Proof.
  rewrite existsb_exists. split.
  - intros [x [Hx E]]. apply String.eqb_eq in E. subst x. exact Hx.
  - intros H. exists k. split; [exact H|apply String.eqb_refl].
Qed.

(** The comprehension of line 125: one key per requested coin, in the
    order of first request, each with the dollar price of the payload. *)
Lemma prices_comprehension (data : price_payload) (coin_ids : list string) :
  let prices :=
    fold_left (fun prices coin_id => set coin_id (usd data coin_id) prices)
              coin_ids [] in
  NoDup (map fst prices)
  /\ (forall c, In c (map fst prices) <-> In c coin_ids)
  /\ (forall c v, In (c, v) prices -> v = usd data c)
  /\ (NoDup coin_ids -> map fst prices = coin_ids).
Proof.
  cbn zeta. induction coin_ids as [|k coin_ids IH] using rev_ind.
  - cbn. repeat split; try tauto; constructor.
  - destruct IH as (ND & Keys & Vals & Ord).
    rewrite fold_left_app. cbn [fold_left].
    set (prices := fold_left _ coin_ids []) in *.
    rewrite set_keys.
    destruct (existsb (String.eqb k) (map fst prices)) eqn:E.
    + apply existsb_eqb_In in E. split; [exact ND|]. split; [|split].
      * intros c. rewrite Keys, in_app_iff. cbn [In].
        split; [tauto|]. intros [H|[<-|[]]]; [exact H|]. apply Keys, E.
      * intros c v H. apply set_In in H as [[-> ->]|H]; [reflexivity|].
        apply (Vals c v H).
      * intros N. exfalso. apply NoDup_remove_2 in N. rewrite app_nil_r in N.
        apply N, Keys, E.
    + assert (Hk : ~ In k (map fst prices)).
      { intros H. apply existsb_eqb_In in H. congruence. }
      split; [|split; [|split]].
      * apply NoDup_app; [exact ND|repeat constructor; intros []|].
        intros a Ha [<-|[]]. contradiction.
      * intros c. rewrite !in_app_iff, Keys. reflexivity.
      * intros c v H. apply set_In in H as [[-> ->]|H]; [reflexivity|].
        apply (Vals c v H).
      * intros N. f_equal. apply Ord. apply NoDup_remove_1 in N.
        rewrite app_nil_r in N. exact N.
Qed.

Lemma filter_listed_twice (x : string) (keys l : list string) :
  existsb (String.eqb x) keys = true ->
  filter (fun y => negb (existsb (String.eqb y) keys))
         (filter (fun y => negb (String.eqb y x)) l)
  = filter (fun y => negb (existsb (String.eqb y) keys)) l.
Proof.
  intros H. induction l as [|y l IH]; [reflexivity|].
  cbn [filter]. destruct (String.eqb_spec y x) as [->|_]; cbn [negb filter].
  - rewrite H. cbn [negb]. exact IH.
  - rewrite IH. reflexivity.
Qed.

Lemma filter_listed_last (x : string) (keys l : list string) :
  filter (fun y => negb (existsb (String.eqb y) (keys ++ [x]))) l
  = filter (fun y => negb (existsb (String.eqb y) keys))
           (filter (fun y => negb (String.eqb y x)) l).
Proof.
  induction l as [|y l IH]; [reflexivity|].
  cbn [filter]. rewrite existsb_app. cbn [existsb]. rewrite orb_false_r.
  destruct (String.eqb y x); cbn [negb filter].
  - rewrite orb_true_r. cbn [negb]. exact IH.
  - rewrite orb_false_r, IH. reflexivity.
Qed.

(** The keys of the comprehension, from a dictionary that holds keys
    already. *)
Lemma prices_keys_from (data : price_payload) (coin_ids : list string) :
  forall d : list (string * option Q),
    map fst (fold_left (fun prices coin_id =>
                          set coin_id (usd data coin_id) prices)
                       coin_ids d)
    = map fst d
      ++ filter (fun y => negb (existsb (String.eqb y) (map fst d)))
                (first_occurrences coin_ids).
Proof.
  induction coin_ids as [|x coin_ids IH]; intros d.
  - cbn. rewrite app_nil_r. reflexivity.
  - cbn [fold_left first_occurrences filter]. rewrite IH, set_keys.
    destruct (existsb (String.eqb x) (map fst d)) eqn:E; cbn [negb].
    + rewrite (filter_listed_twice x _ _ E). reflexivity.
    + rewrite <- app_assoc. cbn [app]. rewrite filter_listed_last.
      reflexivity.
Qed.

(** X19.  For a response that was received the price fetch returns a
    dictionary with exactly the requested coins as keys, each once and in
    the order of first request, also when a coin is requested more than
    once, and with the dollar price of the payload as value, the missing
    marker when the payload has no such price. *)
Theorem fetched_prices_cover_the_requested_coins
    (coin_ids : list string) (data : price_payload) :
  exists prices,
    fetch_current_coin_prices coin_ids (Some data) = Some prices
    /\ map fst prices = first_occurrences coin_ids
    /\ NoDup (map fst prices)
    /\ (forall c, In c (map fst prices) <-> In c coin_ids)
    /\ (forall c v, In (c, v) prices -> v = usd data c)
    /\ (NoDup coin_ids -> map fst prices = coin_ids).
Proof.
  eexists. split; [reflexivity|]. split.
  - rewrite (prices_keys_from data coin_ids []). cbn [map app existsb negb].
    clear. induction (first_occurrences coin_ids) as [|y l IH];
      [reflexivity|].
    cbn [filter]. f_equal. exact IH.
  - apply prices_comprehension.
Qed.

(** ** The fresh table of the portfolio *)

Lemma portfolio_df_data_In prices c p :
  In (c, p) (portfolio_df_data prices) <-> In (c, Some p) prices.
Proof.
  unfold portfolio_df_data. rewrite in_flat_map. split.
  - intros [[k [v|]] [H X]]; cbn [fst snd] in X; [|destruct X].
    destruct X as [[= <- <-]|[]]. exact H.
  - intros H. exists (c, Some p). split; [exact H|]. left. reflexivity.
Qed.

Lemma portfolio_df_data_NoDup prices :
  NoDup (map fst prices) -> NoDup (map fst (portfolio_df_data prices)).
Proof.
  induction prices as [|[k v] prices IH]; intros ND; [constructor|].
  cbn [map fst] in ND. apply NoDup_cons_iff in ND as [Hk ND].
  unfold portfolio_df_data. cbn [flat_map fst snd].
  fold (portfolio_df_data prices).
  destruct v as [p|]; cbn [app map fst]; [|apply IH, ND].
  apply NoDup_cons; [|apply IH, ND].
  intros H. apply in_map_iff in H as [[c q] [E H]]. cbn [fst] in E. subst c.
  apply portfolio_df_data_In in H. apply Hk.
  apply (in_map fst) in H. exact H.
Qed.

Lemma key_has_value {V} (d : list (string * V)) c :
  In c (map fst d) -> exists v, In (c, v) d.
Proof.
  intros H. apply in_map_iff in H as [[k v] [E H]]. cbn [fst] in E. subst k.
  exists v. exact H.
Qed.

(** The fresh table that the main block builds from a payload. *)
Lemma portfolio_table (f : fetches) (data : price_payload) :
  prices_response f = Some data ->
  exists table,
    current_portfolio (all_fetched_data f) = Some table
    /\ NoDup (map fst table)
    /\ forall c p, In (c, p) table
                   <-> In c PORTFOLIO_COIN_IDS /\ usd data c = Some p.
Proof.
  intros R. unfold all_fetched_data. cbn [current_portfolio].
  rewrite R. unfold fetch_current_coin_prices.
  destruct (prices_comprehension data PORTFOLIO_COIN_IDS)
    as (ND & Keys & Vals & _).
  cbn zeta in *. set (prices := fold_left _ PORTFOLIO_COIN_IDS []) in *.
  assert (Nonempty : prices <> []).
  { intros E. assert (H : In "bitcoin" (map fst prices))
      by (apply Keys; left; reflexivity).
    rewrite E in H. destruct H. }
  destruct prices as [|kv rest] eqn:Ep; [congruence|]. rewrite <- Ep in *.
  exists (portfolio_df_data prices).
  split; [rewrite Ep; reflexivity|].
  split; [apply portfolio_df_data_NoDup, ND|].
  intros c p. rewrite portfolio_df_data_In. split.
  - intros H. split.
    + apply Keys. apply (in_map fst) in H. exact H.
    + symmetry. apply (Vals c (Some p) H).
  - intros [Hc Hp]. apply Keys in Hc. apply key_has_value in Hc as [v Hv].
    rewrite (Vals c v Hv), Hp in Hv. exact Hv.
Qed.

(** X20.  When the price response was received, the fresh table that the
    main block hands to the synchroniser names no coin twice and has one
    row for each tracked coin to which the payload gives a dollar price,
    with that price; tracked coins without a price are left out. *)
Theorem portfolio_table_lists_the_priced_coins
    (f : fetches) (data : price_payload) :
  prices_response f = Some data ->
  exists table,
    current_portfolio (all_fetched_data f) = Some table
    /\ NoDup (map fst table)
    /\ (forall c p, In (c, p) table
                    <-> In c PORTFOLIO_COIN_IDS /\ usd data c = Some p).
Proof.
  intros R. destruct (portfolio_table f data R) as (table & E & ND & H).
  exists table. split; [exact E|]. split; [exact ND|exact H].
Qed.

Lemma portfolio_table_lists_the_priced_coins_witness :
  exists table,
    current_portfolio (all_fetched_data prices_arrived) = Some table
    /\ NoDup (map fst table)
    /\ (forall c p, In (c, p) table
                    <-> In c PORTFOLIO_COIN_IDS
                        /\ usd [ ("bitcoin", [("usd", Some 200)]);
                                 ("ethereum", []) ] c = Some p).
Proof.
  apply (portfolio_table_lists_the_priced_coins prices_arrived).
  reflexivity.
Defined.

(** ** The dictionary handed to the synchroniser *)

Lemma historical_dfs_keys (f : fetches) (l : list (string * string)) :
  NoDup (map fst l) ->
  let items := flat_map (fun sc => let df := hist_df f (snd sc) in
                                   if empty df then [] else [(fst sc, Some df)])
                        l in
  NoDup (map fst items)
  /\ forall item, In item items ->
       In (fst item) (map fst l) /\ usable (snd item) = true.
Proof.
  cbn zeta. induction l as [|[s c] l IH]; intros ND.
  - split; [constructor|intros item []].
  - cbn [map fst] in ND. apply NoDup_cons_iff in ND as [Hs ND].
    destruct (IH ND) as [IH1 IH2]. cbn [flat_map fst snd].
    destruct (empty (hist_df f c)) eqn:E; cbn [app map fst].
    + split; [exact IH1|]. intros item H. destruct (IH2 item H) as [X Y].
      split; [right; exact X|exact Y].
    + split.
      * apply NoDup_cons; [|exact IH1]. intros H.
        apply in_map_iff in H as [item [X H]]. apply IH2 in H as [H _].
        rewrite X in H. contradiction.
      * intros item [<-|H].
        -- split; [left; reflexivity|]. cbn [snd usable]. rewrite E.
           reflexivity.
        -- destruct (IH2 item H) as [X Y]. split; [right; exact X|exact Y].
Qed.

(** X21.  The dictionary that the main block hands to the synchroniser
    always carries the key of the histories; its history frames have
    distinct symbols, each one of the five configured symbols and each with
    a frame that is not empty; and its fresh price table, when there is
    one, names no coin twice. *)
Theorem main_data_is_well_formed (f : fetches) :
  let d := all_fetched_data f in
  historical_data d = Some (fetched_histories d)
  /\ distinct_symbols d
  /\ (forall item, In item (fetched_histories d) ->
        configured (History (fst item)) /\ usable (snd item) = true)
  /\ (forall table, current_portfolio d = Some table ->
        NoDup (map fst table)).
Proof.
  cbn zeta.
  assert (ND : NoDup (map fst HISTORY_COIN_IDS)).
  { cbn. repeat (apply NoDup_cons; [cbn [In]; intuition discriminate|]).
    apply NoDup_nil. }
  destruct (historical_dfs_keys f HISTORY_COIN_IDS ND) as [K1 K2].
  split; [reflexivity|]. split; [exact K1|]. split.
  - intros item H. apply K2, H.
  - intros table E. destruct (prices_response f) as [data|] eqn:R.
    + destruct (portfolio_table f data R) as (table' & E' & N & _).
      congruence.
    + unfold all_fetched_data in E. cbn [current_portfolio] in E.
      rewrite R in E. discriminate E.
Qed.

(** ** From the payload to the sheet *)

Lemma fresh_price_unique (fresh : list (string * Q)) c p :
  NoDup (map fst fresh) -> In (c, p) fresh -> fresh_price fresh c = Some p.
Proof.
  induction fresh as [|cp fresh IH] using rev_ind; intros ND H; [destruct H|].
  rewrite WorkbookProofs.fresh_price_snoc.
  rewrite map_app in ND. cbn [map] in ND.
  apply in_app_or in H as [H|[->|[]]].
  - destruct (String.eqb_spec (fst cp) c) as [E|_].
    + exfalso. apply NoDup_remove_2 in ND. rewrite app_nil_r in ND.
      apply ND. rewrite E. apply (in_map fst) in H. exact H.
    + apply IH; [|exact H]. apply NoDup_remove_1 in ND.
      rewrite app_nil_r in ND. exact ND.
  - cbn [fst snd]. rewrite String.eqb_refl. reflexivity.
Qed.

Lemma main_saves now f existing :
  main now f existing
  = Some (create_or_update_excel now (all_fetched_data f) existing).
Proof.
  unfold main. cbn zeta.
  assert (K : any_key (all_fetched_data f) = true).
  { unfold any_key.
    destruct (current_portfolio (all_fetched_data f)),
      (market_overview (all_fetched_data f)),
      (global_metrics (all_fetched_data f)),
      (fear_greed_index (all_fetched_data f)); reflexivity. }
  rewrite K. reflexivity.
Qed.

(** X22.  From the payload to the sheet: when the price response was
    received and gives a dollar price to a tracked coin, the workbook that
    the execution saves has on its Current Portfolio sheet a row of that
    coin that shows this price as the current value. *)
Theorem payload_price_reaches_the_sheet
    (now : string) (f : fetches) (existing : option workbook)
    (data : price_payload) (c : string) (p : Q) :
  distinct_titles existing ->
  prices_response f = Some data ->
  In c PORTFOLIO_COIN_IDS ->
  usd data c = Some p ->
  exists wb ws row,
    main now f existing = Some wb
    /\ get_sheet CURRENT_PORTFOLIO_SHEET_NAME wb = Some ws
    /\ first_row ws = FIXED_HEADER
    /\ In row (rows_from_2 ws)
    /\ value_in FIXED_HEADER row COIN_ID = Str c
    /\ value_in FIXED_HEADER row CURRENT_VALUE = Num p.
Proof.
  intros D R Hc Hp.
  destruct (portfolio_table f data R) as (table & E & ND & T).
  assert (Hin : In (c, p) table) by (apply T; split; assumption).
  pose proof (fresh_price_unique table c p ND Hin) as FP.
  set (ws0 := stale_or_created existing CURRENT_PORTFOLIO_SHEET_NAME).
  set (M := fold_left merge_step table (existing_portfolio ws0)).
  pose proof (WorkbookProofs.merged_index table (existing_portfolio ws0) c
                (in_map fst _ _ Hin)) as I.
  fold M in I. unfold in_index in I.
  apply existsb_exists in I as [r [Hr Er]].
  apply WorkbookProofs.cell_eqb_Str in Er.
  exists (create_or_update_excel now (all_fetched_data f) existing),
         (merge_portfolio ws0 table), (out_row (columns M) r).
  split; [apply main_saves|].
  split.
  { rewrite (SyncProofs.portfolio_after_run _ _ _ D), E.
    destruct table as [|cp table']; [destruct Hin|]. reflexivity. }
  rewrite WorkbookProofs.merge_portfolio_rows. fold M.
  split; [reflexivity|]. split; [apply in_map, Hr|].
  unfold out_row. split; [exact Er|].
  rewrite WorkbookProofs.value_in_out_row by (left; reflexivity).
  assert (N : table <> []) by (intros ->; destruct Hin).
  unfold shown, M.
  rewrite (WorkbookProofs.merged_has_current_value table _ N).
  unfold field.
  rewrite (WorkbookProofs.merged_current_value table (existing_portfolio ws0)
             r p Hr); [reflexivity|].
  rewrite Er. exact FP.
Qed.

Lemma payload_price_reaches_the_sheet_witness :
  exists wb ws row,
    main "2024-01-01 09:00:00" prices_arrived None = Some wb
    /\ get_sheet CURRENT_PORTFOLIO_SHEET_NAME wb = Some ws
    /\ first_row ws = FIXED_HEADER
    /\ In row (rows_from_2 ws)
    /\ value_in FIXED_HEADER row COIN_ID = Str "bitcoin"
    /\ value_in FIXED_HEADER row CURRENT_VALUE = Num 200.
Proof.
  apply (payload_price_reaches_the_sheet "2024-01-01 09:00:00" prices_arrived
           None [ ("bitcoin", [("usd", Some 200)]); ("ethereum", []) ]
           "bitcoin" 200).
  - exact I.
  - reflexivity.
  - left. reflexivity.
  - reflexivity.
Defined.

(** X23.  An execution in which every fetch failed still saves the
    workbook, because the key of the histories is always set: the
    synchroniser runs with nothing to write, without metrics and without a
    sentiment table, and so rewrites the dashboard with its two failure
    notices. *)
Theorem failed_execution_still_saves
    (now : string) (f : fetches) (existing : option workbook) :
  all_failed f ->
  distinct_titles existing ->
  exists wb,
    main now f existing = Some wb
    /\ nothing_to_write (all_fetched_data f)
    /\ get_sheet EXECUTIVE_DASHBOARD_SHEET_NAME wb
       = Some (dashboard now None None).
Proof.
  intros (R & M & G & F & H) D.
  exists (create_or_update_excel now (all_fetched_data f) existing).
  split; [apply main_saves|].
  assert (Hist : historical_dfs f = []).
  { unfold historical_dfs. cbn [HISTORY_COIN_IDS flat_map fst snd].
    rewrite !H. reflexivity. }
  split.
  - unfold nothing_to_write, fetched_histories, all_fetched_data.
    cbn [current_portfolio market_overview global_metrics fear_greed_index
         historical_data].
    rewrite R, M, G, F, Hist. cbn. repeat split; auto.
  - rewrite (SyncProofs.dashboard_after_run _ _ _ D).
    unfold all_fetched_data. cbn [global_metrics fear_greed_index].
    rewrite G, F. reflexivity.
Qed.

Lemma failed_execution_still_saves_witness :
  exists wb,
    main "2024-01-01 09:00:00" nothing_arrived None = Some wb
    /\ nothing_to_write (all_fetched_data nothing_arrived)
    /\ get_sheet EXECUTIVE_DASHBOARD_SHEET_NAME wb
       = Some (dashboard "2024-01-01 09:00:00" None None).
Proof.
  apply (failed_execution_still_saves "2024-01-01 09:00:00" nothing_arrived
           None).
  - repeat split.
  - exact I.
Defined.

End MainExtra.

(** * Properties of the dashboard *)

Module DashboardExtra.
Import Workbook DashboardSpec.

(** ** Cells of a sheet that is written cell by cell *)

Lemma le_fold_max (x : nat) (l : list nat) :
  In x l -> (x <= fold_right Nat.max 0 l)%nat.
Proof.
  induction l as [|y l IH]; intros H; [destruct H|].
  cbn [fold_right]. destruct H as [->|H]; [lia|]. specialize (IH H). lia.
Qed.

(** The last assignment to a cell decides its value. *)
Lemma cell_at_unique (cells : list assignment) (r c : nat) (v : cell) :
  In (r, c, v) cells ->
  (forall v', In (r, c, v') cells -> v' = v) ->
  cell_at cells r c = v.
Proof.
  intros H U. unfold cell_at.
  match goal with
  | |- context [find ?f ?l] => destruct (find f l) as [[[r' c'] v']|] eqn:F
  end.
  - apply find_some in F as [Hin E]. cbn [fst snd] in E.
    apply andb_true_iff in E as [E1 E2].
    apply Nat.eqb_eq in E1, E2. subst r' c'. apply in_rev in Hin.
    cbn [snd]. apply U, Hin.
  - apply in_rev in H. pose proof (find_none _ _ F _ H) as X.
    cbn [fst snd] in X. rewrite !Nat.eqb_refl in X. discriminate X.
Qed.

Lemma cell_at_unassigned (cells : list assignment) (r c : nat) :
  (forall v, ~ In (r, c, v) cells) -> cell_at cells r c = Blank.
Proof.
  intros U. unfold cell_at.
  match goal with
  | |- context [find ?f ?l] => destruct (find f l) as [[[r' c'] v']|] eqn:F
  end; [|reflexivity].
  apply find_some in F as [Hin E]. cbn [fst snd] in E.
  apply andb_true_iff in E as [E1 E2].
  apply Nat.eqb_eq in E1, E2. subst r' c'. apply in_rev in Hin.
  exfalso. apply (U v'), Hin.
Qed.

(** Reading a cell of the grid gives what was last assigned to it. *)
Lemma cell_of_grid (cells : list assignment) (r c : nat) :
  (1 <= r)%nat -> (1 <= c)%nat ->
  cell_of (grid_of cells) r c = cell_at cells r c.
Proof.
  intros Hr Hc. unfold cell_of, grid_of.
  set (height := fold_right Nat.max 0%nat (map (fun a => fst (fst a)) cells)).
  set (width := fold_right Nat.max 0%nat (map (fun a => snd (fst a)) cells)).
  rewrite nth_error_map, nth_error_seq.
  destruct (r - 1 <? height)%nat eqn:Er; cbn [option_map].
  - replace (1 + (r - 1))%nat with r by lia.
    rewrite nth_error_map, nth_error_seq.
    destruct (c - 1 <? width)%nat eqn:Ec; cbn [option_map].
    + replace (1 + (c - 1))%nat with c by lia. reflexivity.
    + symmetry. apply cell_at_unassigned. intros v H.
      apply Nat.ltb_ge in Ec.
      assert (c <= width)%nat; [|lia].
      apply le_fold_max.
      apply (in_map (fun a : assignment => snd (fst a))) in H. exact H.
  - symmetry. apply cell_at_unassigned. intros v H.
    apply Nat.ltb_ge in Er.
    assert (r <= height)%nat; [|lia].
    apply le_fold_max.
    apply (in_map (fun a : assignment => fst (fst a))) in H. exact H.
Qed.

Lemma In_combine_seq {A} (l : list A) (k j : nat) (m : A) :
  In (j, m) (combine (seq k (List.length l)) l)
  <-> exists i, j = (k + i)%nat /\ nth_error l i = Some m.
Proof.
  revert k. induction l as [|x l IH]; intros k.
  - cbn. split; [tauto|]. intros [[|i] [_ H]]; discriminate H.
  - cbn [List.length seq combine In]. rewrite IH. split.
    + intros [[= <- <-]|[i [-> H]]].
      * exists 0%nat. split; [lia|reflexivity].
      * exists (S i). split; [lia|exact H].
    + intros [[|i] [-> H]].
      * left. cbn in H. injection H as <-. f_equal. lia.
      * right. exists i. split; [lia|exact H].
Qed.

(** The assignments that the dashboard makes ahead of the metrics. *)
Lemma not_in_heading now (r c : nat) v :
  (6 <= r)%nat ->
  ~ In (r, c, v)
       ([(1, 1, Str "Cryptocurrency Market Dashboard")]
        ++ map (fun c => (1, c, Blank)) (seq 2 7)
        ++ [(3, 1, Str (String.append "Generated: " now));
            (5, 1, Str "🔑 Key Market Metrics")])%nat.
Proof.
  intros Hr H. rewrite !in_app_iff in H.
  destruct H as [H|[H|H]].
  - destruct H as [H|[]]. injection H; intros; lia.
  - apply in_map_iff in H as [x [H _]]. injection H; intros; lia.
  - destruct H as [H|[H|[]]]; (injection H; intros; lia).
Qed.

Lemma dashboard_cells now metrics fng :
  dashboard now metrics fng
  = grid_of
      (([(1, 1, Str "Cryptocurrency Market Dashboard")]
        ++ map (fun c => (1, c, Blank)) (seq 2 7)
        ++ [(3, 1, Str (String.append "Generated: " now));
            (5, 1, Str "🔑 Key Market Metrics")])
       ++ metric_cells metrics
       ++ [(5, 4, Str "😰 Market Sentiment")]
       ++ sentiment_cells fng)%nat.
Proof.
  unfold dashboard, metric_cells, sentiment_cells.
  rewrite <- !app_assoc. reflexivity.
Qed.

Lemma in_metric_cells_col metrics r c v :
  In (r, c, v) (metric_cells metrics) -> (c = 1 \/ c = 2)%nat.
Proof.
  unfold metric_cells. destruct metrics as [[|m ms]|].
  - intros [H|[]]. injection H; intros; lia.
  - intros H. apply in_flat_map in H as [ir [_ H]].
    destruct H as [H|[H|[]]]; (injection H; intros; lia).
  - intros [H|[]]. injection H; intros; lia.
Qed.

Lemma in_sentiment_cells_col fng r c v :
  In (r, c, v) (sentiment_cells fng) -> c = 4%nat.
Proof.
  unfold sentiment_cells. destruct fng as [[|x xs]|].
  - intros [H|[]]. injection H; intros; lia.
  - intros [H|[H|[]]]; (injection H; intros; lia).
  - intros [H|[]]. injection H; intros; lia.
Qed.

(** A cell of the metrics block is decided by the assignments of that
    block. *)
Lemma metric_cell now metrics fng (r c : nat) v :
  (6 <= r)%nat -> (c = 1 \/ c = 2)%nat ->
  In (r, c, v) (metric_cells metrics) ->
  (forall v', In (r, c, v') (metric_cells metrics) -> v' = v) ->
  cell_of (dashboard now metrics fng) r c = v.
Proof.
  intros Hr Hc H U. rewrite dashboard_cells, cell_of_grid by lia.
  apply cell_at_unique.
  - apply in_or_app. right. apply in_or_app. left. exact H.
  - intros v' H'. apply in_app_or in H' as [H'|H'].
    { exfalso. apply (not_in_heading now r c v' Hr H'). }
    apply in_app_or in H' as [H'|H']; [apply U, H'|].
    apply in_app_or in H' as [H'|H'].
    + destruct H' as [H'|[]]. injection H'; intros; lia.
    + apply in_sentiment_cells_col in H'. lia.
Qed.

(** A cell of the sentiment block is decided by the assignments of that
    block. *)
Lemma sentiment_cell now metrics fng (r : nat) v :
  (6 <= r)%nat ->
  In (r, 4%nat, v) (sentiment_cells fng) ->
  (forall v', In (r, 4%nat, v') (sentiment_cells fng) -> v' = v) ->
  cell_of (dashboard now metrics fng) r 4 = v.
Proof.
  intros Hr H U. rewrite dashboard_cells, cell_of_grid by lia.
  apply cell_at_unique.
  - apply in_or_app. right. apply in_or_app. right.
    apply in_or_app. right. exact H.
  - intros v' H'. apply in_app_or in H' as [H'|H'].
    { exfalso. apply (not_in_heading now r 4 v' Hr H'). }
    apply in_app_or in H' as [H'|H'].
    { apply in_metric_cells_col in H'. lia. }
    apply in_app_or in H' as [H'|H']; [|apply U, H'].
    destruct H' as [H'|[]]. injection H'; intros; lia.
Qed.

(** X24.  The dashboard lists the metrics from row 6 on, one row per
    metric in the order of the table: the name in column A and the text of
    the value in column B. *)
Theorem dashboard_lists_the_metrics
    (now : string) (ms : list (string * option Q))
    (fng : option (list Sentiment.fng_row))
    (i : nat) (name : string) (value : option Q) :
  nth_error ms i = Some (name, value) ->
  cell_of (dashboard now (Some ms) fng) (6 + i) 1 = Str name
  /\ cell_of (dashboard now (Some ms) fng) (6 + i) 2
     = Str (display_metric name value).
Proof.
  intros H. destruct ms as [|m0 ms']; [destruct i; discriminate H|].
  assert (In_block : forall c v,
            In (6 + i, c, v)%nat (metric_cells (Some (m0 :: ms')))
            <-> (c = 1%nat /\ v = Str name)
                \/ (c = 2%nat /\ v = Str (display_metric name value))).
  { intros c v. unfold metric_cells. rewrite in_flat_map. split.
    - intros [[j m] [Hc Hx]]. apply In_combine_seq in Hc as [i' [-> Hm]].
      cbn [fst snd] in Hx.
      destruct Hx as [Hx|[Hx|[]]]; injection Hx as E <- <-;
        assert (i' = i) by lia; subst i'; rewrite H in Hm;
        injection Hm as <-; [left|right]; split; reflexivity.
    - intros X. exists ((6 + i)%nat, (name, value)). split.
      + apply In_combine_seq. exists i. split; [reflexivity|exact H].
      + cbn [fst snd]. destruct X as [[-> ->]|[-> ->]];
          [left|right; left]; reflexivity. }
  split.
  - apply metric_cell; [lia|left; reflexivity| |].
    + apply In_block. left. split; reflexivity.
    + intros v' H'. apply In_block in H' as [[_ ->]|[X _]];
        [reflexivity|discriminate X].
  - apply metric_cell; [lia|right; reflexivity| |].
    + apply In_block. right. split; reflexivity.
    + intros v' H'. apply In_block in H' as [[X _]|[_ ->]];
        [discriminate X|reflexivity].
Qed.

Lemma dashboard_lists_the_metrics_witness :
  cell_of (dashboard "2024-01-01 09:00:00" (Some two_metrics) None) (6 + 1) 1
  = Str "Total Markets"
  /\ cell_of (dashboard "2024-01-01 09:00:00" (Some two_metrics) None) (6 + 1) 2
     = Str (display_metric "Total Markets" None).
Proof.
  apply (dashboard_lists_the_metrics "2024-01-01 09:00:00" two_metrics None 1
           "Total Markets" None).
  reflexivity.
Defined.

Lemma last_snoc {A} (l : list A) (x d : A) :
  last (tl (l ++ [x])) (hd d (l ++ [x])) = x.
Proof.
  destruct l as [|a l]; [reflexivity|]. cbn [app tl hd]. apply last_last.
Qed.

(** X25.  The sentiment block of the dashboard shows the last row of the
    sentiment table: its index in D6 and its classification in D7, each
    replaced by N/A when the row lacks it. *)
Theorem dashboard_shows_the_last_sentiment_row
    (now : string) (metrics : option (list (string * option Q)))
    (rows : list Sentiment.fng_row) (latest : Sentiment.fng_row) :
  let ws := dashboard now metrics (Some (rows ++ [latest])) in
  cell_of ws 6 4 = Str (index_text latest)
  /\ cell_of ws 7 4 = Str (classification_text latest).
Proof.
  cbn zeta.
  assert (S : sentiment_cells (Some (rows ++ [latest]))
              = [(6, 4, Str (index_text latest));
                 (7, 4, Str (classification_text latest))]%nat).
  { unfold sentiment_cells.
    pose proof (last_snoc rows latest latest) as L.
    destruct (rows ++ [latest]) as [|r rs] eqn:E.
    - destruct rows; discriminate E.
    - cbn [tl hd] in L. rewrite L. reflexivity. }
  split.
  - apply sentiment_cell; [lia| |]; rewrite S.
    + left. reflexivity.
    + intros v' [H|[H|[]]]; injection H; intros; [congruence|lia].
  - apply sentiment_cell; [lia| |]; rewrite S.
    + right. left. reflexivity.
    + intros v' [H|[H|[]]]; injection H; intros; [lia|congruence].
Qed.

(** X26.  Without a metrics table, or with an empty one, cell A6 of the
    dashboard holds the notice that the metrics could not be fetched;
    without a sentiment table, or with an empty one, cell D6 holds the
    notice for the sentiment and D7 stays blank. *)
Theorem dashboard_reports_missing_tables
    (now : string) (metrics : option (list (string * option Q)))
    (fng : option (list Sentiment.fng_row)) :
  (missing metrics ->
   cell_of (dashboard now metrics fng) 6 1
   = Str "Unable to fetch global metrics")
  /\ (missing fng ->
      cell_of (dashboard now metrics fng) 6 4
      = Str "Unable to fetch sentiment data"
      /\ cell_of (dashboard now metrics fng) 7 4 = Blank).
Proof.
  split.
  - intros M.
    assert (E : metric_cells metrics
                = [(6, 1, Str "Unable to fetch global metrics")]%nat)
      by (destruct M as [-> | ->]; reflexivity).
    apply metric_cell; [lia|left; reflexivity| |]; rewrite E.
    + left. reflexivity.
    + intros v' [H|[]]. injection H; intros; congruence.
  - intros M.
    assert (E : sentiment_cells fng
                = [(6, 4, Str "Unable to fetch sentiment data")]%nat)
      by (destruct M as [-> | ->]; reflexivity).
    split.
    + apply sentiment_cell; [lia| |]; rewrite E.
      * left. reflexivity.
      * intros v' [H|[]]. injection H; intros; congruence.
    + rewrite dashboard_cells, cell_of_grid by lia.
      apply cell_at_unassigned. intros v H.
      apply in_app_or in H as [H|H].
      { apply (not_in_heading now 7 4 v ltac:(lia) H). }
      apply in_app_or in H as [H|H].
      { apply in_metric_cells_col in H. lia. }
      apply in_app_or in H as [H|H].
      * destruct H as [H|[]]. injection H; intros; lia.
      * rewrite E in H. destruct H as [H|[]]. injection H; intros; lia.
Qed.

Lemma dashboard_reports_missing_tables_witness :
  cell_of (dashboard "2024-01-01 09:00:00" None (Some [])) 6 1
  = Str "Unable to fetch global metrics".
Proof.
  apply (proj1 (dashboard_reports_missing_tables "2024-01-01 09:00:00" None
                  (Some []))).
  left. reflexivity.
Defined.

End DashboardExtra.

(** * Further properties of the sentiment normaliser *)

Module SentimentExtra.
Import Sentiment SentimentSpec LatestSpec SentimentProofs.

(** X27.  One record whose index has a fractional part empties the whole
    table: the cast to the nullable integer type raises, and the normaliser
    answers every exception with the empty frame. *)
Theorem fractional_index_empties_the_table
    (argsort : list fng_row -> list fng_row)
    (data : list fng_entry) (e : fng_entry) (q : Q) :
  In e data ->
  value e = Parsed q ->
  is_integral q = false ->
  get_fear_greed_index argsort (Some data) = [].
Proof.
  intros H V F. unfold get_fear_greed_index.
  assert (C : forallb (fun e => castable (value e)) data = false).
  { destruct (forallb _ data) eqn:E; [|reflexivity].
    rewrite forallb_forall in E. specialize (E e H).
    rewrite V in E. unfold castable, to_Int64 in E. rewrite F in E.
    discriminate E. }
  rewrite C, andb_false_r. reflexivity.
Qed.

Lemma fractional_index_empties_the_table_witness :
  get_fear_greed_index insertion_sort (Some fractional_payload) = [].
Proof.
  apply (fractional_index_empties_the_table insertion_sort fractional_payload
           (mkEntry (Parsed 0%Z) (Parsed (81 # 2)) (Parsed "Fear")) (81 # 2)).
  - right. left. reflexivity.
  - reflexivity.
  - reflexivity.
Defined.

(** An index outside the 64-bit range has the same effect. *)
Lemma index_outside_the_range_empties_the_table
    (argsort : list fng_row -> list fng_row)
    (data : list fng_entry) (e : fng_entry) (q : Q) :
  In e data ->
  value e = Parsed q ->
  in_int64 (Qfloor q) = false ->
  get_fear_greed_index argsort (Some data) = [].
Proof.
  intros H V F. unfold get_fear_greed_index.
  assert (C : forallb (fun e => castable (value e)) data = false).
  { destruct (forallb _ data) eqn:E; [|reflexivity].
    rewrite forallb_forall in E. specialize (E e H).
    rewrite V in E. unfold castable, to_Int64 in E.
    rewrite F, andb_false_r in E. discriminate E. }
  rewrite C, andb_false_r. reflexivity.
Qed.

(** X28.  A payload that is not empty, in which every record carries the
    three keys and every index value is missing or a whole number of the
    64-bit range, is accepted whatever the values under the keys are: the
    table has one row per record, and a timestamp or an index that does not
    parse and a classification that is [null] leave their field of the row
    empty. *)
Theorem regular_payload_keeps_every_record
    (argsort : list fng_row -> list fng_row) (data : list fng_entry) :
  orders_by_date argsort ->
  data <> [] ->
  Forall complete data ->
  Forall (fun e => fits_Int64 (value e)) data ->
  let t := get_fear_greed_index argsort (Some data) in
  Permutation (map normalise data) t
  /\ List.length t = List.length data.
Proof.
  intros O N C K. cbn zeta.
  assert (A : accepted data).
  { destruct data as [|e data]; [congruence|].
    pose proof (Forall_inv C) as (C1 & C2 & C3).
    repeat split; try (exists e; split; [left; reflexivity|assumption]).
    apply Forall_forall, K. }
  apply accepted_condition in A. unfold get_fear_greed_index. rewrite A.
  split.
  - apply sort_values_Date_perm, O.
  - rewrite <- (Permutation_length (sort_values_Date_perm argsort O _)).
    apply length_map.
Qed.

Lemma regular_payload_keeps_every_record_witness :
  Permutation
    [ mkFng (Some "1970-01-02") (Some 50%Z) (Some "Neutral");
      mkFng None None None ]
    (get_fear_greed_index insertion_sort (Some payload_with_gaps))
  /\ List.length (get_fear_greed_index insertion_sort (Some payload_with_gaps))
     = 2%nat.
Proof.
  apply (regular_payload_keeps_every_record insertion_sort payload_with_gaps).
  - exact insertion_sort_orders_by_date.
  - discriminate.
  - repeat constructor.
  - repeat constructor.
    + intros q [= <-]. exists 50%Z. split; [reflexivity|].
      unfold INT64_MIN, INT64_MAX. lia.
    + intros q H. discriminate H.
Defined.

(** ** The last row *)

Lemma date_le_trans (a b c : fng_row) :
  date_le a b -> date_le b c -> date_le a c.
Proof.
  unfold date_le.
  destruct (Date a) as [x|], (Date b) as [y|], (Date c) as [z|];
    try tauto.
  apply string_leb_trans.
Qed.

Lemma date_le_refl (a : fng_row) : date_le a a.
Proof.
  unfold date_le. destruct (Date a) as [x|]; [|exact I].
  destruct (String.leb_total x x); assumption.
Qed.

Lemma sorted_last_is_greatest (rows : list fng_row) (latest : fng_row) :
  ascending (rows ++ [latest]) ->
  forall r, In r (rows ++ [latest]) -> date_le r latest.
Proof.
  intros S. apply Sorted_StronglySorted in S.
  2:{ intros a b c. apply date_le_trans. }
  induction rows as [|x rows IH]; intros r H.
  - destruct H as [<-|[]]. apply date_le_refl.
  - cbn [app] in S. apply StronglySorted_inv in S as [S F].
    destruct H as [<-|H]; [|apply IH; assumption].
    rewrite Forall_forall in F. apply F. apply in_or_app. right. left.
    reflexivity.
Qed.

(** X29.  Whatever order the sort gives to rows of equal date, the last row
    of the sentiment table, the one that the dashboard shows, is the
    latest: no row has a later date, and when some record has no date the
    last row is one without a date. *)
Theorem last_row_is_the_latest
    (argsort : list fng_row -> list fng_row)
    (payload : option (list fng_entry))
    (rows : list fng_row) (latest : fng_row) :
  orders_by_date argsort ->
  get_fear_greed_index argsort payload = rows ++ [latest] ->
  (forall r, In r (rows ++ [latest]) -> date_le r latest)
  /\ ((exists r, In r (rows ++ [latest]) /\ Date r = None) ->
      Date latest = None).
Proof.
  intros O E.
  assert (A : ascending (rows ++ [latest])).
  { rewrite <- E.
    unfold get_fear_greed_index. destruct payload as [data|]; [|constructor].
    destruct (_ && _); [apply sort_values_Date_ascending, O|constructor]. }
  pose proof (sorted_last_is_greatest rows latest A) as G.
  split; [exact G|].
  intros [r [Hr Dr]]. specialize (G r Hr). unfold date_le in G.
  rewrite Dr in G. destruct (Date latest); [destruct G|reflexivity].
Qed.

Lemma last_row_is_the_latest_witness :
  date_le (mkFng (Some "1970-01-01") (Some 40%Z) (Some "Fear"))
          (mkFng (Some "1970-01-03") (Some 60%Z) (Some "Greed")).
Proof.
  apply (proj1 (last_row_is_the_latest insertion_sort three_day_payload
                  [ mkFng (Some "1970-01-01") (Some 40%Z) (Some "Fear");
                    mkFng (Some "1970-01-02") (Some 50%Z) (Some "Neutral") ]
                  (mkFng (Some "1970-01-03") (Some 60%Z) (Some "Greed"))
                  insertion_sort_orders_by_date eq_refl)).
  left. reflexivity.
Defined.

End SentimentExtra.

(** * The run as a function of the workbook *)

Module RunExtra.
Import Workbook WorkbookSpec SyncSpec RunSpec.

(** ** The content of every sheet after a run *)

Lemma get_sheet_histories_last name items wb :
  get_sheet name (fold_left write_history items wb)
  = overwrite (last_history items name) (get_sheet name wb).
Proof.
  induction items as [|item items IH] using rev_ind; [reflexivity|].
  unfold last_history. rewrite !fold_left_app. cbn [fold_left].
  rewrite SyncProofs.get_sheet_write_history, IH.
  fold (last_history items name).
  destruct (String.eqb name (history_sheet_name (fst item))
            && usable (snd item)); [|reflexivity].
  cbn [overwrite].
  destruct (last_history items name); cbn [overwrite];
    destruct (get_sheet name wb); reflexivity.
Qed.

Lemma get_sheet_replace_table name title df wb :
  get_sheet name (replace_if_usable title df wb)
  = overwrite (table_for title name df) (get_sheet name wb).
Proof.
  rewrite SyncProofs.get_sheet_replace. unfold table_for.
  destruct (String.eqb name title && usable df); reflexivity.
Qed.

Lemma get_sheet_before_reorder name now all_data existing :
  get_sheet name (before_reorder now all_data existing)
  = written now all_data name
      (ensured name (get_sheet name (loaded existing))).
Proof.
  unfold before_reorder, written. cbn zeta.
  rewrite SyncProofs.get_sheet_update, get_sheet_histories_last,
    !get_sheet_replace_table, SyncProofs.get_sheet_update,
    SyncProofs.get_sheet_ensure_all.
  fold (ensured name (get_sheet name (loaded existing))).
  destruct (String.eqb name EXECUTIVE_DASHBOARD_SHEET_NAME); reflexivity.
Qed.

Lemma last_history_other items name :
  last_char name <> Some ")"%char -> last_history items name = None.
Proof.
  intros H. unfold last_history.
  induction items as [|item items IH] using rev_ind; [reflexivity|].
  rewrite fold_left_app. cbn [fold_left].
  rewrite (SyncProofs.not_a_history_sheet name (fst item) H). exact IH.
Qed.

(** Writing a second time changes nothing. *)
Lemma written_twice now all_data name sheet :
  written now all_data name (ensured name (written now all_data name
                                             (ensured name sheet)))
  = written now all_data name (ensured name sheet).
Proof.
  destruct (String.eqb_spec name CURRENT_PORTFOLIO_SHEET_NAME) as [->|N].
  - unfold written, table_for. cbn zeta.
    rewrite last_history_other by discriminate.
    change (String.eqb CURRENT_PORTFOLIO_SHEET_NAME
              EXECUTIVE_DASHBOARD_SHEET_NAME) with false.
    change (String.eqb CURRENT_PORTFOLIO_SHEET_NAME
              MARKET_OVERVIEW_SHEET_NAME) with false.
    change (String.eqb CURRENT_PORTFOLIO_SHEET_NAME
              GLOBAL_METRICS_SHEET_NAME) with false.
    change (String.eqb CURRENT_PORTFOLIO_SHEET_NAME
              FEAR_GREED_INDEX_SHEET_NAME) with false.
    rewrite String.eqb_refl. cbn [andb overwrite].
    destruct sheet as [ws|]; cbn [ensured option_map].
    + rewrite SyncProofs.merge_or_keep_idempotent. reflexivity.
    + change (existsb (String.eqb CURRENT_PORTFOLIO_SHEET_NAME) SHEET_ORDER)
        with true.
      cbn [ensured option_map].
      rewrite SyncProofs.merge_or_keep_idempotent. reflexivity.
  - unfold written, table_for. cbn zeta.
    apply String.eqb_neq in N. rewrite N.
    destruct (existsb (String.eqb name) SHEET_ORDER) eqn:O;
      destruct sheet as [ws|]; cbn [ensured]; try rewrite O;
      destruct (String.eqb name EXECUTIVE_DASHBOARD_SHEET_NAME);
      destruct (String.eqb name MARKET_OVERVIEW_SHEET_NAME && _);
      destruct (String.eqb name GLOBAL_METRICS_SHEET_NAME && _);
      destruct (String.eqb name FEAR_GREED_INDEX_SHEET_NAME && _);
      destruct (last_history _ name);
      cbn [overwrite option_map ensured]; try rewrite O; reflexivity.
Qed.

(** ** Workbooks with the same sheets *)

Lemma get_sheet_absent name wb :
  ~ In name (sheetnames wb) -> get_sheet name wb = None.
Proof.
  intros H. destruct (get_sheet name wb) as [ws|] eqn:E; [|reflexivity].
  exfalso. apply H. apply SyncProofs.get_sheet_In in E.
  apply (in_map fst) in E. exact E.
Qed.

(** Two workbooks with the same tabs in the same order and the same
    content under every title are the same. *)
Lemma workbook_ext (wb wb' : workbook) :
  sheetnames wb = sheetnames wb' ->
  NoDup (sheetnames wb) ->
  (forall name, get_sheet name wb = get_sheet name wb') ->
  wb = wb'.
Proof.
  revert wb'. induction wb as [|[n ws] wb IH]; intros [|[n' ws'] wb'] Names ND G;
    try discriminate Names; [reflexivity|].
  cbn [sheetnames map fst] in Names, ND. injection Names as <- Names.
  apply NoDup_cons_iff in ND as [Hn ND].
  pose proof (G n) as Gn. cbn [get_sheet] in Gn.
  rewrite String.eqb_refl in Gn. injection Gn as <-.
  f_equal. apply IH; [exact Names|exact ND|].
  intros name. specialize (G name). cbn [get_sheet] in G.
  destruct (String.eqb_spec name n) as [E|_]; [|exact G].
  rewrite E. rewrite !get_sheet_absent; [reflexivity| |exact Hn].
  fold (sheetnames wb') in Names. rewrite <- Names. exact Hn.
Qed.

Lemma ensure_all_present (order : list string) (wb : workbook) :
  (forall n, In n order -> In n (sheetnames wb)) ->
  fold_left ensure_sheet order wb = wb.
Proof.
  induction order as [|m order IH]; intros H; [reflexivity|].
  cbn [fold_left]. unfold ensure_sheet at 2.
  assert (P : has_sheet m wb = true).
  { unfold has_sheet. apply existsb_exists. exists m.
    split; [apply H; left; reflexivity|apply String.eqb_refl]. }
  rewrite P. apply IH. intros n Hn. apply H. right. exact Hn.
Qed.

(** Tabs that stand in the fixed order already are not moved. *)
Lemma reorder_in_place (order : list string) :
  forall (i : nat) (wb : workbook) (pre post : list string),
    NoDup (sheetnames wb) ->
    sheetnames wb = pre ++ order ++ post ->
    List.length pre = i ->
    reorder order i wb = wb.
Proof.
  induction order as [|n order IH]; intros i wb pre post ND Names L;
    [reflexivity|].
  cbn [reorder].
  assert (Hn : ~ In n pre).
  { rewrite Names in ND. cbn [app] in ND. apply NoDup_remove_2 in ND.
    intros X. apply ND, in_or_app. left. exact X. }
  assert (Idx : index_of n (sheetnames wb) = i).
  { rewrite Names. cbn [app]. rewrite SyncExtra.index_of_app by exact Hn.
    exact L. }
  rewrite Idx, Nat.eqb_refl, andb_false_r.
  apply (IH (S i) wb (pre ++ [n]) post ND).
  - rewrite Names, <- app_assoc. reflexivity.
  - rewrite length_app. cbn. lia.
Qed.

(** X30.  A run is idempotent on the whole workbook: a second run at the
    same time with the same fetched data saves the workbook that the first
    run saved, sheet by sheet and tab by tab. *)
Theorem second_run_changes_nothing
    (now : string) (all_data : fetched) (existing : option workbook) :
  distinct_titles existing ->
  let once := create_or_update_excel now all_data existing in
  create_or_update_excel now all_data (Some once) = once.
Proof.
  intros D. cbn zeta.
  set (once := create_or_update_excel now all_data existing).
  assert (ND : NoDup (sheetnames once))
    by apply (SyncProofs.distinct_titles_after_run now all_data existing D).
  assert (Names : sheetnames once
                  = [] ++ SHEET_ORDER ++ other_titles
                           (before_reorder now all_data existing)).
  { unfold once. rewrite SyncProofs.run_is_reorder.
    apply (SyncExtra.reorder_sheetnames SHEET_ORDER []
             (before_reorder now all_data existing)).
    - apply SyncProofs.NoDup_before_reorder, D.
    - apply SyncExtra.NoDup_SHEET_ORDER.
    - intros n Hn. rewrite SyncExtra.sheetnames_before_reorder.
      pose proof (SyncProofs.get_sheet_ensure_all n SHEET_ORDER
                    (loaded existing)) as G.
      rewrite (WorkbookProofs.In_existsb_eqb n SHEET_ORDER Hn) in G.
      destruct (get_sheet n (loaded existing));
        eapply SyncExtra.get_sheet_name_In; exact G. }
  assert (Present : forall n, In n SHEET_ORDER -> In n (sheetnames once)).
  { intros n Hn. rewrite Names. apply in_or_app. right.
    apply in_or_app. left. exact Hn. }
  rewrite SyncProofs.run_is_reorder.
  assert (B : before_reorder now all_data (Some once) = once).
  { apply workbook_ext.
    - rewrite SyncExtra.sheetnames_before_reorder. cbn [loaded].
      rewrite (ensure_all_present SHEET_ORDER once Present). reflexivity.
    - apply (SyncProofs.NoDup_before_reorder now all_data (Some once)).
      exact ND.
    - intros name. rewrite get_sheet_before_reorder. cbn [loaded].
      unfold once at 1 2.
      rewrite (SyncProofs.get_sheet_after_run name now all_data existing D).
      rewrite get_sheet_before_reorder. apply written_twice. }
  rewrite B.
  apply (reorder_in_place SHEET_ORDER 0 once [] _ ND Names). reflexivity.
Qed.

Lemma second_run_changes_nothing_witness :
  create_or_update_excel "2024-01-01 09:00:00" prices_only
    (Some (create_or_update_excel "2024-01-01 09:00:00" prices_only
             workbook_with_notes))
  = create_or_update_excel "2024-01-01 09:00:00" prices_only
      workbook_with_notes.
Proof.
  apply (second_run_changes_nothing "2024-01-01 09:00:00" prices_only
           workbook_with_notes).
  cbn. repeat (apply NoDup_cons; [cbn [In]; intuition discriminate|]).
  apply NoDup_nil.
Defined.

End RunExtra.
